(** * SpanishVIP teacher-screening bot: the conversation state machine

    A shallow embedding of [src/index.ts].  The repository holds two
    editions of the same Cloudflare Worker:

    - the five-question worker (lines 1-725), whose buttons carry
      ["q1:yes"]-style codes, embedded in [Module V1];
    - the eight-question worker (lines 727-1540), whose buttons carry
      ["Q1_YES"]-style codes that [CALLBACK_VALUE_MAP] turns into canonical
      values, and which has a free-text age step, embedded in [Module V2].

    Conventions of the embedding.

    - JavaScript numbers that hold integers (chat ids, epoch milliseconds,
      hours, ages) are [Z].  Digit strings too long for a double are far
      above every constant they are compared with, so exact integers give
      the same branches.
    - Strings are [string]: sequences of code units below 256, which is
      all that the worker's own literals and the numerals it parses need.
    - An [async] handler is a computation in the monad [M]: it reads the
      clock value of its invocation, threads the KV namespace and appends
      to a log of externally visible effects, in program order.
    - The collaborators ([fetch], the KV binding) are taken not to throw.
    - A KV entry written with [expirationTtl] carries its expiry instant and
      reads as absent from that instant on. *)

From Stdlib Require Import ZArith String Ascii List Bool Lia Sorted.
From stdpp Require Import base option list gmap strings.
Import ListNotations.

Local Open Scope Z_scope.

(** ** JavaScript primitives used by the workers *)

Module Js.

(** ECMAScript white space and line terminators among the code units
    below 256: TAB, LF, VT, FF, CR, SP and NBSP. *)
Definition is_ws (c : ascii) : bool :=
  let n := nat_of_ascii c in
  ((9 <=? n)%nat && (n <=? 13)%nat) || (n =? 32)%nat || (n =? 160)%nat.

Definition is_digit (c : ascii) : bool :=
  let n := nat_of_ascii c in (48 <=? n)%nat && (n <=? 57)%nat.

Definition digit_val (c : ascii) : Z := Z.of_nat (nat_of_ascii c) - 48.

Fixpoint skip_ws (s : string) : string :=
  match s with
  | String c s' => if is_ws c then skip_ws s' else s
  | EmptyString => s
  end.

Definition rev_string (s : string) : string :=
  string_of_list_ascii (List.rev (list_ascii_of_string s)).

(** [String.prototype.trim] *)
Definition trim (s : string) : string :=
  rev_string (skip_ws (rev_string (skip_ws s))).

(** The longest run of decimal digits at the head of [s], as a number;
    [acc] is [None] until a digit has been read. *)
Fixpoint digits (s : string) (acc : option Z) : option Z :=
  match s with
  | String c s' =>
      if is_digit c
      then digits s' (Some (10 * default 0 acc + digit_val c))
      else acc
  | EmptyString => acc
  end.

(** [parseInt(s, 10)]: leading white space, an optional sign, then the
    longest digit prefix; [None] is [NaN]. *)
Definition parseInt (s : string) : option Z :=
  match skip_ws s with
  | String "-" s' => Z.opp <$> digits s' None
  | String "+" s' => digits s' None
  | s' => digits s' None
  end.

(** [x || d] on the result of [parseInt]: [NaN] and [0] are falsy. *)
Definition or_default (x : option Z) (d : Z) : Z :=
  match x with
  | Some n => if n =? 0 then d else n
  | None => d
  end.

(** [s.indexOf(c)] for a one-character needle; [None] is [-1]. *)
Fixpoint indexOf (c : ascii) (s : string) : option nat :=
  match s with
  | EmptyString => None
  | String c' s' =>
      if Ascii.eqb c' c then Some O else S <$> indexOf c s'
  end.

(** [s.slice(0, n)] and [s.slice(n)] for [0 <= n]. *)
Fixpoint take (n : nat) (s : string) : string :=
  match n, s with
  | S n', String c s' => String c (take n' s')
  | _, _ => EmptyString
  end.

Fixpoint drop (n : nat) (s : string) : string :=
  match n, s with
  | S n', String _ s' => drop n' s'
  | _, _ => s
  end.

(** [s.startsWith(p)] *)
Definition startsWith (s p : string) : bool := String.prefix p s.

(** [s.split(/\s+/)]: the pieces between maximal white-space runs.
    [cur] is the piece being read, reversed; [in_run] tells whether the
    previous character belonged to a separator. *)
Fixpoint split_ws_from (s : string) (cur : list ascii) (in_run : bool)
  : list string :=
  match s with
  | EmptyString => [string_of_list_ascii (List.rev cur)]
  | String c s' =>
      if is_ws c then
        if in_run then split_ws_from s' cur true
        else string_of_list_ascii (List.rev cur) :: split_ws_from s' [] true
      else split_ws_from s' (c :: cur) false
  end.

Definition split_ws (s : string) : list string := split_ws_from s [] false.

(** *** Property lookup on an object literal

    [obj[k]] on a literal such as [HOURS_MAP] first looks at the
    literal's own properties and then at [Object.prototype], so a key
    like ["constructor"] reads a built-in member, not [undefined]. *)

Inductive prop (A : Type) : Type :=
| Own (a : A)
| Inherited (name : string)
| Undefined.
Arguments Own {A} a.
Arguments Inherited {A} name.
Arguments Undefined {A}.

Definition object_prototype_names : list string :=
  [ "constructor"; "hasOwnProperty"; "isPrototypeOf";
    "propertyIsEnumerable"; "toLocaleString"; "toString"; "valueOf";
    "__proto__"; "__defineGetter__"; "__defineSetter__";
    "__lookupGetter__"; "__lookupSetter__" ]%string.

Definition inherited (k : string) : bool :=
  bool_decide (k ∈ object_prototype_names).

Fixpoint own_prop {A} (o : list (string * A)) (k : string) : option A :=
  match o with
  | [] => None
  | (k', v) :: o' => if String.eqb k' k then Some v else own_prop o' k
  end.

Definition get {A} (o : list (string * A)) (k : string) : prop A :=
  match own_prop o k with
  | Some v => Own v
  | None => if inherited k then Inherited k else Undefined
  end.

End Js.

(** ** Handlers as computations over the KV namespace *)

Section Monad.
Context {St Ev : Type}.

(** A computation reads the store, returns a value and the new store,
    and logs the effects it issued, oldest first. *)
Definition M (A : Type) : Type := St -> A * St * list Ev.

Definition ret {A} (a : A) : M A := fun s => (a, s, []).

Definition bind {A B} (m : M A) (k : A -> M B) : M B :=
  fun s =>
    let '(a, s1, l1) := m s in
    let '(b, s2, l2) := k a s1 in
    (b, s2, l1 ++ l2).

Definition emit (e : Ev) : M unit := fun s => (tt, s, [e]).
Definition gets {A} (f : St -> A) : M A := fun s => (f s, s, []).
Definition modify (f : St -> St) : M unit := fun s => (tt, f s, []).

Definition result_of {A} (r : A * St * list Ev) : A := fst (fst r).
Definition store_of {A} (r : A * St * list Ev) : St := snd (fst r).
Definition effects_of {A} (r : A * St * list Ev) : list Ev := snd r.
End Monad.

Notation "'let*' x ':=' m 'in' k" := (bind m (fun x => k))
  (at level 10, x name, m at level 100, k at level 200).
Notation "m ';;' k" := (bind m (fun _ => k))
  (at level 100, k at level 200, right associativity).

(** ** The KV namespace *)

(** What [JSON.parse] makes of a stored string. *)
Inductive stored (A : Type) : Type :=
| Corrupt
| Json (a : A).
Arguments Corrupt {A}.
Arguments Json {A} a.

(** The namespace holds session records under [String(chatId)] and
    rate-limit windows under ["rl:" + chatId]; the two key families never
    collide, so they are kept as two maps.  Each entry is paired with the
    instant at which it expires. *)
Record KV (Sess : Type) : Type := mkKV {
  sessions : gmap Z (Z * stored Sess);
  windows : gmap Z (Z * stored (list Z));
}.
Arguments mkKV {Sess} _ _.
Arguments sessions {Sess} _.
Arguments windows {Sess} _.

(** [BOT_KV.get]: absent, or expired, reads as [null]. *)
Definition kv_get {A} (now : Z) (m : gmap Z (Z * A)) (k : Z) : option A :=
  match m !! k with
  | Some (expiry, v) => if now <? expiry then Some v else None
  | None => None
  end.

Definition SESSION_TTL_SECONDS : Z := 60 * 60 * 24 * 7.
Definition RATE_LIMIT_TTL_SECONDS : Z := 60.
Definition RATE_LIMIT_WINDOW_MS : Z := 10000.
Definition RATE_LIMIT_MAX_ACTIONS : nat := 5.

(** Effects visible outside a handler.  [Msg] and [Payload] are the
    worker's messages and result record. *)
Inductive effect (Sess Msg Payload : Type) : Type :=
| AnswerCallbackQuery (callbackQueryId : string)
| SendMessage (chatId : Z) (m : Msg)
| PostWebhook (p : Payload)
| PutSession (chatId : Z) (s : Sess)
| DeleteSession (chatId : Z)
| PutWindow (chatId : Z) (timestamps : list Z)
| ConsoleError (what : string).
Arguments AnswerCallbackQuery {Sess Msg Payload} _.
Arguments SendMessage {Sess Msg Payload} _ _.
Arguments PostWebhook {Sess Msg Payload} _.
Arguments PutSession {Sess Msg Payload} _ _.
Arguments DeleteSession {Sess Msg Payload} _.
Arguments PutWindow {Sess Msg Payload} _ _.
Arguments ConsoleError {Sess Msg Payload} _.

Section Store.
Context {Sess Msg Payload : Type}.
Local Abbreviation Eff := (effect Sess Msg Payload).
Local Abbreviation Prog := (@M (KV Sess) Eff).

Definition is_message (e : Eff) : bool :=
  match e with SendMessage _ _ => true | _ => false end.
Definition is_delivery (e : Eff) : bool :=
  match e with PostWebhook _ => true | _ => false end.
Definition is_session_write (e : Eff) : bool :=
  match e with PutSession _ _ | DeleteSession _ => true | _ => false end.

(** The messages sent to users and the result-delivery calls in a log. *)
Definition messages (l : list Eff) : list Eff := List.filter is_message l.
Definition deliveries (l : list Eff) : list Eff := List.filter is_delivery l.

(** What one logged effect does to the namespace at instant [now]. *)
Definition apply_effect (now : Z) (kv : KV Sess) (e : Eff) : KV Sess :=
  match e with
  | PutSession c s =>
      mkKV (<[c := (now + SESSION_TTL_SECONDS * 1000, Json s)]> (sessions kv))
           (windows kv)
  | DeleteSession c => mkKV (delete c (sessions kv)) (windows kv)
  | PutWindow c ts =>
      mkKV (sessions kv)
           (<[c := (now + RATE_LIMIT_TTL_SECONDS * 1000, Json ts)]> (windows kv))
  | _ => kv
  end.

(** A KV write: change the namespace and log the write. *)
Definition kv_write (now : Z) (e : Eff) : Prog unit :=
  modify (fun kv => apply_effect now kv e) ;; emit e.

Definition loadSession (now chatId : Z) : Prog (option Sess) :=
  let* raw := gets (fun kv => kv_get now (sessions kv) chatId) in
  match raw with
  | None => ret None
  | Some Corrupt =>
      emit (ConsoleError "Failed to parse session") ;; ret None
  | Some (Json s) => ret (Some s)
  end.

Definition saveSession (now chatId : Z) (state : Sess) : Prog unit :=
  kv_write now (PutSession chatId state).

Definition deleteSession (now chatId : Z) : Prog unit :=
  kv_write now (DeleteSession chatId).

Definition sendMessage (chatId : Z) (m : Msg) : Prog unit :=
  emit (SendMessage chatId m).

Definition answerCallbackQuery (callbackQueryId : string) : Prog unit :=
  emit (AnswerCallbackQuery callbackQueryId).

(** *** Rate limiting: per-chat sliding window stored in KV *)

(** [now - t < RATE_LIMIT_WINDOW_MS] *)
Definition in_window (now t : Z) : bool := now - t <? RATE_LIMIT_WINDOW_MS.

(** The timestamps [checkRateLimit] starts from: the parsed entry, or the
    empty list when the entry is absent, expired or unparseable. *)
Definition stored_window (now : Z) (kv : KV Sess) (chatId : Z) : list Z :=
  match kv_get now (windows kv) chatId with
  | Some (Json ts) => ts
  | _ => []
  end.

Definition checkRateLimit (now chatId : Z) : Prog bool :=
  let* timestamps := gets (fun kv => stored_window now kv chatId) in
  let recent := List.filter (in_window now) timestamps in
  if (RATE_LIMIT_MAX_ACTIONS <=? length recent)%nat then ret false
  else
    kv_write now (PutWindow chatId (recent ++ [now])) ;; ret true.

(** A sequence of [checkRateLimit] calls, each a pair of the chat and the
    clock value of the call; the result lists the admitted calls. *)
Fixpoint admitted (calls : list (Z * Z)) (kv : KV Sess) : list (Z * Z) :=
  match calls with
  | [] => []
  | (chatId, now) :: rest =>
      let r := checkRateLimit now chatId kv in
      if result_of r then (chatId, now) :: admitted rest (store_of r)
      else admitted rest (store_of r)
  end.

(** The admitted calls of chat [c] that fall in the trailing window that
    ends at instant [T]. *)
Definition in_trailing_window (c T : Z) (call : Z * Z) : bool :=
  bool_decide (call.1 = c) && (call.2 <=? T) && in_window T call.2.

End Store.

(** [Array.prototype.indexOf]; [None] is [-1]. *)
Fixpoint array_indexOf {A} `{EqDecision A} (l : list A) (x : A) : option nat :=
  match l with
  | [] => None
  | y :: l' => if decide (y = x) then Some O else S <$> array_indexOf l' x
  end.

(** ** The five-question worker (index.ts, lines 1-725) *)

Module V1.

Record Env : Type := mkEnv {
  BOT_TOKEN : string;
  MAKE_WEBHOOK_URL : string;
  MARIA_TELEGRAM_LINK : string;
  MIN_WEEKLY_HOURS : option string;
}.

Inductive Step : Type :=
| q1_team_role | q2_weekly_hours | q3_start_date | q4_setup | q5_sop
| completed.

#[export] Instance Step_eq_dec : EqDecision Step.
Proof. solve_decision. Defined.

(** [Answers] is an object with one optional string per question key. *)
Record SessionState : Type := mkSession {
  applicant_token : string;
  step : Step;
  answers : gmap string string;
  started_at : Z;
  telegram_username : option string;
}.

Definition set_step (s : SessionState) (st : Step) : SessionState :=
  mkSession (applicant_token s) st (answers s) (started_at s)
            (telegram_username s).

Definition set_answer (s : SessionState) (k v : string) : SessionState :=
  mkSession (applicant_token s) (step s) (<[k := v]> (answers s))
            (started_at s) (telegram_username s).

Record TelegramUser : Type := mkUser {
  id : Z;
  username : option string;
  first_name : string;
}.

Record TelegramCallbackQuery : Type := mkCallbackQuery {
  cq_id : string;
  from : TelegramUser;
  data : option string;
}.

Inductive Verdict : Type := pass | fail.

(** The [reason] strings of the worker; [NoReason] is [""]. *)
Inductive Reason : Type :=
| NoReason
| NotTeamMember
| BelowMinimumHours (hours minWeeklyHours : Z)
| NoSetup
| NoSop.

Record ResultPayload : Type := mkPayload {
  p_applicant_token : string;
  p_telegram_chat_id : Z;
  p_telegram_username : option string;
  p_result : Verdict;
  p_reason : Reason;
  p_answers : gmap string string;
  p_completed_at : Z;
}.

(** A question: its answer key and the [callback_data] of its buttons,
    row by row.  Display texts are left out. *)
Record Question : Type := mkQuestion {
  key : string;
  buttons : list (list string);
}.

Definition QUESTIONS : list Question :=
  [ mkQuestion "team_role" [["q1:yes"]; ["q1:no"]];
    mkQuestion "weekly_availability"
      [["q2:full_time"]; ["q2:part_time"]; ["q2:less_than_15"]];
    mkQuestion "start_date"
      [["q3:immediately"]; ["q3:one_two_weeks"]; ["q3:one_month_plus"]];
    mkQuestion "setup" [["q4:yes"]; ["q4:no"]];
    mkQuestion "sop" [["q5:yes"]; ["q5:no"]] ]%string.

Definition STEP_ORDER : list Step :=
  [q1_team_role; q2_weekly_hours; q3_start_date; q4_setup; q5_sop].

Definition STEP_PREFIX (s : Step) : string :=
  match s with
  | q1_team_role => "q1"
  | q2_weekly_hours => "q2"
  | q3_start_date => "q3"
  | q4_setup => "q4"
  | q5_sop => "q5"
  | completed => ""
  end.

Definition HOURS_MAP : list (string * Z) :=
  [("full_time", 30); ("part_time", 20); ("less_than_15", 0)]%string.

(** The messages the worker sends, by the place that sends them. *)
Inductive Msg : Type :=
| MsgClickingTooQuickly
| MsgSessionExpired
| MsgQuestion (questionIndex : nat) (inline_keyboard : list (list string))
| MsgPassed (link : string)
| MsgFailed (reason : Reason).

Abbreviation Eff := (effect SessionState Msg ResultPayload).
Abbreviation Prog := (@M (KV SessionState) Eff).

Definition sendQuestion (chatId : Z) (questionIndex : nat) : Prog unit :=
  match QUESTIONS !! questionIndex with
  | Some question =>
      sendMessage chatId (MsgQuestion questionIndex (buttons question))
  | None => emit (ConsoleError "TypeError")
  end.

(** [HOURS_MAP[answer] ?? 0] as a number.  A member inherited from
    [Object.prototype] is neither [null] nor [undefined], so [??] keeps
    it; where a number is wanted it converts to [NaN], here [None]. *)
Definition hours_of (answer : string) : option Z :=
  match Js.get HOURS_MAP answer with
  | Js.Own hours => Some hours
  | Js.Undefined => Some 0
  | Js.Inherited _ => None
  end.

(** Pure function: does the answer to the step trigger a fail?  [None]
    is [null].  [NaN < minWeeklyHours] is false. *)
Definition checkFailCondition (s : Step) (answer : string)
    (minWeeklyHours : Z) : option Reason :=
  match s with
  | q1_team_role =>
      if String.eqb answer "no" then Some NotTeamMember else None
  | q2_weekly_hours =>
      match hours_of answer with
      | Some hours =>
          if hours <? minWeeklyHours
          then Some (BelowMinimumHours hours minWeeklyHours) else None
      | None => None
      end
  | q4_setup => if String.eqb answer "no" then Some NoSetup else None
  | q5_sop => if String.eqb answer "no" then Some NoSop else None
  | _ => None
  end.

(** Posts the result, tells the user, and cleans up the session. *)
Definition reportResult (now : Z) (result : Verdict) (reason : Reason)
    (state : SessionState) (chatId : Z) (from : TelegramUser) (env : Env)
  : Prog unit :=
  let payload :=
    mkPayload (applicant_token state) chatId (username from) result reason
              (answers state) now in
  emit (PostWebhook payload) ;;
  match result with
  | pass => sendMessage chatId (MsgPassed (MARIA_TELEGRAM_LINK env))
  | fail => sendMessage chatId (MsgFailed reason)
  end ;;
  let state := set_step state completed in
  saveSession now chatId state ;;
  deleteSession now chatId.

(** [parseInt(env.MIN_WEEKLY_HOURS ?? "15", 10) || 15] *)
Definition minWeeklyHours (env : Env) : Z :=
  Js.or_default (Js.parseInt (default "15"%string (MIN_WEEKLY_HOURS env))) 15.

Definition handleCallbackQuery (now : Z) (cq : TelegramCallbackQuery)
    (env : Env) : Prog unit :=
  let chatId := id (from cq) in
  let data := default ""%string (data cq) in
  answerCallbackQuery (cq_id cq) ;;
  let* allowed := checkRateLimit now chatId in
  if negb allowed then sendMessage chatId MsgClickingTooQuickly
  else
    let* state := loadSession now chatId in
    match state with
    | None => sendMessage chatId MsgSessionExpired
    | Some state =>
        if decide (step state = completed) then ret tt
        else
          match Js.indexOf ":" data with
          | None => emit (ConsoleError "Unexpected callback_data format")
          | Some colonIdx =>
              let qPrefix := Js.take colonIdx data in
              let answerValue := Js.drop (S colonIdx) data in
              if negb (String.eqb qPrefix (STEP_PREFIX (step state)))
              then ret tt
              else
                match array_indexOf STEP_ORDER (step state) with
                | None => emit (ConsoleError "Unknown step in session state")
                | Some stepIndex =>
                    match QUESTIONS !! stepIndex with
                    | None => emit (ConsoleError "TypeError")
                    | Some question =>
                        let state := set_answer state (key question) answerValue in
                        let minWeeklyHours := minWeeklyHours env in
                        match checkFailCondition (step state) answerValue
                                minWeeklyHours with
                        | Some failReason =>
                            reportResult now fail failReason state chatId
                                         (from cq) env
                        | None =>
                            let nextStepIndex := S stepIndex in
                            (* [None]: nextStepIndex >= STEP_ORDER.length *)
                            match STEP_ORDER !! nextStepIndex with
                            | None =>
                                reportResult now pass NoReason state chatId
                                             (from cq) env
                            | Some next =>
                                let state := set_step state next in
                                saveSession now chatId state ;;
                                sendQuestion chatId nextStepIndex
                            end
                        end
                    end
                end
          end
    end.

(** *** Commands and plain text (lines 428-572) *)

(** The messages of the whole worker: those of the button side, kept as
    they are, and the ones that only [handleStart] and [handleMessage]
    send. *)
Inductive Reply : Type :=
| Pressed (m : Msg)
| MsgInvalidToken
| MsgWelcome (first_name : string)
| MsgSendingTooQuickly
| MsgNoToken
| MsgNoActiveSession
| MsgHelp
| MsgUseButtons
| MsgUseLink.

Abbreviation WorkerEff := (effect SessionState Reply ResultPayload).
Abbreviation WorkerProg := (@M (KV SessionState) WorkerEff).

(** A computation of the button side run inside the whole worker: the same
    namespace and the same effects, its messages tagged with [Pressed]. *)
Definition worker_effect (e : Eff) : WorkerEff :=
  match e with
  | AnswerCallbackQuery callbackQueryId => AnswerCallbackQuery callbackQueryId
  | SendMessage chatId m => SendMessage chatId (Pressed m)
  | PostWebhook p => PostWebhook p
  | PutSession chatId s => PutSession chatId s
  | DeleteSession chatId => DeleteSession chatId
  | PutWindow chatId timestamps => PutWindow chatId timestamps
  | ConsoleError what => ConsoleError what
  end.

Definition in_worker {A} (m : Prog A) : WorkerProg A :=
  fun kv => let '(a, kv', log) := m kv in (a, kv', List.map worker_effect log).

Definition handleStart (now chatId : Z) (from : TelegramUser)
    (token : string) : WorkerProg unit :=
  if String.eqb token "" || (String.length (Js.trim token) <? 4)%nat
  then sendMessage chatId MsgInvalidToken
  else
    let state :=
      mkSession (Js.trim token) q1_team_role ∅ now (username from) in
    saveSession now chatId state ;;
    sendMessage chatId (MsgWelcome (first_name from)) ;;
    in_worker (sendQuestion chatId 0).

Definition handleMessage (now chatId : Z) (from : TelegramUser)
    (text : option string) (env : Env) : WorkerProg unit :=
  let* allowed := checkRateLimit now chatId in
  if negb allowed then sendMessage chatId MsgSendingTooQuickly
  else
    let trimmed := Js.trim (default ""%string text) in
    if Js.startsWith trimmed "/start" then
      let parts := Js.split_ws trimmed in
      let token := default ""%string (parts !! 1%nat) in
      if String.eqb token "" then sendMessage chatId MsgNoToken
      else handleStart now chatId from token
    else if Js.startsWith trimmed "/restart" then
      let* session := loadSession now chatId in
      match session with
      | Some session =>
          if String.eqb (applicant_token session) ""
          then sendMessage chatId MsgNoActiveSession
          else handleStart now chatId from (applicant_token session)
      | None => sendMessage chatId MsgNoActiveSession
      end
    else if Js.startsWith trimmed "/help" then sendMessage chatId MsgHelp
    else
      let* session := loadSession now chatId in
      match session with
      | Some session =>
          if decide (step session = completed)
          then sendMessage chatId MsgUseLink
          else sendMessage chatId MsgUseButtons
      | None => sendMessage chatId MsgUseLink
      end.

(** *** The webhook and the Worker entry point (lines 670-725) *)

Record TelegramMessage : Type := mkMessage {
  message_from : option TelegramUser;
  chat_id : Z;
  text : option string;
}.

Record TelegramUpdate : Type := mkUpdate {
  message : option TelegramMessage;
  callback_query : option TelegramCallbackQuery;
}.

(** What [request.json()] yields: a rejection, [null] (on which the
    property access throws, to be caught by [fetch]), or an update. *)
Inductive Body : Type :=
| NotJson
| JsonNull
| JsonUpdate (update : TelegramUpdate).

Definition handleWebhook (now : Z) (body : Body) (env : Env) : WorkerProg unit :=
  match body with
  | NotJson => emit (ConsoleError "Failed to parse Telegram update body")
  | JsonNull => emit (ConsoleError "Unhandled error in handleWebhook")
  | JsonUpdate update =>
      match callback_query update with
      | Some cq => in_worker (handleCallbackQuery now cq env)
      | None =>
          match message update with
          | Some msg =>
              let chatId := chat_id msg in
              let from := default (mkUser chatId None "there") (message_from msg) in
              handleMessage now chatId from (text msg) env
          | None => ret tt
          end
      end
  end.

Record Request : Type := mkRequest {
  method : string;
  pathname : string;
  body : Body;
}.

Record Response : Type := mkResponse {
  status : Z;
  response_body : string;
}.

Definition fetch (now : Z) (request : Request) (env : Env) : WorkerProg Response :=
  if String.eqb (method request) "GET" && String.eqb (pathname request) "/health"
  then ret (mkResponse 200 "ok")
  else if String.eqb (method request) "POST" &&
          String.eqb (pathname request) "/telegram/webhook"
  then handleWebhook now (body request) env ;; ret (mkResponse 200 "ok")
  else ret (mkResponse 404 "Not Found").

End V1.

(** ** The eight-question worker (index.ts, lines 727-1540) *)

Module V2.

Record Env : Type := mkEnv {
  BOT_TOKEN : string;
  MAKE_WEBHOOK_URL : string;
  MARIA_WHATSAPP_LINK : string;
  MIN_WEEKLY_HOURS : option string;
}.

Inductive Step : Type :=
| q1_team_role | q2_weekly_hours | q3_start_date | q4_setup | q5_sop
| q6_english | q7_age | q8_student_types
| completed.

#[export] Instance Step_eq_dec : EqDecision Step.
Proof. solve_decision. Defined.

(** The values an entry of [answers] can hold at run time: a canonical
    string, the parsed age, or (through [prefixMap[callbackSuffix]]) the
    member of [Object.prototype] of the given name.  [VEmptyObject] is
    what [Object.prototype] itself becomes in JSON. *)
Inductive JsVal : Type :=
| VStr (s : string)
| VNum (n : Z)
| VProto (name : string)
| VEmptyObject.

#[export] Instance JsVal_eq_dec : EqDecision JsVal.
Proof. solve_decision. Defined.

(** [JSON.stringify] leaves out a property whose value is a function and
    writes an object without enumerable properties as [{}]. *)
Definition json_value (v : JsVal) : option JsVal :=
  match v with
  | VProto name =>
      if String.eqb name "__proto__" then Some VEmptyObject else None
  | _ => Some v
  end.

Definition json_answers (a : gmap string JsVal) : gmap string JsVal :=
  omap json_value a.

Record SessionState : Type := mkSession {
  applicant_token : string;
  step : Step;
  answers : gmap string JsVal;
  started_at : Z;
  telegram_username : option string;
}.

Definition set_step (s : SessionState) (st : Step) : SessionState :=
  mkSession (applicant_token s) st (answers s) (started_at s)
            (telegram_username s).

Definition set_answer (s : SessionState) (k : string) (v : JsVal)
  : SessionState :=
  mkSession (applicant_token s) (step s) (<[k := v]> (answers s))
            (started_at s) (telegram_username s).

Definition json_session (s : SessionState) : SessionState :=
  mkSession (applicant_token s) (step s) (json_answers (answers s))
            (started_at s) (telegram_username s).

Record TelegramUser : Type := mkUser {
  id : Z;
  username : option string;
  first_name : string;
}.

Record TelegramCallbackQuery : Type := mkCallbackQuery {
  cq_id : string;
  from : TelegramUser;
  data : option string;
}.

Inductive Verdict : Type := pass | fail.

(** The [reason] strings, which in this worker are the Spanish messages
    shown to the applicant; [NoReason] is [""]. *)
Inductive Reason : Type :=
| NoReason
| NotTeamMember
| BelowMinimumHours (minWeeklyHours : Z)
| NoSetup
| NoSop
| LowEnglish
| TooOld.

Record ResultPayload : Type := mkPayload {
  p_applicant_token : string;
  p_telegram_chat_id : Z;
  p_telegram_username : option string;
  p_result : Verdict;
  p_reason : Reason;
  p_answers : gmap string JsVal;
  p_completed_at : Z;
}.

Record Question : Type := mkQuestion {
  key : string;
  buttons : list (list string);
}.

Definition QUESTIONS : list Question :=
  [ mkQuestion "team_role" [["Q1_YES"]; ["Q1_NO"]];
    mkQuestion "weekly_availability" [["Q2_FT"]; ["Q2_PT"]; ["Q2_LOW"]];
    mkQuestion "start_date" [["Q3_NOW"]; ["Q3_SOON"]; ["Q3_LATER"]];
    mkQuestion "setup" [["Q4_YES"]; ["Q4_NO"]];
    mkQuestion "sop" [["Q5_YES"]; ["Q5_NO"]];
    mkQuestion "english_level" [["Q6_GOOD"]; ["Q6_OK"]; ["Q6_LOW"]];
    mkQuestion "age" [];
    mkQuestion "student_types"
      [["Q8_KIDS"]; ["Q8_TEENS"]; ["Q8_ADULTS"]; ["Q8_ALL"]] ]%string.

Definition STEP_ORDER : list Step :=
  [q1_team_role; q2_weekly_hours; q3_start_date; q4_setup; q5_sop;
   q6_english; q7_age; q8_student_types].

Definition STEP_PREFIX (s : Step) : string :=
  match s with
  | q1_team_role => "Q1"
  | q2_weekly_hours => "Q2"
  | q3_start_date => "Q3"
  | q4_setup => "Q4"
  | q5_sop => "Q5"
  | q6_english => "Q6"
  | q7_age => "Q7"
  | q8_student_types => "Q8"
  | completed => ""
  end.

(** Callback suffix to canonical answer value, per question prefix. *)
Definition CALLBACK_VALUE_MAP : list (string * list (string * string)) :=
  [ ("Q1", [("YES", "yes"); ("NO", "no")]);
    ("Q2", [("FT", "full_time"); ("PT", "part_time"); ("LOW", "low")]);
    ("Q3", [("NOW", "now"); ("SOON", "soon"); ("LATER", "later")]);
    ("Q4", [("YES", "yes"); ("NO", "no")]);
    ("Q5", [("YES", "yes"); ("NO", "no")]);
    ("Q6", [("GOOD", "good"); ("OK", "ok"); ("LOW", "low")]);
    ("Q8", [("KIDS", "kids"); ("TEENS", "teens"); ("ADULTS", "adults");
            ("ALL", "all")]) ]%string.

Definition HOURS_MAP : list (string * Z) :=
  [("full_time", 30); ("part_time", 20); ("low", 0)]%string.

Inductive Msg : Type :=
| MsgTooFast
| MsgSessionExpired
| MsgQuestion (questionIndex : nat)
              (inline_keyboard : option (list (list string)))
| MsgPassed (link : string)
| MsgFailed (reason : Reason)
| MsgUseApplicationLink
| MsgNoActiveSession
| MsgHelp
| MsgWriteYourAge
| MsgUseButtons
| MsgUseEmailLink.

Abbreviation Eff := (effect SessionState Msg ResultPayload).
Abbreviation Prog := (@M (KV SessionState) Eff).

(** [saveSession] writes [JSON.stringify(state)]. *)
Definition saveSession (now chatId : Z) (state : SessionState) : Prog unit :=
  saveSession now chatId (json_session state).

(** A question without buttons goes out as plain text, the others with
    their inline keyboard. *)
Definition sendQuestion (chatId : Z) (questionIndex : nat) : Prog unit :=
  match QUESTIONS !! questionIndex with
  | Some question =>
      if (length (buttons question) =? 0)%nat
      then sendMessage chatId (MsgQuestion questionIndex None)
      else sendMessage chatId
             (MsgQuestion questionIndex (Some (buttons question)))
  | None => emit (ConsoleError "TypeError")
  end.

(** [HOURS_MAP[answer] ?? 0] as a number.  The property key of a string
    is the string; a non-string answer is first converted to text
    (["function valueOf() { [native code] }"], ["[object Object]"], a
    numeral), which names no property of the literal or its prototype.
    A member inherited from [Object.prototype] is neither [null] nor
    [undefined], so [??] keeps it; where a number is wanted it converts
    to [NaN], here [None]. *)
Definition hours_of (answer : JsVal) : option Z :=
  match answer with
  | VStr s =>
      match Js.get HOURS_MAP s with
      | Js.Own hours => Some hours
      | Js.Undefined => Some 0
      | Js.Inherited _ => None
      end
  | _ => Some 0
  end.

(** Pure function: does the answer to the step trigger a fail?  [None]
    is [null].  [NaN < minWeeklyHours] is false. *)
Definition checkFailCondition (s : Step) (answer : JsVal)
    (minWeeklyHours : Z) : option Reason :=
  match s with
  | q1_team_role =>
      if decide (answer = VStr "no") then Some NotTeamMember else None
  | q2_weekly_hours =>
      match hours_of answer with
      | Some hours =>
          if hours <? minWeeklyHours
          then Some (BelowMinimumHours minWeeklyHours) else None
      | None => None
      end
  | q4_setup => if decide (answer = VStr "no") then Some NoSetup else None
  | q5_sop => if decide (answer = VStr "no") then Some NoSop else None
  | q6_english =>
      if decide (answer = VStr "low") then Some LowEnglish else None
  | _ => None
  end.

Definition reportResult (now : Z) (result : Verdict) (reason : Reason)
    (state : SessionState) (chatId : Z) (from : TelegramUser) (env : Env)
  : Prog unit :=
  let payload :=
    mkPayload (applicant_token state) chatId (username from) result reason
              (json_answers (answers state)) now in
  emit (PostWebhook payload) ;;
  match result with
  | pass => sendMessage chatId (MsgPassed (MARIA_WHATSAPP_LINK env))
  | fail => sendMessage chatId (MsgFailed reason)
  end ;;
  let state := set_step state completed in
  saveSession now chatId state ;;
  deleteSession now chatId.

Definition handleStart (now chatId : Z) (from : TelegramUser)
    (token : string) : Prog unit :=
  if String.eqb token "" || (String.length (Js.trim token) <? 4)%nat
  then sendMessage chatId MsgUseApplicationLink
  else
    let state :=
      mkSession (Js.trim token) q1_team_role ∅ now (username from) in
    saveSession now chatId state ;;
    sendQuestion chatId 0.

(** [parseInt(env.MIN_WEEKLY_HOURS ?? "15", 10) || 15] *)
Definition minWeeklyHours (env : Env) : Z :=
  Js.or_default (Js.parseInt (default "15"%string (MIN_WEEKLY_HOURS env))) 15.

Definition handleMessage (now chatId : Z) (from : TelegramUser)
    (text : option string) (env : Env) : Prog unit :=
  let* allowed := checkRateLimit now chatId in
  if negb allowed then sendMessage chatId MsgTooFast
  else
    let trimmed := Js.trim (default ""%string text) in
    if Js.startsWith trimmed "/start" then
      let parts := Js.split_ws trimmed in
      let token := default ""%string (parts !! 1%nat) in
      if String.eqb token "" then sendMessage chatId MsgUseApplicationLink
      else handleStart now chatId from token
    else if Js.startsWith trimmed "/restart" then
      let* session := loadSession now chatId in
      match session with
      | Some session =>
          if String.eqb (applicant_token session) ""
          then sendMessage chatId MsgNoActiveSession
          else handleStart now chatId from (applicant_token session)
      | None => sendMessage chatId MsgNoActiveSession
      end
    else if Js.startsWith trimmed "/help" then sendMessage chatId MsgHelp
    else
      let* session := loadSession now chatId in
      match session with
      | Some session =>
          if decide (step session = completed)
          then sendMessage chatId MsgUseEmailLink
          else if decide (step session = q7_age)
          then
            (* the age step expects free text *)
            match Js.parseInt trimmed with
            | None => sendMessage chatId MsgWriteYourAge
            | Some parsed =>
                if (parsed <? 10) || (80 <? parsed)
                then sendMessage chatId MsgWriteYourAge
                else
                  let session := set_answer session "age" (VNum parsed) in
                  if 35 <=? parsed
                  then reportResult now fail TooOld session chatId from env
                  else
                    match array_indexOf STEP_ORDER q7_age with
                    | Some i =>
                        let nextStepIndex := S i in
                        match STEP_ORDER !! nextStepIndex with
                        | Some next =>
                            let session := set_step session next in
                            saveSession now chatId session ;;
                            sendQuestion chatId nextStepIndex
                        | None => emit (ConsoleError "TypeError")
                        end
                    | None => emit (ConsoleError "TypeError")
                    end
            end
          else sendMessage chatId MsgUseButtons
      | None => sendMessage chatId MsgUseEmailLink
      end.

Definition handleCallbackQuery (now : Z) (cq : TelegramCallbackQuery)
    (env : Env) : Prog unit :=
  let chatId := id (from cq) in
  let data := default ""%string (data cq) in
  answerCallbackQuery (cq_id cq) ;;
  let* allowed := checkRateLimit now chatId in
  if negb allowed then sendMessage chatId MsgTooFast
  else
    let* state := loadSession now chatId in
    match state with
    | None => sendMessage chatId MsgSessionExpired
    | Some state =>
        if decide (step state = completed) then ret tt
        else
          match Js.indexOf "_" data with
          | None => emit (ConsoleError "Unexpected callback_data format")
          | Some underscoreIdx =>
              let qPrefix := Js.take underscoreIdx data in
              let callbackSuffix := Js.drop (S underscoreIdx) data in
              if negb (String.eqb qPrefix (STEP_PREFIX (step state)))
              then ret tt
              else
                (* qPrefix is a value of STEP_PREFIX here, so the lookup
                   never reaches the prototype *)
                match Js.own_prop CALLBACK_VALUE_MAP qPrefix with
                | None => emit (ConsoleError "No CALLBACK_VALUE_MAP entry")
                | Some prefixMap =>
                    let answerValue :=
                      match Js.get prefixMap callbackSuffix with
                      | Js.Own v =>
                          if String.eqb v "" then None else Some (VStr v)
                      | Js.Inherited name => Some (VProto name)
                      | Js.Undefined => None
                      end in
                    match answerValue with
                    | None => emit (ConsoleError "Unknown callback suffix")
                    | Some answerValue =>
                        match array_indexOf STEP_ORDER (step state) with
                        | None =>
                            emit (ConsoleError "Unknown step in session state")
                        | Some stepIndex =>
                            match QUESTIONS !! stepIndex with
                            | None => emit (ConsoleError "TypeError")
                            | Some question =>
                                let state :=
                                  set_answer state (key question) answerValue in
                                let minWeeklyHours := minWeeklyHours env in
                                match checkFailCondition (step state)
                                        answerValue minWeeklyHours with
                                | Some failReason =>
                                    reportResult now fail failReason state
                                                 chatId (from cq) env
                                | None =>
                                    let nextStepIndex := S stepIndex in
                                    (* [None]: nextStepIndex >= STEP_ORDER.length *)
                                    match STEP_ORDER !! nextStepIndex with
                                    | None =>
                                        reportResult now pass NoReason state
                                                     chatId (from cq) env
                                    | Some next =>
                                        let state := set_step state next in
                                        saveSession now chatId state ;;
                                        sendQuestion chatId nextStepIndex
                                    end
                                end
                            end
                        end
                    end
                end
          end
    end.

(** *** The webhook and the Worker entry point (lines 1486-1540) *)

Record TelegramMessage : Type := mkMessage {
  message_from : option TelegramUser;
  chat_id : Z;
  text : option string;
}.

Record TelegramUpdate : Type := mkUpdate {
  message : option TelegramMessage;
  callback_query : option TelegramCallbackQuery;
}.

(** What [request.json()] yields: a rejection, [null] (on which the
    property access throws, to be caught by [fetch]), or an update. *)
Inductive Body : Type :=
| NotJson
| JsonNull
| JsonUpdate (update : TelegramUpdate).

Definition handleWebhook (now : Z) (body : Body) (env : Env) : Prog unit :=
  match body with
  | NotJson => emit (ConsoleError "Failed to parse Telegram update body")
  | JsonNull => emit (ConsoleError "Unhandled error in handleWebhook")
  | JsonUpdate update =>
      match callback_query update with
      | Some cq => handleCallbackQuery now cq env
      | None =>
          match message update with
          | Some msg =>
              let chatId := chat_id msg in
              let from := default (mkUser chatId None "there") (message_from msg) in
              handleMessage now chatId from (text msg) env
          | None => ret tt
          end
      end
  end.

Record Request : Type := mkRequest {
  method : string;
  pathname : string;
  body : Body;
}.

Record Response : Type := mkResponse {
  status : Z;
  response_body : string;
}.

Definition fetch (now : Z) (request : Request) (env : Env) : Prog Response :=
  if String.eqb (method request) "GET" && String.eqb (pathname request) "/health"
  then ret (mkResponse 200 "ok")
  else if String.eqb (method request) "POST" &&
          String.eqb (pathname request) "/telegram/webhook"
  then handleWebhook now (body request) env ;; ret (mkResponse 200 "ok")
  else ret (mkResponse 404 "Not Found").

End V2.

(** ** Vocabulary of the properties *)

(** The number of timestamps of [l] that [checkRateLimit] counts at
    instant [now]. *)
Definition recent_count (now : Z) (l : list Z) : nat :=
  length (List.filter (in_window now) l).

(** The clock values of the calls of chat [c]. *)
Definition times_of (c : Z) (calls : list (Z * Z)) : list Z :=
  List.map snd (List.filter (fun call => bool_decide (call.1 = c)) calls).

(** Successive calls read non-decreasing clock values, none below [t0]. *)
Fixpoint clock_monotone_from (t0 : Z) (calls : list (Z * Z)) : bool :=
  match calls with
  | [] => true
  | (_, t) :: rest => (t0 <=? t) && clock_monotone_from t rest
  end.

Definition clock_monotone (calls : list (Z * Z)) : bool :=
  match calls with
  | [] => true
  | (_, t) :: _ => clock_monotone_from t calls
  end.

(** [a] lies in the trailing window that ends at [T]. *)
Definition trailing (T a : Z) : bool := (a <=? T) && in_window T a.

(** What a run has established for chat [c] once the clock has reached
    [tcur] and [acc] lists the admitted instants of [c]: they lie in the
    past, the stored window accounts for each of them that a later call can
    still count, and no trailing window holds more than the ceiling. *)
Definition window_inv {Sess} (c tcur : Z) (kv : KV Sess) (acc : list Z) : Prop :=
  (forall a, In a acc -> a <= tcur) /\
  (forall now, tcur <= now ->
     (recent_count now acc <= recent_count now (stored_window now kv c))%nat) /\
  (forall T, (length (List.filter (trailing T) acc) <= RATE_LIMIT_MAX_ACTIONS)%nat).

(** The outcome of a button press that is dropped: the acknowledgement, the
    limiter's bookkeeping and then either the limiter's notice, when it
    refuses the press, or the console errors [errs]; nothing else. *)
Definition V1_dropped (now : Z) (cq : V1.TelegramCallbackQuery)
    (kv : KV V1.SessionState) (errs : list string)
  : unit * KV V1.SessionState * list V1.Eff :=
  let chatId := V1.id (V1.from cq) in
  let r := checkRateLimit now chatId kv in
  (tt, store_of r,
   AnswerCallbackQuery (V1.cq_id cq) :: effects_of r ++
   (if result_of r then List.map ConsoleError errs
    else [SendMessage chatId V1.MsgClickingTooQuickly])).

Definition V2_dropped (now : Z) (cq : V2.TelegramCallbackQuery)
    (kv : KV V2.SessionState) (errs : list string)
  : unit * KV V2.SessionState * list V2.Eff :=
  let chatId := V2.id (V2.from cq) in
  let r := checkRateLimit now chatId kv in
  (tt, store_of r,
   AnswerCallbackQuery (V2.cq_id cq) :: effects_of r ++
   (if result_of r then List.map ConsoleError errs
    else [SendMessage chatId V2.MsgTooFast])).

(** Whether the limiter lets a call of chat [c] through at instant [now]. *)
Definition admits {Sess} (now c : Z) (kv : KV Sess) : bool :=
  result_of (checkRateLimit (Msg:=unit) (Payload:=unit) now c kv).

(** What a dropped event leaves behind: the stored sessions are the same,
    nothing is delivered, and an admitted event sends no message. *)
Definition silently_dropped {Sess Msg Payload} (now c : Z) (kv : KV Sess)
    (r : unit * KV Sess * list (effect Sess Msg Payload)) : Prop :=
  sessions (store_of r) = sessions kv /\
  deliveries (effects_of r) = [] /\
  List.filter is_session_write (effects_of r) = [] /\
  (admits now c kv = true -> messages (effects_of r) = []).

(** The texts that [handleMessage] treats as commands rather than as an
    answer. *)
Definition V2_is_command (trimmed : string) : bool :=
  Js.startsWith trimmed "/start" || Js.startsWith trimmed "/restart" ||
  Js.startsWith trimmed "/help".

(** The namespace after the effects of a log have taken place. *)
Definition replay {Sess Msg Payload} (now : Z) (kv : KV Sess)
    (log : list (effect Sess Msg Payload)) : KV Sess :=
  fold_left (apply_effect now) log kv.

(** ** Vocabulary of the further properties *)

#[local] Existing Instance V1.Step_eq_dec.
#[local] Existing Instance V2.Step_eq_dec.
#[local] Existing Instance V2.JsVal_eq_dec.

(** A KV write of a log concerns chat [c]; other effects write nothing. *)
Definition targets {Sess Msg Payload} (c : Z) (e : effect Sess Msg Payload) : bool :=
  match e with
  | PutSession c' _ | DeleteSession c' | PutWindow c' _ => bool_decide (c' = c)
  | _ => true
  end.

(** The session that a read at instant [now] finds for chat [c]. *)
Definition session_at {Sess} (now : Z) (kv : KV Sess) (c : Z) : option Sess :=
  match kv_get now (sessions kv) c with
  | Some (Json s) => Some s
  | _ => None
  end.

(** *** Outcomes of a button press in the five-question worker *)

Definition V1_chat (cq : V1.TelegramCallbackQuery) : Z := V1.id (V1.from cq).
Definition V1_press (cq : V1.TelegramCallbackQuery) : string :=
  default ""%string (V1.data cq).
Definition V1_ack (cq : V1.TelegramCallbackQuery) : V1.Eff :=
  AnswerCallbackQuery (V1.cq_id cq).

(** What the limiter logs at the head of a handler. *)
Definition V1_limiter_log (now c : Z) (kv : KV V1.SessionState) : list V1.Eff :=
  effects_of (checkRateLimit now c kv).

(** What [reportResult] logs. *)
Definition V1_report_log (now : Z) (result : V1.Verdict) (reason : V1.Reason)
    (state : V1.SessionState) (chatId : Z) (from : V1.TelegramUser)
    (env : V1.Env) : list V1.Eff :=
  [ PostWebhook (V1.mkPayload (V1.applicant_token state) chatId
                   (V1.username from) result reason (V1.answers state) now);
    SendMessage chatId
      (match result with
       | V1.pass => V1.MsgPassed (V1.MARIA_TELEGRAM_LINK env)
       | V1.fail => V1.MsgFailed reason
       end);
    PutSession chatId (V1.set_step state V1.completed);
    DeleteSession chatId ].

(** The press [data] answers the current question of [st]: the session is
    active, the text before the first colon is the prefix of its step, the
    text after it is [answerValue], and [question] is the step's question,
    the [i]-th. *)
Definition V1_accepted (st : V1.SessionState) (data : string) (i : nat)
    (question : V1.Question) (answerValue : string) : Prop :=
  V1.step st <> V1.completed /\
  (exists colonIdx,
     Js.indexOf ":" data = Some colonIdx /\
     Js.take colonIdx data = V1.STEP_PREFIX (V1.step st) /\
     answerValue = Js.drop (S colonIdx) data) /\
  array_indexOf V1.STEP_ORDER (V1.step st) = Some i /\
  V1.QUESTIONS !! i = Some question.

(** The press [data] is ignored on [st], with the console errors [errs]. *)
Definition V1_ignored (st : V1.SessionState) (data : string)
    (errs : list string) : Prop :=
  (V1.step st = V1.completed /\ errs = []) \/
  (V1.step st <> V1.completed /\ Js.indexOf ":" data = None /\
   errs = ["Unexpected callback_data format"%string]) \/
  (V1.step st <> V1.completed /\
   (exists colonIdx, Js.indexOf ":" data = Some colonIdx /\
                     Js.take colonIdx data <> V1.STEP_PREFIX (V1.step st)) /\
   errs = []).

(** The logs that [handleCallbackQuery] can produce, case by case. *)
Inductive V1_outcome (now : Z) (cq : V1.TelegramCallbackQuery) (env : V1.Env)
    (kv : KV V1.SessionState) : list V1.Eff -> Prop :=
| V1_out_refused :
    admits now (V1_chat cq) kv = false ->
    V1_outcome now cq env kv
      [V1_ack cq; SendMessage (V1_chat cq) V1.MsgClickingTooQuickly]
| V1_out_no_session :
    admits now (V1_chat cq) kv = true ->
    kv_get now (sessions kv) (V1_chat cq) = None ->
    V1_outcome now cq env kv
      (V1_ack cq :: V1_limiter_log now (V1_chat cq) kv ++
       [SendMessage (V1_chat cq) V1.MsgSessionExpired])
| V1_out_corrupt :
    admits now (V1_chat cq) kv = true ->
    kv_get now (sessions kv) (V1_chat cq) = Some Corrupt ->
    V1_outcome now cq env kv
      (V1_ack cq :: V1_limiter_log now (V1_chat cq) kv ++
       [ConsoleError "Failed to parse session";
        SendMessage (V1_chat cq) V1.MsgSessionExpired])
| V1_out_ignored st errs :
    admits now (V1_chat cq) kv = true ->
    kv_get now (sessions kv) (V1_chat cq) = Some (Json st) ->
    V1_ignored st (V1_press cq) errs ->
    V1_outcome now cq env kv
      (V1_ack cq :: V1_limiter_log now (V1_chat cq) kv ++
       List.map ConsoleError errs)
| V1_out_failed st i question answerValue reason :
    admits now (V1_chat cq) kv = true ->
    kv_get now (sessions kv) (V1_chat cq) = Some (Json st) ->
    V1_accepted st (V1_press cq) i question answerValue ->
    V1.checkFailCondition (V1.step st) answerValue (V1.minWeeklyHours env)
      = Some reason ->
    V1_outcome now cq env kv
      (V1_ack cq :: V1_limiter_log now (V1_chat cq) kv ++
       V1_report_log now V1.fail reason
         (V1.set_answer st (V1.key question) answerValue)
         (V1_chat cq) (V1.from cq) env)
| V1_out_passed st i question answerValue :
    admits now (V1_chat cq) kv = true ->
    kv_get now (sessions kv) (V1_chat cq) = Some (Json st) ->
    V1_accepted st (V1_press cq) i question answerValue ->
    V1.checkFailCondition (V1.step st) answerValue (V1.minWeeklyHours env)
      = None ->
    V1.STEP_ORDER !! S i = None ->
    V1_outcome now cq env kv
      (V1_ack cq :: V1_limiter_log now (V1_chat cq) kv ++
       V1_report_log now V1.pass V1.NoReason
         (V1.set_answer st (V1.key question) answerValue)
         (V1_chat cq) (V1.from cq) env)
| V1_out_advanced st i question answerValue next nextQuestion :
    admits now (V1_chat cq) kv = true ->
    kv_get now (sessions kv) (V1_chat cq) = Some (Json st) ->
    V1_accepted st (V1_press cq) i question answerValue ->
    V1.checkFailCondition (V1.step st) answerValue (V1.minWeeklyHours env)
      = None ->
    V1.STEP_ORDER !! S i = Some next ->
    V1.QUESTIONS !! S i = Some nextQuestion ->
    V1_outcome now cq env kv
      (V1_ack cq :: V1_limiter_log now (V1_chat cq) kv ++
       [PutSession (V1_chat cq)
          (V1.set_step (V1.set_answer st (V1.key question) answerValue) next);
        SendMessage (V1_chat cq)
          (V1.MsgQuestion (S i) (V1.buttons nextQuestion))]).

(** *** Outcomes of a button press in the eight-question worker *)

Definition V2_chat (cq : V2.TelegramCallbackQuery) : Z := V2.id (V2.from cq).
Definition V2_press (cq : V2.TelegramCallbackQuery) : string :=
  default ""%string (V2.data cq).
Definition V2_ack (cq : V2.TelegramCallbackQuery) : V2.Eff :=
  AnswerCallbackQuery (V2.cq_id cq).

Definition V2_limiter_log (now c : Z) (kv : KV V2.SessionState) : list V2.Eff :=
  effects_of (checkRateLimit now c kv).

Definition V2_report_log (now : Z) (result : V2.Verdict) (reason : V2.Reason)
    (state : V2.SessionState) (chatId : Z) (from : V2.TelegramUser)
    (env : V2.Env) : list V2.Eff :=
  [ PostWebhook (V2.mkPayload (V2.applicant_token state) chatId
                   (V2.username from) result reason
                   (V2.json_answers (V2.answers state)) now);
    SendMessage chatId
      (match result with
       | V2.pass => V2.MsgPassed (V2.MARIA_WHATSAPP_LINK env)
       | V2.fail => V2.MsgFailed reason
       end);
    PutSession chatId (V2.json_session (V2.set_step state V2.completed));
    DeleteSession chatId ].

(** The message by which [sendQuestion] shows the [i]-th question. *)
Definition V2_question_msg (i : nat) (question : V2.Question) : V2.Msg :=
  V2.MsgQuestion i
    (if (length (V2.buttons question) =? 0)%nat then None
     else Some (V2.buttons question)).

(** [prefixMap[callbackSuffix]], when it is truthy. *)
Definition V2_answer_of (prefixMap : list (string * string))
    (callbackSuffix : string) : option V2.JsVal :=
  match Js.get prefixMap callbackSuffix with
  | Js.Own v => if String.eqb v "" then None else Some (V2.VStr v)
  | Js.Inherited name => Some (V2.VProto name)
  | Js.Undefined => None
  end.

Definition V2_accepted (st : V2.SessionState) (data : string) (i : nat)
    (question : V2.Question) (answerValue : V2.JsVal) : Prop :=
  V2.step st <> V2.completed /\
  (exists underscoreIdx prefixMap,
     Js.indexOf "_" data = Some underscoreIdx /\
     Js.take underscoreIdx data = V2.STEP_PREFIX (V2.step st) /\
     Js.own_prop V2.CALLBACK_VALUE_MAP (V2.STEP_PREFIX (V2.step st))
       = Some prefixMap /\
     V2_answer_of prefixMap (Js.drop (S underscoreIdx) data) = Some answerValue) /\
  array_indexOf V2.STEP_ORDER (V2.step st) = Some i /\
  V2.QUESTIONS !! i = Some question.

Definition V2_ignored (st : V2.SessionState) (data : string)
    (errs : list string) : Prop :=
  (V2.step st = V2.completed /\ errs = []) \/
  (V2.step st <> V2.completed /\ Js.indexOf "_" data = None /\
   errs = ["Unexpected callback_data format"%string]) \/
  (V2.step st <> V2.completed /\
   exists underscoreIdx,
     Js.indexOf "_" data = Some underscoreIdx /\
     ((Js.take underscoreIdx data <> V2.STEP_PREFIX (V2.step st) /\ errs = []) \/
      (Js.take underscoreIdx data = V2.STEP_PREFIX (V2.step st) /\
       Js.own_prop V2.CALLBACK_VALUE_MAP (V2.STEP_PREFIX (V2.step st)) = None /\
       errs = ["No CALLBACK_VALUE_MAP entry"%string]) \/
      (Js.take underscoreIdx data = V2.STEP_PREFIX (V2.step st) /\
       (exists prefixMap,
          Js.own_prop V2.CALLBACK_VALUE_MAP (V2.STEP_PREFIX (V2.step st))
            = Some prefixMap /\
          V2_answer_of prefixMap (Js.drop (S underscoreIdx) data) = None) /\
       errs = ["Unknown callback suffix"%string]))).

Inductive V2_outcome (now : Z) (cq : V2.TelegramCallbackQuery) (env : V2.Env)
    (kv : KV V2.SessionState) : list V2.Eff -> Prop :=
| V2_out_refused :
    admits now (V2_chat cq) kv = false ->
    V2_outcome now cq env kv [V2_ack cq; SendMessage (V2_chat cq) V2.MsgTooFast]
| V2_out_no_session :
    admits now (V2_chat cq) kv = true ->
    kv_get now (sessions kv) (V2_chat cq) = None ->
    V2_outcome now cq env kv
      (V2_ack cq :: V2_limiter_log now (V2_chat cq) kv ++
       [SendMessage (V2_chat cq) V2.MsgSessionExpired])
| V2_out_corrupt :
    admits now (V2_chat cq) kv = true ->
    kv_get now (sessions kv) (V2_chat cq) = Some Corrupt ->
    V2_outcome now cq env kv
      (V2_ack cq :: V2_limiter_log now (V2_chat cq) kv ++
       [ConsoleError "Failed to parse session";
        SendMessage (V2_chat cq) V2.MsgSessionExpired])
| V2_out_ignored st errs :
    admits now (V2_chat cq) kv = true ->
    kv_get now (sessions kv) (V2_chat cq) = Some (Json st) ->
    V2_ignored st (V2_press cq) errs ->
    V2_outcome now cq env kv
      (V2_ack cq :: V2_limiter_log now (V2_chat cq) kv ++
       List.map ConsoleError errs)
| V2_out_failed st i question answerValue reason :
    admits now (V2_chat cq) kv = true ->
    kv_get now (sessions kv) (V2_chat cq) = Some (Json st) ->
    V2_accepted st (V2_press cq) i question answerValue ->
    V2.checkFailCondition (V2.step st) answerValue (V2.minWeeklyHours env)
      = Some reason ->
    V2_outcome now cq env kv
      (V2_ack cq :: V2_limiter_log now (V2_chat cq) kv ++
       V2_report_log now V2.fail reason
         (V2.set_answer st (V2.key question) answerValue)
         (V2_chat cq) (V2.from cq) env)
| V2_out_passed st i question answerValue :
    admits now (V2_chat cq) kv = true ->
    kv_get now (sessions kv) (V2_chat cq) = Some (Json st) ->
    V2_accepted st (V2_press cq) i question answerValue ->
    V2.checkFailCondition (V2.step st) answerValue (V2.minWeeklyHours env)
      = None ->
    V2.STEP_ORDER !! S i = None ->
    V2_outcome now cq env kv
      (V2_ack cq :: V2_limiter_log now (V2_chat cq) kv ++
       V2_report_log now V2.pass V2.NoReason
         (V2.set_answer st (V2.key question) answerValue)
         (V2_chat cq) (V2.from cq) env)
| V2_out_advanced st i question answerValue next nextQuestion :
    admits now (V2_chat cq) kv = true ->
    kv_get now (sessions kv) (V2_chat cq) = Some (Json st) ->
    V2_accepted st (V2_press cq) i question answerValue ->
    V2.checkFailCondition (V2.step st) answerValue (V2.minWeeklyHours env)
      = None ->
    V2.STEP_ORDER !! S i = Some next ->
    V2.QUESTIONS !! S i = Some nextQuestion ->
    V2_outcome now cq env kv
      (V2_ack cq :: V2_limiter_log now (V2_chat cq) kv ++
       [PutSession (V2_chat cq)
          (V2.json_session
             (V2.set_step (V2.set_answer st (V2.key question) answerValue) next));
        SendMessage (V2_chat cq) (V2_question_msg (S i) nextQuestion)]).

(** *** Outcomes of a text message in the eight-question worker *)

(** What [handleStart] logs: the notice for a token shorter than four
    characters, else the fresh session and the first question. *)
Definition V2_start_log (now chatId : Z) (from : V2.TelegramUser)
    (token : string) : list V2.Eff :=
  if String.eqb token "" || (String.length (Js.trim token) <? 4)%nat
  then [SendMessage chatId V2.MsgUseApplicationLink]
  else
    [ PutSession chatId
        (V2.json_session
           (V2.mkSession (Js.trim token) V2.q1_team_role ∅ now (V2.username from)));
      SendMessage chatId
        (V2.MsgQuestion 0 (Some [["Q1_YES"]; ["Q1_NO"]]%string)) ].

(** The second piece of the text, [parts[1] ?? ""]. *)
Definition V2_start_token (trimmed : string) : string :=
  default ""%string (Js.split_ws trimmed !! 1%nat).

(** No session to go on with: none stored (or expired), an unparseable
    one, or one that [usable] rejects; [errs] are the console errors. *)
Definition V2_no_session (now chatId : Z) (kv : KV V2.SessionState)
    (usable : V2.SessionState -> bool) (errs : list string) : Prop :=
  (kv_get now (sessions kv) chatId = None /\ errs = []) \/
  (kv_get now (sessions kv) chatId = Some Corrupt /\
   errs = ["Failed to parse session"%string]) \/
  (exists st, kv_get now (sessions kv) chatId = Some (Json st) /\
              usable st = false /\ errs = []).

Definition V2_has_token (st : V2.SessionState) : bool :=
  negb (String.eqb (V2.applicant_token st) "").
Definition V2_is_active (st : V2.SessionState) : bool :=
  negb (bool_decide (V2.step st = V2.completed)).

Inductive V2_text_outcome (now chatId : Z) (from : V2.TelegramUser)
    (text : option string) (env : V2.Env) (kv : KV V2.SessionState)
  : list V2.Eff -> Prop :=
| V2_text_refused :
    admits now chatId kv = false ->
    V2_text_outcome now chatId from text env kv [SendMessage chatId V2.MsgTooFast]
| V2_text_start_no_token :
    admits now chatId kv = true ->
    Js.startsWith (Js.trim (default ""%string text)) "/start" = true ->
    V2_start_token (Js.trim (default ""%string text)) = ""%string ->
    V2_text_outcome now chatId from text env kv
      (V2_limiter_log now chatId kv ++ [SendMessage chatId V2.MsgUseApplicationLink])
| V2_text_start :
    admits now chatId kv = true ->
    Js.startsWith (Js.trim (default ""%string text)) "/start" = true ->
    V2_start_token (Js.trim (default ""%string text)) <> ""%string ->
    V2_text_outcome now chatId from text env kv
      (V2_limiter_log now chatId kv ++
       V2_start_log now chatId from
         (V2_start_token (Js.trim (default ""%string text))))
| V2_text_restart st :
    admits now chatId kv = true ->
    Js.startsWith (Js.trim (default ""%string text)) "/start" = false ->
    Js.startsWith (Js.trim (default ""%string text)) "/restart" = true ->
    kv_get now (sessions kv) chatId = Some (Json st) ->
    V2_has_token st = true ->
    V2_text_outcome now chatId from text env kv
      (V2_limiter_log now chatId kv ++
       V2_start_log now chatId from (V2.applicant_token st))
| V2_text_restart_none errs :
    admits now chatId kv = true ->
    Js.startsWith (Js.trim (default ""%string text)) "/start" = false ->
    Js.startsWith (Js.trim (default ""%string text)) "/restart" = true ->
    V2_no_session now chatId kv V2_has_token errs ->
    V2_text_outcome now chatId from text env kv
      (V2_limiter_log now chatId kv ++ List.map ConsoleError errs ++
       [SendMessage chatId V2.MsgNoActiveSession])
| V2_text_help :
    admits now chatId kv = true ->
    Js.startsWith (Js.trim (default ""%string text)) "/start" = false ->
    Js.startsWith (Js.trim (default ""%string text)) "/restart" = false ->
    Js.startsWith (Js.trim (default ""%string text)) "/help" = true ->
    V2_text_outcome now chatId from text env kv
      (V2_limiter_log now chatId kv ++ [SendMessage chatId V2.MsgHelp])
| V2_text_idle errs :
    admits now chatId kv = true ->
    V2_is_command (Js.trim (default ""%string text)) = false ->
    V2_no_session now chatId kv V2_is_active errs ->
    V2_text_outcome now chatId from text env kv
      (V2_limiter_log now chatId kv ++ List.map ConsoleError errs ++
       [SendMessage chatId V2.MsgUseEmailLink])
| V2_text_use_buttons st :
    admits now chatId kv = true ->
    V2_is_command (Js.trim (default ""%string text)) = false ->
    kv_get now (sessions kv) chatId = Some (Json st) ->
    V2.step st <> V2.completed -> V2.step st <> V2.q7_age ->
    V2_text_outcome now chatId from text env kv
      (V2_limiter_log now chatId kv ++ [SendMessage chatId V2.MsgUseButtons])
| V2_text_age_reprompt st :
    admits now chatId kv = true ->
    V2_is_command (Js.trim (default ""%string text)) = false ->
    kv_get now (sessions kv) chatId = Some (Json st) ->
    V2.step st = V2.q7_age ->
    (Js.parseInt (Js.trim (default ""%string text)) = None \/
     exists parsed, Js.parseInt (Js.trim (default ""%string text)) = Some parsed /\
                    (parsed < 10 \/ 80 < parsed)) ->
    V2_text_outcome now chatId from text env kv
      (V2_limiter_log now chatId kv ++ [SendMessage chatId V2.MsgWriteYourAge])
| V2_text_age_failed st parsed :
    admits now chatId kv = true ->
    V2_is_command (Js.trim (default ""%string text)) = false ->
    kv_get now (sessions kv) chatId = Some (Json st) ->
    V2.step st = V2.q7_age ->
    Js.parseInt (Js.trim (default ""%string text)) = Some parsed ->
    35 <= parsed <= 80 ->
    V2_text_outcome now chatId from text env kv
      (V2_limiter_log now chatId kv ++
       V2_report_log now V2.fail V2.TooOld
         (V2.set_answer st "age" (V2.VNum parsed)) chatId from env)
| V2_text_age_advanced st parsed :
    admits now chatId kv = true ->
    V2_is_command (Js.trim (default ""%string text)) = false ->
    kv_get now (sessions kv) chatId = Some (Json st) ->
    V2.step st = V2.q7_age ->
    Js.parseInt (Js.trim (default ""%string text)) = Some parsed ->
    10 <= parsed < 35 ->
    V2_text_outcome now chatId from text env kv
      (V2_limiter_log now chatId kv ++
       [ PutSession chatId
           (V2.json_session
              (V2.set_step (V2.set_answer st "age" (V2.VNum parsed))
                 V2.q8_student_types));
         SendMessage chatId
           (V2.MsgQuestion 7
              (Some [["Q8_KIDS"]; ["Q8_TEENS"]; ["Q8_ADULTS"]; ["Q8_ALL"]]%string)) ]).

(** *** Outcomes of an update in the eight-question worker *)

(** The chat that [handleWebhook] serves for a body, if any. *)
Definition V2_update_chat (body : V2.Body) : option Z :=
  match body with
  | V2.JsonUpdate update =>
      match V2.callback_query update with
      | Some cq => Some (V2_chat cq)
      | None => V2.chat_id <$> V2.message update
      end
  | _ => None
  end.

Inductive V2_update_outcome (now : Z) (env : V2.Env) (kv : KV V2.SessionState)
  : V2.Body -> list V2.Eff -> Prop :=
| V2_update_not_json :
    V2_update_outcome now env kv V2.NotJson
      [ConsoleError "Failed to parse Telegram update body"]
| V2_update_null :
    V2_update_outcome now env kv V2.JsonNull
      [ConsoleError "Unhandled error in handleWebhook"]
| V2_update_press update cq log :
    V2.callback_query update = Some cq ->
    V2_outcome now cq env kv log ->
    V2_update_outcome now env kv (V2.JsonUpdate update) log
| V2_update_text update msg log :
    V2.callback_query update = None ->
    V2.message update = Some msg ->
    V2_text_outcome now (V2.chat_id msg)
      (default (V2.mkUser (V2.chat_id msg) None "there") (V2.message_from msg))
      (V2.text msg) env kv log ->
    V2_update_outcome now env kv (V2.JsonUpdate update) log
| V2_update_other update :
    V2.callback_query update = None ->
    V2.message update = None ->
    V2_update_outcome now env kv (V2.JsonUpdate update) [].

(** *** Where a session stands *)

(** The position of a step in [STEP_ORDER]; [completed] lies past the end. *)
Definition V1_position (s : V1.Step) : nat :=
  default (length V1.STEP_ORDER) (array_indexOf V1.STEP_ORDER s).
Definition V2_position (s : V2.Step) : nat :=
  default (length V2.STEP_ORDER) (array_indexOf V2.STEP_ORDER s).

(** The answer keys of the questions before position [n]. *)
Definition V1_keys_before (n : nat) : list string :=
  V1.key <$> take n V1.QUESTIONS.
Definition V2_keys_before (n : nat) : list string :=
  V2.key <$> take n V2.QUESTIONS.

(** A session holds answers only for questions it has passed. *)
Definition V1_answers_in_order (st : V1.SessionState) : Prop :=
  forall k, is_Some (V1.answers st !! k) ->
            k ∈ V1_keys_before (V1_position (V1.step st)).
Definition V2_answers_in_order (st : V2.SessionState) : Prop :=
  forall k, is_Some (V2.answers st !! k) ->
            k ∈ V2_keys_before (V2_position (V2.step st)).


(** [st'] carries on from [st]: the same token, start time and user name,
    and either nothing changed or the step moved to the next position with
    the answer to the question just left added. *)
Definition V1_carries_on (st st' : V1.SessionState) : Prop :=
  V1.applicant_token st' = V1.applicant_token st /\
  V1.started_at st' = V1.started_at st /\
  V1.telegram_username st' = V1.telegram_username st /\
  (st' = st \/
   (V1_position (V1.step st') = S (V1_position (V1.step st)) /\
    exists question answerValue,
      V1.QUESTIONS !! V1_position (V1.step st) = Some question /\
      V1.answers st' = <[V1.key question := answerValue]> (V1.answers st))).

Definition V2_carries_on (st st' : V2.SessionState) : Prop :=
  V2.applicant_token st' = V2.applicant_token st /\
  V2.started_at st' = V2.started_at st /\
  V2.telegram_username st' = V2.telegram_username st /\
  (st' = st \/
   (V2_position (V2.step st') = S (V2_position (V2.step st)) /\
    exists question answerValue,
      V2.QUESTIONS !! V2_position (V2.step st) = Some question /\
      V2.answers st' =
        V2.json_answers (<[V2.key question := answerValue]> (V2.answers st)))).

(** [st'] is a session that [handleStart] has just created at [now]. *)
Definition V2_fresh (now : Z) (st' : V2.SessionState) : Prop :=
  V2.step st' = V2.q1_team_role /\ V2.answers st' = ∅ /\
  V2.started_at st' = now /\
  (4 <= String.length (V2.applicant_token st'))%nat.

(** What the handler logs after the limiter once a press has been accepted
    as the answer [answerValue] to the [i]-th question. *)
Definition V1_answer_log (now : Z) (cq : V1.TelegramCallbackQuery) (env : V1.Env)
    (st : V1.SessionState) (i : nat) (question : V1.Question)
    (answerValue : string) : list V1.Eff :=
  let answered := V1.set_answer st (V1.key question) answerValue in
  match V1.checkFailCondition (V1.step st) answerValue (V1.minWeeklyHours env) with
  | Some reason =>
      V1_report_log now V1.fail reason answered (V1_chat cq) (V1.from cq) env
  | None =>
      match V1.STEP_ORDER !! S i with
      | None =>
          V1_report_log now V1.pass V1.NoReason answered (V1_chat cq)
            (V1.from cq) env
      | Some next =>
          PutSession (V1_chat cq) (V1.set_step answered next) ::
          match V1.QUESTIONS !! S i with
          | Some nextQuestion =>
              [SendMessage (V1_chat cq)
                 (V1.MsgQuestion (S i) (V1.buttons nextQuestion))]
          | None => [ConsoleError "TypeError"]
          end
      end
  end.

Definition V2_answer_log (now : Z) (cq : V2.TelegramCallbackQuery) (env : V2.Env)
    (st : V2.SessionState) (i : nat) (question : V2.Question)
    (answerValue : V2.JsVal) : list V2.Eff :=
  let answered := V2.set_answer st (V2.key question) answerValue in
  match V2.checkFailCondition (V2.step st) answerValue (V2.minWeeklyHours env) with
  | Some reason =>
      V2_report_log now V2.fail reason answered (V2_chat cq) (V2.from cq) env
  | None =>
      match V2.STEP_ORDER !! S i with
      | None =>
          V2_report_log now V2.pass V2.NoReason answered (V2_chat cq)
            (V2.from cq) env
      | Some next =>
          PutSession (V2_chat cq) (V2.json_session (V2.set_step answered next)) ::
          match V2.QUESTIONS !! S i with
          | Some nextQuestion =>
              [SendMessage (V2_chat cq) (V2_question_msg (S i) nextQuestion)]
          | None => [ConsoleError "TypeError"]
          end
      end
  end.

(** *** Texts *)

(** Every character of [s] is white space; none is. *)
Fixpoint all_ws (s : string) : bool :=
  match s with
  | EmptyString => true
  | String c s' => Js.is_ws c && all_ws s'
  end.

Fixpoint no_ws (s : string) : bool :=
  match s with
  | EmptyString => true
  | String c s' => negb (Js.is_ws c) && no_ws s'
  end.

(** A word: at least one character, none of them white space. *)
Definition is_word (s : string) : bool :=
  negb (String.eqb s "") && no_ws s.

(** *** A whole interview in the five-question worker *)

(** The press of a button of step [s] that carries the answer [a]. *)
Definition V1_button (from : V1.TelegramUser) (s : V1.Step) (cq_id a : string)
  : V1.TelegramCallbackQuery :=
  V1.mkCallbackQuery cq_id from (Some (V1.STEP_PREFIX s ++ ":" ++ a)%string).

(** One press per step, in the order of [steps]; a press is the instant
    of the call, the identifier of the query and the answer it carries. *)
Fixpoint V1_interview (from : V1.TelegramUser) (env : V1.Env)
    (steps : list V1.Step) (presses : list (Z * string * string))
  : V1.Prog unit :=
  match steps, presses with
  | s :: steps, (now, cq_id, a) :: presses =>
      V1.handleCallbackQuery now (V1_button from s cq_id a) env ;;
      V1_interview from env steps presses
  | _, _ => ret tt
  end.

(** Every press comes before the session entry written by the press before
    it expires; [deadline] is the expiry of the entry found by the first. *)
Fixpoint V1_in_time (deadline : Z) (presses : list (Z * string * string)) : Prop :=
  match presses with
  | [] => True
  | (now, _, _) :: presses =>
      now < deadline /\ V1_in_time (now + SESSION_TTL_SECONDS * 1000) presses
  end.

(** No answer trips the fail condition of its step. *)
Fixpoint V1_all_pass (env : V1.Env) (steps : list V1.Step)
    (presses : list (Z * string * string)) : Prop :=
  match steps, presses with
  | s :: steps, (_, _, a) :: presses =>
      V1.checkFailCondition s a (V1.minWeeklyHours env) = None /\
      V1_all_pass env steps presses
  | _, _ => True
  end.

(** The answers on record once the presses have answered the questions. *)
Fixpoint V1_record (answers : gmap string string) (questions : list V1.Question)
    (presses : list (Z * string * string)) : gmap string string :=
  match questions, presses with
  | question :: questions, (_, _, a) :: presses =>
      V1_record (<[V1.key question := a]> answers) questions presses
  | _, _ => answers
  end.

(** *** A whole interview in the eight-question worker *)

(** The update by which the user answers step [s] with [input]: a text at
    the age step, elsewhere a press of the step's button with the suffix
    [input]. *)
Definition V2_answer_update (from : V2.TelegramUser) (s : V2.Step)
    (cq_id input : string) : V2.Body :=
  V2.JsonUpdate
    (if decide (s = V2.q7_age)
     then V2.mkUpdate
            (Some (V2.mkMessage (Some from) (V2.id from) (Some input))) None
     else V2.mkUpdate None
            (Some (V2.mkCallbackQuery cq_id from
                     (Some (V2.STEP_PREFIX s ++ "_" ++ input)%string)))).

(** One update per step from position [i] on, each posted to the webhook at
    its own instant; an input is the instant, the identifier of the query
    (unused for a text) and what the user entered. *)
Fixpoint V2_interview (from : V2.TelegramUser) (env : V2.Env) (i : nat)
    (inputs : list (Z * string * string)) : V2.Prog unit :=
  match inputs with
  | [] => ret tt
  | (now, cq_id, input) :: inputs =>
      match V2.STEP_ORDER !! i with
      | Some s =>
          V2.handleWebhook now (V2_answer_update from s cq_id input) env ;;
          V2_interview from env (S i) inputs
      | None => ret tt
      end
  end.

(** The value that [input] puts on record at step [s] when it passes: an
    age from 10 to 34, or the answer that the step's map gives for the
    suffix when it trips no fail condition. *)
Definition V2_passing_value (env : V2.Env) (s : V2.Step) (input : string)
  : option V2.JsVal :=
  if decide (s = V2.q7_age) then
    match Js.parseInt (Js.trim input) with
    | Some parsed =>
        if (10 <=? parsed) && (parsed <? 35) then Some (V2.VNum parsed) else None
    | None => None
    end
  else
    match Js.own_prop V2.CALLBACK_VALUE_MAP (V2.STEP_PREFIX s) with
    | Some prefixMap =>
        match V2_answer_of prefixMap input with
        | Some v =>
            match V2.checkFailCondition s v (V2.minWeeklyHours env) with
            | None => Some v
            | Some _ => None
            end
        | None => None
        end
    | None => None
    end.

Fixpoint V2_all_pass (env : V2.Env) (i : nat)
    (inputs : list (Z * string * string)) : Prop :=
  match inputs with
  | [] => True
  | (_, _, input) :: inputs =>
      (exists s, V2.STEP_ORDER !! i = Some s /\
                 is_Some (V2_passing_value env s input)) /\
      V2_all_pass env (S i) inputs
  end.

(** Every update comes before the session entry written by the update
    before it expires; [deadline] is the expiry of the entry found by the
    first. *)
Fixpoint V2_in_time (deadline : Z) (inputs : list (Z * string * string)) : Prop :=
  match inputs with
  | [] => True
  | (now, _, _) :: inputs =>
      now < deadline /\ V2_in_time (now + SESSION_TTL_SECONDS * 1000) inputs
  end.

(** The limiter calls that the updates of chat [c] make. *)
Definition V2_calls (c : Z) (inputs : list (Z * string * string)) : list (Z * Z) :=
  List.map (fun input => (c, input.1.1)) inputs.

(** The answers on record once the inputs have answered the questions from
    position [i] on; every save writes them as JSON. *)
Fixpoint V2_record (env : V2.Env) (i : nat) (answers : gmap string V2.JsVal)
    (inputs : list (Z * string * string)) : gmap string V2.JsVal :=
  match inputs with
  | [] => answers
  | (_, _, input) :: inputs =>
      match V2.STEP_ORDER !! i, V2.QUESTIONS !! i with
      | Some s, Some question =>
          match V2_passing_value env s input with
          | Some v =>
              V2_record env (S i)
                (V2.json_answers (<[V2.key question := v]> answers)) inputs
          | None => answers
          end
      | _, _ => answers
      end
  end.

(** *** Texts in the five-question worker *)

(** What [handleStart] logs: the notice for a token shorter than four
    characters, else the fresh session, the welcome and the first
    question. *)
Definition V1_start_log (now chatId : Z) (from : V1.TelegramUser)
    (token : string) : list V1.WorkerEff :=
  if String.eqb token "" || (String.length (Js.trim token) <? 4)%nat
  then [SendMessage chatId V1.MsgInvalidToken]
  else
    [ PutSession chatId
        (V1.mkSession (Js.trim token) V1.q1_team_role ∅ now (V1.username from));
      SendMessage chatId (V1.MsgWelcome (V1.first_name from));
      SendMessage chatId
        (V1.Pressed (V1.MsgQuestion 0 [["q1:yes"]; ["q1:no"]]%string)) ].

(** The chat that an update of the five-question worker belongs to. *)
Definition V1_update_chat (body : V1.Body) : option Z :=
  match body with
  | V1.JsonUpdate update =>
      match V1.callback_query update with
      | Some cq => Some (V1.id (V1.from cq))
      | None => V1.chat_id <$> V1.message update
      end
  | _ => None
  end.

(** * Properties *)

(** ** The rate limiter *)

Section RateLimiter.
Context {Sess Msg Payload : Type}.
Local Abbreviation Eff := (effect Sess Msg Payload).
Implicit Types (kv : KV Sess) (now chatId c t T : Z) (l ts : list Z).

Lemma checkRateLimit_rejects now chatId kv :
  (RATE_LIMIT_MAX_ACTIONS <= recent_count now (stored_window now kv chatId))%nat ->
  checkRateLimit (Msg:=Msg) (Payload:=Payload) now chatId kv = (false, kv, []).
Proof.
  intros H. unfold checkRateLimit, bind, gets, recent_count in *.
  destruct (Nat.leb_spec RATE_LIMIT_MAX_ACTIONS
    (length (List.filter (in_window now) (stored_window now kv chatId))));
    [reflexivity | lia].
Qed.

Lemma checkRateLimit_admits now chatId kv :
  (recent_count now (stored_window now kv chatId) < RATE_LIMIT_MAX_ACTIONS)%nat ->
  let recent := List.filter (in_window now) (stored_window now kv chatId) in
  checkRateLimit (Msg:=Msg) (Payload:=Payload) now chatId kv =
    (true,
     mkKV (sessions kv)
          (<[chatId := (now + RATE_LIMIT_TTL_SECONDS * 1000, Json (recent ++ [now]))]>
             (windows kv)),
     [PutWindow chatId (recent ++ [now])]).
Proof.
  intros H. unfold checkRateLimit, bind, gets, recent_count in *.
  destruct (Nat.leb_spec RATE_LIMIT_MAX_ACTIONS
    (length (List.filter (in_window now) (stored_window now kv chatId))));
    [lia | reflexivity].
Qed.

(** The limiter touches neither the sessions nor the user. *)
Lemma checkRateLimit_frame now chatId kv :
  let r := checkRateLimit (Msg:=Msg) (Payload:=Payload) now chatId kv in
  sessions (store_of r) = sessions kv /\
  messages (effects_of r) = [] /\
  deliveries (effects_of r) = [] /\
  List.filter is_session_write (effects_of r) = [].
Proof.
  destruct (Nat.le_gt_cases RATE_LIMIT_MAX_ACTIONS
              (recent_count now (stored_window now kv chatId))) as [H|H].
  - rewrite (checkRateLimit_rejects _ _ _ H). repeat split.
  - cbv zeta. rewrite (checkRateLimit_admits _ _ _ H). repeat split.
Qed.

(** *** A run of calls under a monotone clock *)

Lemma times_of_cons c call calls :
  times_of c (call :: calls) = times_of c [call] ++ times_of c calls.
Proof.
  unfold times_of. simpl. destruct (bool_decide (call.1 = c)); reflexivity.
Qed.

Lemma trailing_count_times c T calls :
  length (List.filter (in_trailing_window c T) calls) =
  length (List.filter (trailing T) (times_of c calls)).
Proof.
  unfold times_of, in_trailing_window, trailing.
  induction calls as [|[ch t] calls IH]; simpl; [reflexivity|].
  destruct (bool_decide (ch = c)); simpl; [|exact IH].
  destruct ((t <=? T) && in_window T t); simpl; now rewrite IH.
Qed.

Lemma recent_count_app now l1 l2 :
  recent_count now (l1 ++ l2) = (recent_count now l1 + recent_count now l2)%nat.
Proof. unfold recent_count. now rewrite List.filter_app, length_app. Qed.

Lemma recent_count_le_length now l : (recent_count now l <= length l)%nat.
Proof. apply List.filter_length_le. Qed.

(** Pruning at an earlier instant loses nothing that a later instant
    still counts. *)
Lemma recent_count_pruned t now l :
  t <= now ->
  recent_count now (List.filter (in_window t) l) = recent_count now l.
Proof.
  intros Hle. unfold recent_count, in_window.
  induction l as [|x l IH]; simpl; [reflexivity|].
  destruct (Z.ltb_spec (t - x) RATE_LIMIT_WINDOW_MS);
    destruct (Z.ltb_spec (now - x) RATE_LIMIT_WINDOW_MS); simpl;
    try (destruct (Z.ltb_spec (now - x) RATE_LIMIT_WINDOW_MS)); simpl;
    try lia; now rewrite IH.
Qed.

Lemma recent_count_stale now l :
  (forall a, In a l -> a + RATE_LIMIT_WINDOW_MS <= now) ->
  recent_count now l = 0%nat.
Proof.
  unfold recent_count, in_window. induction l as [|x l IH]; intros H; simpl;
    [reflexivity|].
  assert (x + RATE_LIMIT_WINDOW_MS <= now) by (apply H; now left).
  destruct (Z.ltb_spec (now - x) RATE_LIMIT_WINDOW_MS); [lia|].
  apply IH. intros a Ha. apply H. now right.
Qed.

(** An entry can only expire between two reads, never come back. *)
Lemma stored_window_later t now kv c :
  t <= now ->
  stored_window now kv c = stored_window t kv c \/ stored_window now kv c = [].
Proof.
  intros Hle. unfold stored_window, kv_get.
  destruct (windows kv !! c) as [[expiry v]|]; [|now left].
  destruct (Z.ltb_spec now expiry); [|now right].
  destruct (Z.ltb_spec t expiry); [now left | lia].
Qed.

Lemma stored_window_insert_eq now t kv c ts :
  stored_window now
    (mkKV (sessions kv)
          (<[c := (t + RATE_LIMIT_TTL_SECONDS * 1000, Json ts)]> (windows kv))) c
  = if now <? t + RATE_LIMIT_TTL_SECONDS * 1000 then ts else [].
Proof.
  unfold stored_window, kv_get. simpl. rewrite lookup_insert_eq.
  now destruct (now <? t + RATE_LIMIT_TTL_SECONDS * 1000).
Qed.

Lemma stored_window_insert_ne now kv c c' v :
  c' <> c ->
  stored_window now (mkKV (sessions kv) (<[c' := v]> (windows kv))) c
  = stored_window now kv c.
Proof.
  intros Hne. unfold stored_window, kv_get. simpl.
  now rewrite lookup_insert_ne.
Qed.

Lemma trailing_past T acc :
  (forall a, In a acc -> a <= T) ->
  length (List.filter (trailing T) acc) = recent_count T acc.
Proof.
  unfold recent_count, trailing. induction acc as [|a acc IH]; intros H; simpl;
    [reflexivity|].
  assert (a <= T) as Ha by (apply H; now left).
  destruct (Z.leb_spec a T); [|lia]. simpl.
  destruct (in_window T a); simpl; rewrite IH; auto; intros; apply H; now right.
Qed.

Lemma window_inv_step c tcur kv acc ch t :
  window_inv c tcur kv acc -> tcur <= t ->
  let r := checkRateLimit (Msg:=Msg) (Payload:=Payload) t ch kv in
  window_inv c t (store_of r)
    (acc ++ times_of c (if result_of r then [(ch, t)] else [])).
Proof.
  intros (Hpast & Hacc & Hmax) Hle.
  destruct (Nat.le_gt_cases RATE_LIMIT_MAX_ACTIONS
              (recent_count t (stored_window t kv ch))) as [Hfull|Hroom].
  - (* rejected: nothing changes *)
    cbv zeta. rewrite (checkRateLimit_rejects _ _ _ Hfull).
    unfold result_of, store_of, times_of. simpl. rewrite app_nil_r.
    split; [|split]; auto.
    + intros a Ha. specialize (Hpast a Ha). lia.
    + intros now Hnow. apply Hacc. lia.
  - cbv zeta. rewrite (checkRateLimit_admits _ _ _ Hroom).
    unfold result_of, store_of, times_of. simpl.
    destruct (decide (ch = c)) as [->|Hne].
    + (* admitted, and it is a call of [c] *)
      rewrite bool_decide_eq_true_2 by reflexivity. simpl.
      assert (forall a, In a (acc ++ [t]) -> a <= t) as Hpast'.
      { intros a Ha. apply in_app_iff in Ha as [Ha|[<-|[]]]; [|lia].
        specialize (Hpast a Ha). lia. }
      assert (forall now, t <= now ->
                (recent_count now acc <= recent_count now (stored_window t kv c))%nat)
        as Hacc'.
      { intros now Hnow.
        assert (tcur <= now) as H1 by lia. specialize (Hacc now H1).
        destruct (stored_window_later t now kv c Hnow) as [E|E];
          rewrite E in Hacc; [exact Hacc|].
        unfold recent_count in Hacc at 2. simpl in Hacc. lia. }
      split; [exact Hpast'|split].
      * intros now Hnow. rewrite stored_window_insert_eq.
        destruct (Z.ltb_spec now (t + RATE_LIMIT_TTL_SECONDS * 1000)) as [Hlive|Hdead].
        -- rewrite !recent_count_app, recent_count_pruned by exact Hnow.
           specialize (Hacc' now Hnow). lia.
        -- (* the entry has expired: every admitted instant is stale *)
           assert (recent_count now (acc ++ [t]) = 0%nat) as ->; [|lia].
           apply recent_count_stale. intros a Ha. specialize (Hpast' a Ha).
           unfold RATE_LIMIT_WINDOW_MS, RATE_LIMIT_TTL_SECONDS in *. lia.
      * intros T. destruct (Z.le_gt_cases t T) as [HT|HT].
        -- rewrite trailing_past by (intros a Ha; specialize (Hpast' a Ha); lia).
           rewrite recent_count_app.
           specialize (Hacc' T HT).
           rewrite <- (recent_count_pruned t T (stored_window t kv c)) in Hacc'
             by exact HT.
           pose proof (recent_count_le_length T
                         (List.filter (in_window t) (stored_window t kv c))).
           pose proof (recent_count_le_length T [t]). simpl in *.
           unfold recent_count in Hroom at 1.
           unfold RATE_LIMIT_MAX_ACTIONS in *. lia.
        -- rewrite List.filter_app, length_app. simpl.
           unfold trailing at 2. destruct (Z.leb_spec t T); [lia|]. simpl.
           specialize (Hmax T). lia.
    + (* admitted, but a call of another chat *)
      rewrite bool_decide_eq_false_2 by exact Hne. simpl. rewrite app_nil_r.
      split; [|split]; auto.
      * intros a Ha. specialize (Hpast a Ha). lia.
      * intros now Hnow. rewrite stored_window_insert_ne by exact Hne.
        apply Hacc. lia.
Qed.

Lemma window_inv_init c tcur kv : window_inv c tcur kv [].
Proof.
  split; [|split]; simpl; intros; try tauto; unfold recent_count; simpl; lia.
Qed.

Lemma admitted_bound c calls : forall kv acc tcur,
  clock_monotone_from tcur calls = true ->
  window_inv c tcur kv acc ->
  forall T,
    (length (List.filter (trailing T)
               (acc ++ times_of c (admitted (Msg:=Msg) (Payload:=Payload) calls kv)))
     <= RATE_LIMIT_MAX_ACTIONS)%nat.
Proof.
  induction calls as [|[ch t] calls IH]; intros kv acc tcur Hclock Hinv T.
  - simpl. unfold times_of. simpl. rewrite app_nil_r. apply Hinv.
  - simpl in Hclock. apply andb_true_iff in Hclock as [Ht Hclock].
    apply Z.leb_le in Ht.
    pose proof (window_inv_step c tcur kv acc ch t Hinv Ht) as Hstep.
    cbv zeta in Hstep. simpl.
    destruct (result_of (checkRateLimit t ch kv)) eqn:E.
    + rewrite times_of_cons, app_assoc. eapply IH; eauto.
    + unfold times_of in Hstep at 1. simpl in Hstep. rewrite app_nil_r in Hstep.
      eapply IH; eauto.
Qed.

Lemma admitted_trailing_bound calls kv c T :
  clock_monotone calls = true ->
  (length (List.filter (in_trailing_window c T)
             (admitted (Msg:=Msg) (Payload:=Payload) calls kv))
   <= RATE_LIMIT_MAX_ACTIONS)%nat.
Proof.
  intros Hclock. rewrite trailing_count_times.
  destruct calls as [|[ch t] calls].
  - simpl. unfold RATE_LIMIT_MAX_ACTIONS. lia.
  - apply (admitted_bound c _ kv [] t Hclock (window_inv_init c t kv)).
Qed.

End RateLimiter.

(** ** Reading a stored session *)

Section Handlers.
Context {Sess Msg Payload : Type}.

Lemma loadSession_stored now c (kv : KV Sess) st :
  kv_get now (sessions kv) c = Some (Json st) ->
  loadSession (Msg:=Msg) (Payload:=Payload) now c kv = (Some st, kv, []).
Proof. intros H. unfold loadSession, bind, gets. now rewrite H. Qed.

End Handlers.

(** Unfolds the monad and reduces, leaving the workers' functions folded. *)
Ltac run :=
  cbv beta iota zeta
      delta [bind ret emit gets modify answerCallbackQuery sendMessage negb
             result_of store_of effects_of fst snd app].

(** Splits on whether the limiter admits the call at the head of a handler
    and rewrites the handler accordingly. *)
Ltac limiter_cases now c kv :=
  destruct (Nat.le_gt_cases RATE_LIMIT_MAX_ACTIONS
              (recent_count now (stored_window now kv c))) as [Hfull|Hroom];
  [ rewrite !(checkRateLimit_rejects _ _ _ Hfull)
  | rewrite !(checkRateLimit_admits _ _ _ Hroom) ]; run.

Lemma admits_result {Sess Msg Payload} now c (kv : KV Sess) :
  result_of (checkRateLimit (Msg:=Msg) (Payload:=Payload) now c kv) = admits now c kv.
Proof.
  unfold admits.
  destruct (Nat.le_gt_cases RATE_LIMIT_MAX_ACTIONS
              (recent_count now (stored_window now kv c))) as [H|H].
  - now rewrite !(checkRateLimit_rejects _ _ _ H).
  - now rewrite !(checkRateLimit_admits _ _ _ H).
Qed.

Lemma filter_map_ConsoleError {Sess Msg Payload}
    (f : effect Sess Msg Payload -> bool) errs :
  (forall e, f (ConsoleError e) = false) ->
  List.filter f (List.map ConsoleError errs) = [].
Proof.
  intros Hf. induction errs as [|e errs IH]; simpl; [reflexivity|].
  now rewrite Hf.
Qed.

Lemma V1_dropped_silent now cq kv errs :
  silently_dropped now (V1.id (V1.from cq)) kv (V1_dropped now cq kv errs).
Proof.
  unfold silently_dropped, V1_dropped. cbv zeta. rewrite admits_result.
  pose proof (checkRateLimit_frame (Msg:=V1.Msg) (Payload:=V1.ResultPayload)
                now (V1.id (V1.from cq)) kv) as (Hs & Hm & Hd & Hw).
  unfold messages, deliveries, store_of, effects_of in *. cbn [fst snd].
  cbn [List.filter is_message is_delivery is_session_write].
  rewrite !List.filter_app, Hm, Hd, Hw, Hs.
  destruct (admits now (V1.id (V1.from cq)) kv); cbn [app];
    rewrite ?filter_map_ConsoleError by reflexivity; repeat split; discriminate.
Qed.

Lemma V2_dropped_silent now cq kv errs :
  silently_dropped now (V2.id (V2.from cq)) kv (V2_dropped now cq kv errs).
Proof.
  unfold silently_dropped, V2_dropped. cbv zeta. rewrite admits_result.
  pose proof (checkRateLimit_frame (Msg:=V2.Msg) (Payload:=V2.ResultPayload)
                now (V2.id (V2.from cq)) kv) as (Hs & Hm & Hd & Hw).
  unfold messages, deliveries, store_of, effects_of in *. cbn [fst snd].
  cbn [List.filter is_message is_delivery is_session_write].
  rewrite !List.filter_app, Hm, Hd, Hw, Hs.
  destruct (admits now (V2.id (V2.from cq)) kv); cbn [app];
    rewrite ?filter_map_ConsoleError by reflexivity; repeat split; discriminate.
Qed.

(** *** Button presses that the handlers drop *)

Lemma V1_completed_run now cq env kv st :
  kv_get now (sessions kv) (V1.id (V1.from cq)) = Some (Json st) ->
  V1.step st = V1.completed ->
  V1.handleCallbackQuery now cq env kv = V1_dropped now cq kv [].
Proof.
  intros Hst Hdone. unfold V1.handleCallbackQuery, V1_dropped. run.
  limiter_cases now (V1.id (V1.from cq)) kv; [reflexivity|].
  rewrite (loadSession_stored _ _ _ st) by exact Hst. run.
  rewrite Hdone. reflexivity.
Qed.

Lemma V2_completed_run now cq env kv st :
  kv_get now (sessions kv) (V2.id (V2.from cq)) = Some (Json st) ->
  V2.step st = V2.completed ->
  V2.handleCallbackQuery now cq env kv = V2_dropped now cq kv [].
Proof.
  intros Hst Hdone. unfold V2.handleCallbackQuery, V2_dropped. run.
  limiter_cases now (V2.id (V2.from cq)) kv; [reflexivity|].
  rewrite (loadSession_stored _ _ _ st) by exact Hst. run.
  rewrite Hdone. reflexivity.
Qed.

Lemma V1_stale_run now cq env kv st colonIdx :
  kv_get now (sessions kv) (V1.id (V1.from cq)) = Some (Json st) ->
  Js.indexOf ":" (default ""%string (V1.data cq)) = Some colonIdx ->
  Js.take colonIdx (default ""%string (V1.data cq)) <> V1.STEP_PREFIX (V1.step st) ->
  V1.handleCallbackQuery now cq env kv = V1_dropped now cq kv [].
Proof.
  intros Hst Hidx Hpre. unfold V1.handleCallbackQuery, V1_dropped. run.
  limiter_cases now (V1.id (V1.from cq)) kv; [reflexivity|].
  rewrite (loadSession_stored _ _ _ st) by exact Hst. run.
  destruct (decide (V1.step st = V1.completed)); [reflexivity|].
  rewrite Hidx. run.
  apply String.eqb_neq in Hpre. rewrite Hpre. reflexivity.
Qed.

Lemma V2_stale_run now cq env kv st underscoreIdx :
  kv_get now (sessions kv) (V2.id (V2.from cq)) = Some (Json st) ->
  Js.indexOf "_" (default ""%string (V2.data cq)) = Some underscoreIdx ->
  Js.take underscoreIdx (default ""%string (V2.data cq)) <> V2.STEP_PREFIX (V2.step st) ->
  V2.handleCallbackQuery now cq env kv = V2_dropped now cq kv [].
Proof.
  intros Hst Hidx Hpre. unfold V2.handleCallbackQuery, V2_dropped. run.
  limiter_cases now (V2.id (V2.from cq)) kv; [reflexivity|].
  rewrite (loadSession_stored _ _ _ st) by exact Hst. run.
  destruct (decide (V2.step st = V2.completed)); [reflexivity|].
  rewrite Hidx. run.
  apply String.eqb_neq in Hpre. rewrite Hpre. reflexivity.
Qed.

Lemma V2_unmapped_run now cq env kv st underscoreIdx :
  kv_get now (sessions kv) (V2.id (V2.from cq)) = Some (Json st) ->
  Js.indexOf "_" (default ""%string (V2.data cq)) = Some underscoreIdx ->
  Js.take underscoreIdx (default ""%string (V2.data cq)) = V2.STEP_PREFIX (V2.step st) ->
  (forall prefixMap,
     Js.own_prop V2.CALLBACK_VALUE_MAP (V2.STEP_PREFIX (V2.step st)) = Some prefixMap ->
     Js.get prefixMap (Js.drop (S underscoreIdx) (default ""%string (V2.data cq)))
       = Js.Undefined) ->
  exists errs, V2.handleCallbackQuery now cq env kv = V2_dropped now cq kv errs.
Proof.
  intros Hst Hidx Hpre Hun. unfold V2.handleCallbackQuery, V2_dropped. run.
  limiter_cases now (V2.id (V2.from cq)) kv; [now exists []|].
  rewrite (loadSession_stored _ _ _ st) by exact Hst. run.
  destruct (decide (V2.step st = V2.completed)); [now exists []|].
  rewrite Hidx. run. rewrite Hpre, String.eqb_refl. run.
  destruct (Js.own_prop V2.CALLBACK_VALUE_MAP (V2.STEP_PREFIX (V2.step st)))
    as [prefixMap|] eqn:Hmap.
  - rewrite (Hun prefixMap eq_refl). now eexists [_].
  - now eexists [_].
Qed.

(** C3. A button press that reaches a stored session whose step is
    [completed] is a no-op in both workers: the stored sessions stay as they
    are, no result is delivered, no session write is issued and, the press
    being admitted by the limiter, no message is sent.  Hence a second
    delivery of the same press finds the same completed session and is a
    no-op again. *)
Theorem C3_completed_session_ignores_presses :
  (forall now1 now2 cq env kv st,
     let chatId := V1.id (V1.from cq) in
     kv_get now1 (sessions kv) chatId = Some (Json st) ->
     kv_get now2 (sessions kv) chatId = Some (Json st) ->
     V1.step st = V1.completed ->
     let r1 := V1.handleCallbackQuery now1 cq env kv in
     let r2 := V1.handleCallbackQuery now2 cq env (store_of r1) in
     silently_dropped now1 chatId kv r1 /\
     silently_dropped now2 chatId (store_of r1) r2 /\
     sessions (store_of r2) = sessions kv) /\
  (forall now1 now2 cq env kv st,
     let chatId := V2.id (V2.from cq) in
     kv_get now1 (sessions kv) chatId = Some (Json st) ->
     kv_get now2 (sessions kv) chatId = Some (Json st) ->
     V2.step st = V2.completed ->
     let r1 := V2.handleCallbackQuery now1 cq env kv in
     let r2 := V2.handleCallbackQuery now2 cq env (store_of r1) in
     silently_dropped now1 chatId kv r1 /\
     silently_dropped now2 chatId (store_of r1) r2 /\
     sessions (store_of r2) = sessions kv).
Proof.
  split; intros now1 now2 cq env kv st chatId H1 H2 Hdone r1 r2.
  - assert (silently_dropped now1 chatId kv r1) as D1.
    { subst r1. rewrite (V1_completed_run _ _ _ _ st H1 Hdone).
      apply V1_dropped_silent. }
    destruct D1 as (Hs & D1). rewrite <- Hs in H2.
    assert (silently_dropped now2 chatId (store_of r1) r2) as D2.
    { subst r2. rewrite (V1_completed_run _ _ _ _ st H2 Hdone).
      apply V1_dropped_silent. }
    split; [split; assumption|]. split; [exact D2|].
    destruct D2 as (Hs2 & _). congruence.
  - assert (silently_dropped now1 chatId kv r1) as D1.
    { subst r1. rewrite (V2_completed_run _ _ _ _ st H1 Hdone).
      apply V2_dropped_silent. }
    destruct D1 as (Hs & D1). rewrite <- Hs in H2.
    assert (silently_dropped now2 chatId (store_of r1) r2) as D2.
    { subst r2. rewrite (V2_completed_run _ _ _ _ st H2 Hdone).
      apply V2_dropped_silent. }
    split; [split; assumption|]. split; [exact D2|].
    destruct D2 as (Hs2 & _). congruence.
Qed.

(** C3 at a concrete input: a completed session of chat 7 in the
    eight-question worker, the press ["Q1_NO"] delivered at instants 5 and
    6. *)
Lemma C3_witness :
  let st := V2.mkSession "tok1" V2.completed ∅ 0 None in
  let kv := mkKV {[ 7 := (1000000, Json st) ]} ∅ in
  let cq := V2.mkCallbackQuery "cb" (V2.mkUser 7 None "Ana") (Some "Q1_NO"%string) in
  let env := V2.mkEnv "t" "u" "l" None in
  let r1 := V2.handleCallbackQuery 5 cq env kv in
  let r2 := V2.handleCallbackQuery 6 cq env (store_of r1) in
  silently_dropped 5 7 kv r1 /\
  silently_dropped 6 7 (store_of r1) r2 /\
  sessions (store_of r2) = sessions kv.
Proof.
  intros st kv cq env.
  apply (proj2 C3_completed_session_ignores_presses 5 6 cq env kv st);
    reflexivity.
Defined.

(** Once [reportResult] has deleted the session, no completed session is
    stored: a further press finds none and is answered by the
    session-expired notice, without a second delivery. *)
Lemma V2_press_after_deletion :
  let st := V2.mkSession "tok1" V2.q1_team_role ∅ 0 None in
  let kv := mkKV {[ 7 := (1000000, Json st) ]} ∅ in
  let cq := V2.mkCallbackQuery "cb" (V2.mkUser 7 None "Ana") (Some "Q1_NO"%string) in
  let env := V2.mkEnv "t" "u" "l" None in
  let r1 := V2.handleCallbackQuery 5 cq env kv in
  let r2 := V2.handleCallbackQuery 6 cq env (store_of r1) in
  length (deliveries (effects_of r1)) = 1%nat /\
  kv_get 6 (sessions (store_of r1)) 7 = None /\
  deliveries (effects_of r2) = [] /\
  messages (effects_of r2) = [SendMessage 7 V2.MsgSessionExpired].
Proof. cbv zeta. repeat split; vm_compute; reflexivity. Qed.

(** C5. A button press whose prefix (the text before the first separator)
    differs from the prefix of the stored session's current step is
    discarded in both workers: the stored sessions stay as they are, nothing
    is delivered and, the press being admitted by the limiter, no message is
    sent. *)
Theorem C5_stale_prefix_discarded :
  (forall now cq env kv st colonIdx,
     let chatId := V1.id (V1.from cq) in
     let data := default ""%string (V1.data cq) in
     kv_get now (sessions kv) chatId = Some (Json st) ->
     Js.indexOf ":" data = Some colonIdx ->
     Js.take colonIdx data <> V1.STEP_PREFIX (V1.step st) ->
     silently_dropped now chatId kv (V1.handleCallbackQuery now cq env kv)) /\
  (forall now cq env kv st underscoreIdx,
     let chatId := V2.id (V2.from cq) in
     let data := default ""%string (V2.data cq) in
     kv_get now (sessions kv) chatId = Some (Json st) ->
     Js.indexOf "_" data = Some underscoreIdx ->
     Js.take underscoreIdx data <> V2.STEP_PREFIX (V2.step st) ->
     silently_dropped now chatId kv (V2.handleCallbackQuery now cq env kv)).
Proof.
  split.
  - intros now cq env kv st i chatId data Hst Hidx Hpre.
    rewrite (V1_stale_run _ _ _ _ st i Hst Hidx Hpre). apply V1_dropped_silent.
  - intros now cq env kv st i chatId data Hst Hidx Hpre.
    rewrite (V2_stale_run _ _ _ _ st i Hst Hidx Hpre). apply V2_dropped_silent.
Qed.

(** C5 at a concrete input: the five-question worker, a session at the
    second question and a press of the first question's button. *)
Lemma C5_witness :
  let st := V1.mkSession "tok1" V1.q2_weekly_hours {[ "team_role"%string := "yes"%string ]} 0 None in
  let kv := mkKV {[ 7 := (1000000, Json st) ]} ∅ in
  let cq := V1.mkCallbackQuery "cb" (V1.mkUser 7 None "Ana") (Some "q1:no"%string) in
  let env := V1.mkEnv "t" "u" "l" None in
  silently_dropped 5 7 kv (V1.handleCallbackQuery 5 cq env kv).
Proof.
  intros st kv cq env.
  apply (proj1 C5_stale_prefix_discarded 5 cq env kv st 2%nat);
    [reflexivity | reflexivity | vm_compute; discriminate].
Defined.

(** C1, as the claim states it, fails in the five-question worker, which
    has no table of codes: the text after the separator is the answer.  A
    press ["q1:maybe"], whose prefix matches the current step and which no
    button of the catalog carries, is recorded and moves the session to the
    second question, which is sent to the user. *)
Lemma C1_counterexample :
  let st := V1.mkSession "tok1" V1.q1_team_role ∅ 0 None in
  let kv := mkKV {[ 7 := (1000000, Json st) ]} ∅ in
  let cq := V1.mkCallbackQuery "cb" (V1.mkUser 7 None "Ana") (Some "q1:maybe"%string) in
  let env := V1.mkEnv "t" "u" "l" None in
  let r := V1.handleCallbackQuery 5 cq env kv in
  Js.indexOf ":" "q1:maybe" = Some 2%nat /\
  Js.take 2 "q1:maybe" = V1.STEP_PREFIX (V1.step st) /\
  ~ In "q1:maybe"%string (concat (concat (List.map V1.buttons V1.QUESTIONS))) /\
  admits 5 7 kv = true /\
  kv_get 5 (sessions (store_of r)) 7 =
    Some (Json (V1.mkSession "tok1" V1.q2_weekly_hours
                  {[ "team_role"%string := "maybe"%string ]} 0 None)) /\
  messages (effects_of r) =
    [SendMessage 7 (V1.MsgQuestion 1
       [["q2:full_time"]; ["q2:part_time"]; ["q2:less_than_15"]]%string)] /\
  ~ silently_dropped 5 7 kv r.
Proof.
  cbv zeta. repeat split; try (vm_compute; reflexivity).
  - vm_compute. intros H. repeat (destruct H as [H|H]; [discriminate|]). exact H.
  - intros (_ & _ & _ & H). specialize (H eq_refl). vm_compute in H. discriminate.
Qed.

(** In the eight-question worker a suffix that names a member inherited
    from [Object.prototype] is not [undefined]: the press ["Q1_constructor"]
    gets past the table and moves the session to the second question. *)
Lemma V2_inherited_suffix_is_accepted :
  let st := V2.mkSession "tok1" V2.q1_team_role ∅ 0 None in
  let kv := mkKV {[ 7 := (1000000, Json st) ]} ∅ in
  let cq := V2.mkCallbackQuery "cb" (V2.mkUser 7 None "Ana")
              (Some "Q1_constructor"%string) in
  let r := V2.handleCallbackQuery 5 cq (V2.mkEnv "t" "u" "l" None) kv in
  kv_get 5 (sessions (store_of r)) 7 =
    Some (Json (V2.mkSession "tok1" V2.q2_weekly_hours ∅ 0 None)) /\
  messages (effects_of r) =
    [SendMessage 7 (V2.MsgQuestion 1
       (Some [["Q2_FT"]; ["Q2_PT"]; ["Q2_LOW"]]%string))].
Proof. cbv zeta. split; vm_compute; reflexivity. Qed.

(** C1, amended: in the eight-question worker, a press that contains the
    separator, whose prefix matches the stored session's current step and
    whose suffix names no property of that step's entry of
    [CALLBACK_VALUE_MAP] (or whose step has no entry) is dropped: the stored
    sessions stay as they are, nothing is delivered and, the press being
    admitted by the limiter, no message is sent. *)
Theorem C1_unmapped_code_dropped :
  forall now cq env kv st underscoreIdx,
    let chatId := V2.id (V2.from cq) in
    let data := default ""%string (V2.data cq) in
    kv_get now (sessions kv) chatId = Some (Json st) ->
    Js.indexOf "_" data = Some underscoreIdx ->
    Js.take underscoreIdx data = V2.STEP_PREFIX (V2.step st) ->
    (forall prefixMap,
       Js.own_prop V2.CALLBACK_VALUE_MAP (V2.STEP_PREFIX (V2.step st)) = Some prefixMap ->
       Js.get prefixMap (Js.drop (S underscoreIdx) data) = Js.Undefined) ->
    silently_dropped now chatId kv (V2.handleCallbackQuery now cq env kv).
Proof.
  intros now cq env kv st i chatId data Hst Hidx Hpre Hun.
  destruct (V2_unmapped_run _ _ env _ st i Hst Hidx Hpre Hun) as [errs ->].
  apply V2_dropped_silent.
Qed.

(** C1 (amended) at a concrete input: a session at the first question and
    the press ["Q1_MAYBE"]. *)
Lemma C1_witness :
  let st := V2.mkSession "tok1" V2.q1_team_role ∅ 0 None in
  let kv := mkKV {[ 7 := (1000000, Json st) ]} ∅ in
  let cq := V2.mkCallbackQuery "cb" (V2.mkUser 7 None "Ana") (Some "Q1_MAYBE"%string) in
  let env := V2.mkEnv "t" "u" "l" None in
  silently_dropped 5 7 kv (V2.handleCallbackQuery 5 cq env kv).
Proof.
  intros st kv cq env.
  apply (C1_unmapped_code_dropped 5 cq env kv st 2%nat);
    [reflexivity | reflexivity | reflexivity |].
  intros prefixMap H. vm_compute in H. injection H as <-. reflexivity.
Defined.

(** ** Finishing a session *)

Lemma kv_get_put_session {Sess} now c (s : Sess) (m : gmap Z (Z * stored Sess)) :
  kv_get now (<[c := (now + SESSION_TTL_SECONDS * 1000, Json s)]> m) c = Some (Json s).
Proof.
  unfold kv_get. rewrite lookup_insert_eq.
  destruct (Z.ltb_spec now (now + SESSION_TTL_SECONDS * 1000)) as [|H];
    [reflexivity|]. unfold SESSION_TTL_SECONDS in H. lia.
Qed.

Lemma kv_get_delete {A} now c (m : gmap Z (Z * A)) : kv_get now (delete c m) c = None.
Proof. unfold kv_get. now rewrite lookup_delete_eq. Qed.

Lemma V1_reportResult_run now result reason state chatId from env kv :
  V1.reportResult now result reason state chatId from env kv =
  (tt,
   mkKV (delete chatId
           (<[chatId := (now + SESSION_TTL_SECONDS * 1000,
                         Json (V1.set_step state V1.completed))]> (sessions kv)))
        (windows kv),
   [ PostWebhook (V1.mkPayload (V1.applicant_token state) chatId
                    (V1.username from) result reason (V1.answers state) now);
     SendMessage chatId
       (match result with
        | V1.pass => V1.MsgPassed (V1.MARIA_TELEGRAM_LINK env)
        | V1.fail => V1.MsgFailed reason
        end);
     PutSession chatId (V1.set_step state V1.completed);
     DeleteSession chatId ]).
Proof.
  unfold V1.reportResult, saveSession, deleteSession, kv_write. run.
  destruct result; reflexivity.
Qed.

Lemma V2_reportResult_run now result reason state chatId from env kv :
  V2.reportResult now result reason state chatId from env kv =
  (tt,
   mkKV (delete chatId
           (<[chatId := (now + SESSION_TTL_SECONDS * 1000,
                         Json (V2.json_session (V2.set_step state V2.completed)))]>
              (sessions kv)))
        (windows kv),
   [ PostWebhook (V2.mkPayload (V2.applicant_token state) chatId
                    (V2.username from) result reason
                    (V2.json_answers (V2.answers state)) now);
     SendMessage chatId
       (match result with
        | V2.pass => V2.MsgPassed (V2.MARIA_WHATSAPP_LINK env)
        | V2.fail => V2.MsgFailed reason
        end);
     PutSession chatId (V2.json_session (V2.set_step state V2.completed));
     DeleteSession chatId ]).
Proof.
  unfold V2.reportResult, V2.saveSession, saveSession, deleteSession, kv_write. run.
  destruct result; reflexivity.
Qed.

(** C8. In both workers [reportResult] ends with exactly two session
    writes, in this order: it stores the session with its step set to
    [completed], then deletes it.  The log replays to the final namespace;
    stopped between the two writes, the namespace holds the session in the
    [completed] step; after both, the session is gone. *)
Theorem C8_completed_persisted_before_delete :
  (forall now result reason state chatId from env kv,
     let r := V1.reportResult now result reason state chatId from env kv in
     exists before completedState,
       effects_of r =
         before ++ [PutSession chatId completedState; DeleteSession chatId] /\
       List.filter is_session_write before = [] /\
       V1.step completedState = V1.completed /\
       store_of r = replay now kv (effects_of r) /\
       kv_get now (sessions (replay now kv
                     (before ++ [PutSession chatId completedState]))) chatId
         = Some (Json completedState) /\
       kv_get now (sessions (store_of r)) chatId = None) /\
  (forall now result reason state chatId from env kv,
     let r := V2.reportResult now result reason state chatId from env kv in
     exists before completedState,
       effects_of r =
         before ++ [PutSession chatId completedState; DeleteSession chatId] /\
       List.filter is_session_write before = [] /\
       V2.step completedState = V2.completed /\
       store_of r = replay now kv (effects_of r) /\
       kv_get now (sessions (replay now kv
                     (before ++ [PutSession chatId completedState]))) chatId
         = Some (Json completedState) /\
       kv_get now (sessions (store_of r)) chatId = None).
Proof.
  split; intros now result reason state chatId from env kv r; subst r.
  - rewrite V1_reportResult_run.
    eexists [_; _], _. split; [reflexivity|].
    repeat split; try reflexivity.
    + cbn. apply kv_get_put_session.
    + cbn. apply kv_get_delete.
  - rewrite V2_reportResult_run.
    eexists [_; _], _. split; [reflexivity|].
    repeat split; try reflexivity.
    + cbn. apply kv_get_put_session.
    + cbn. apply kv_get_delete.
Qed.

(** ** The free-text age step *)

Lemma admits_room {Sess} now c (kv : KV Sess) :
  admits now c kv = true ->
  (recent_count now (stored_window now kv c) < RATE_LIMIT_MAX_ACTIONS)%nat.
Proof.
  unfold admits. intros H.
  destruct (Nat.le_gt_cases RATE_LIMIT_MAX_ACTIONS
              (recent_count now (stored_window now kv c))) as [Hfull|Hroom];
    [|exact Hroom].
  rewrite (checkRateLimit_rejects _ _ _ Hfull) in H. discriminate.
Qed.

Lemma V2_not_command trimmed :
  V2_is_command trimmed = false ->
  Js.startsWith trimmed "/start" = false /\
  Js.startsWith trimmed "/restart" = false /\
  Js.startsWith trimmed "/help" = false.
Proof.
  unfold V2_is_command. intros H.
  apply orb_false_iff in H as [H H3]. apply orb_false_iff in H as [H1 H2]. auto.
Qed.

(** A text that is no command, sent while the stored session is at the age
    step: the handler gets as far as parsing the text. *)
Lemma V2_age_step_run now chatId from text env kv st :
  let trimmed := Js.trim (default ""%string text) in
  V2_is_command trimmed = false ->
  kv_get now (sessions kv) chatId = Some (Json st) ->
  V2.step st = V2.q7_age ->
  Js.parseInt trimmed = None \/
  (exists parsed, Js.parseInt trimmed = Some parsed /\ (parsed < 10 \/ 80 < parsed)) ->
  V2.handleMessage now chatId from text env kv =
  let r := checkRateLimit now chatId kv in
  (tt, store_of r,
   effects_of r ++
   [SendMessage chatId (if result_of r then V2.MsgWriteYourAge else V2.MsgTooFast)]).
Proof.
  intros trimmed Hcmd Hst Hstep Hbad.
  apply V2_not_command in Hcmd as (H1 & H2 & H3).
  unfold V2.handleMessage. run.
  limiter_cases now chatId kv; [reflexivity|].
  fold trimmed. rewrite H1, H2, H3.
  rewrite (loadSession_stored _ _ _ st) by exact Hst. run.
  destruct (decide (V2.step st = V2.completed)) as [E|_]; [congruence|].
  destruct (decide (V2.step st = V2.q7_age)) as [_|E]; [|congruence].
  destruct Hbad as [->|(parsed & -> & Hout)]; [reflexivity|].
  destruct (Z.ltb_spec parsed 10); destruct (Z.ltb_spec 80 parsed);
    try reflexivity; lia.
Qed.

(** C7. In the eight-question worker, a text that is no command, sent while
    the stored session is at the age step, and that [parseInt] rejects or
    reads as a number below 10 or above 80, leaves the stored sessions as
    they are (so the step is not advanced and no age is recorded), delivers
    nothing and, the text being admitted by the limiter, is answered by the
    re-prompt and nothing else. *)
Theorem C7_age_out_of_bounds_reprompts :
  forall now chatId from text env kv st,
    let trimmed := Js.trim (default ""%string text) in
    V2_is_command trimmed = false ->
    kv_get now (sessions kv) chatId = Some (Json st) ->
    V2.step st = V2.q7_age ->
    Js.parseInt trimmed = None \/
    (exists parsed, Js.parseInt trimmed = Some parsed /\ (parsed < 10 \/ 80 < parsed)) ->
    let r := V2.handleMessage now chatId from text env kv in
    sessions (store_of r) = sessions kv /\
    kv_get now (sessions (store_of r)) chatId = Some (Json st) /\
    deliveries (effects_of r) = [] /\
    List.filter is_session_write (effects_of r) = [] /\
    (admits now chatId kv = true ->
     messages (effects_of r) = [SendMessage chatId V2.MsgWriteYourAge]).
Proof.
  intros now chatId from text env kv st trimmed Hcmd Hst Hstep Hbad r. subst r.
  rewrite (V2_age_step_run _ _ _ _ _ _ st Hcmd Hst Hstep Hbad). cbv zeta.
  rewrite admits_result.
  pose proof (checkRateLimit_frame (Msg:=V2.Msg) (Payload:=V2.ResultPayload)
                now chatId kv) as (Hs & Hm & Hd & Hw).
  unfold messages, deliveries, store_of, effects_of in *. cbn [fst snd].
  rewrite !List.filter_app, Hm, Hd, Hw, Hs.
  repeat split; try reflexivity; try assumption.
  intros ->. reflexivity.
Qed.

(** C7 at the scenario of the specification: the text ["200"]. *)
Lemma C7_witness :
  let st := V2.mkSession "tok1" V2.q7_age {[ "team_role"%string := V2.VStr "yes" ]} 0 None in
  let kv := mkKV {[ 7 := (1000000, Json st) ]} ∅ in
  let r := V2.handleMessage 5 7 (V2.mkUser 7 None "Ana") (Some "200"%string)
             (V2.mkEnv "t" "u" "l" None) kv in
  sessions (store_of r) = sessions kv /\
  kv_get 5 (sessions (store_of r)) 7 = Some (Json st) /\
  deliveries (effects_of r) = [] /\
  List.filter is_session_write (effects_of r) = [] /\
  (admits 5 7 kv = true ->
   messages (effects_of r) = [SendMessage 7 V2.MsgWriteYourAge]).
Proof.
  intros st kv.
  apply (C7_age_out_of_bounds_reprompts 5 7 (V2.mkUser 7 None "Ana")
           (Some "200"%string) (V2.mkEnv "t" "u" "l" None) kv st);
    [reflexivity | reflexivity | reflexivity |].
  right. exists 200. split; [reflexivity | lia].
Defined.

(** An in-bounds age: the handler records it and compares it with 35. *)
Lemma V2_age_in_bounds_run now chatId from text env kv st parsed :
  let trimmed := Js.trim (default ""%string text) in
  V2_is_command trimmed = false ->
  kv_get now (sessions kv) chatId = Some (Json st) ->
  V2.step st = V2.q7_age ->
  Js.parseInt trimmed = Some parsed ->
  10 <= parsed <= 80 ->
  admits now chatId kv = true ->
  let r0 := checkRateLimit now chatId kv in
  let answered := V2.set_answer st "age" (V2.VNum parsed) in
  V2.handleMessage now chatId from text env kv =
  if 35 <=? parsed then
    let r := V2.reportResult now V2.fail V2.TooOld answered chatId from env
               (store_of r0) in
    (tt, store_of r, effects_of r0 ++ effects_of r)
  else
    let next := V2.json_session (V2.set_step answered V2.q8_student_types) in
    (tt,
     mkKV (<[chatId := (now + SESSION_TTL_SECONDS * 1000, Json next)]>
             (sessions (store_of r0)))
          (windows (store_of r0)),
     effects_of r0 ++
     [PutSession chatId next;
      SendMessage chatId
        (V2.MsgQuestion 7
           (Some [["Q8_KIDS"]; ["Q8_TEENS"]; ["Q8_ADULTS"]; ["Q8_ALL"]]%string))]).
Proof.
  intros trimmed Hcmd Hst Hstep Hparse Hin Hadm r0 answered. subst r0.
  apply V2_not_command in Hcmd as (H1 & H2 & H3).
  apply admits_room in Hadm.
  unfold V2.handleMessage. run.
  rewrite !(checkRateLimit_admits _ _ _ Hadm). run.
  fold trimmed. rewrite H1, H2, H3.
  rewrite (loadSession_stored _ _ _ st) by exact Hst. run.
  destruct (decide (V2.step st = V2.completed)) as [E|_]; [congruence|].
  destruct (decide (V2.step st = V2.q7_age)) as [_|E]; [|congruence].
  rewrite Hparse.
  destruct (Z.ltb_spec parsed 10); [lia|]. destruct (Z.ltb_spec 80 parsed); [lia|].
  cbn [orb]. fold answered.
  destruct (35 <=? parsed).
  - rewrite !V2_reportResult_run. reflexivity.
  - reflexivity.
Qed.

(** C4, as the claim states it, fails: the worker's configuration has no
    maximum-age entry, and with nothing optional configured the age step
    still fails an applicant of 40. *)
Lemma C4_counterexample :
  let st := V2.mkSession "tok1" V2.q7_age ∅ 0 None in
  let kv := mkKV {[ 7 := (1000000, Json st) ]} ∅ in
  let env := V2.mkEnv "t" "u" "l" None in
  let r := V2.handleMessage 5 7 (V2.mkUser 7 None "Ana") (Some "40"%string) env kv in
  V2.MIN_WEEKLY_HOURS env = None /\
  Js.parseInt (Js.trim "40") = Some 40 /\
  admits 5 7 kv = true /\
  deliveries (effects_of r) =
    [PostWebhook (V2.mkPayload "tok1" 7 None V2.fail V2.TooOld
                    {[ "age"%string := V2.VNum 40 ]} 5)] /\
  messages (effects_of r) = [SendMessage 7 (V2.MsgFailed V2.TooOld)] /\
  kv_get 5 (sessions (store_of r)) 7 = None.
Proof. cbv zeta. repeat split; vm_compute; reflexivity. Qed.

(** C4, amended: in the eight-question worker the age step compares an
    in-bounds age with the fixed threshold 35, whatever the configuration
    [env] holds.  An age of 35 or more is reported as a fail with the age
    reason and the session is removed; a lower age is recorded, nothing is
    delivered and the session moves to the last question. *)
Theorem C4_age_gate_is_fixed :
  forall now chatId from text env kv st parsed,
    let trimmed := Js.trim (default ""%string text) in
    V2_is_command trimmed = false ->
    kv_get now (sessions kv) chatId = Some (Json st) ->
    V2.step st = V2.q7_age ->
    Js.parseInt trimmed = Some parsed ->
    10 <= parsed <= 80 ->
    admits now chatId kv = true ->
    let r := V2.handleMessage now chatId from text env kv in
    let answered := V2.set_answer st "age" (V2.VNum parsed) in
    (35 <= parsed ->
       deliveries (effects_of r) =
         [PostWebhook (V2.mkPayload (V2.applicant_token st) chatId
                         (V2.username from) V2.fail V2.TooOld
                         (V2.json_answers (V2.answers answered)) now)] /\
       kv_get now (sessions (store_of r)) chatId = None) /\
    (parsed < 35 ->
       deliveries (effects_of r) = [] /\
       kv_get now (sessions (store_of r)) chatId =
         Some (Json (V2.json_session
                       (V2.set_step answered V2.q8_student_types)))).
Proof.
  intros now chatId from text env kv st parsed trimmed Hcmd Hst Hstep Hparse
         Hin Hadm r answered. subst r.
  rewrite (V2_age_in_bounds_run _ _ _ _ _ _ st parsed Hcmd Hst Hstep Hparse Hin Hadm).
  cbv zeta.
  pose proof (checkRateLimit_frame (Msg:=V2.Msg) (Payload:=V2.ResultPayload)
                now chatId kv) as (Hs & Hm & Hd & Hw).
  unfold deliveries in *.
  destruct (Z.leb_spec 35 parsed); (split; [intros ?|intros ?]); try lia.
  - rewrite V2_reportResult_run.
    unfold store_of at 1, effects_of at 1 3. cbn [fst snd].
    rewrite List.filter_app, Hd. split; [reflexivity|].
    cbn [sessions]. apply kv_get_delete.
  - unfold store_of at 1, effects_of at 1. cbn [fst snd].
    rewrite List.filter_app, Hd. split; [reflexivity|].
    cbn. apply kv_get_put_session.
Qed.

(** C4 (amended) at a concrete input: ages 35 and 34 under a configuration
    that sets nothing optional. *)
Lemma C4_witness :
  let st := V2.mkSession "tok1" V2.q7_age ∅ 0 None in
  let kv := mkKV {[ 7 := (1000000, Json st) ]} ∅ in
  let env := V2.mkEnv "t" "u" "l" None in
  let from := V2.mkUser 7 None "Ana" in
  let r := V2.handleMessage 5 7 from (Some "34"%string) env kv in
  let answered := V2.set_answer st "age" (V2.VNum 34) in
  (35 <= 34 ->
     deliveries (effects_of r) =
       [PostWebhook (V2.mkPayload (V2.applicant_token st) 7
                       (V2.username from) V2.fail V2.TooOld
                       (V2.json_answers (V2.answers answered)) 5)] /\
     kv_get 5 (sessions (store_of r)) 7 = None) /\
  (34 < 35 ->
     deliveries (effects_of r) = [] /\
     kv_get 5 (sessions (store_of r)) 7 =
       Some (Json (V2.json_session
                     (V2.set_step answered V2.q8_student_types)))).
Proof.
  intros st kv env from.
  apply (C4_age_gate_is_fixed 5 7 from (Some "34"%string) env kv st 34);
    [reflexivity | reflexivity | reflexivity | reflexivity | lia | reflexivity].
Defined.

(** ** The fail predicate of the availability step *)

(** C6. In both workers the availability step fails exactly when the
    mapped hours of the answer are a number below the minimum.  So an answer
    whose mapped hours equal the minimum passes, and one whose mapped hours
    are one below the minimum fails. *)
Theorem C6_availability_boundary :
  (forall answer minWeeklyHours,
     is_Some (V1.checkFailCondition V1.q2_weekly_hours answer minWeeklyHours)
     <-> exists hours, V1.hours_of answer = Some hours /\ hours < minWeeklyHours) /\
  (forall answer minWeeklyHours hours,
     V1.hours_of answer = Some hours ->
     (hours = minWeeklyHours ->
        V1.checkFailCondition V1.q2_weekly_hours answer minWeeklyHours = None) /\
     (hours = minWeeklyHours - 1 ->
        is_Some (V1.checkFailCondition V1.q2_weekly_hours answer minWeeklyHours))) /\
  (forall answer minWeeklyHours,
     is_Some (V2.checkFailCondition V2.q2_weekly_hours answer minWeeklyHours)
     <-> exists hours, V2.hours_of answer = Some hours /\ hours < minWeeklyHours) /\
  (forall answer minWeeklyHours hours,
     V2.hours_of answer = Some hours ->
     (hours = minWeeklyHours ->
        V2.checkFailCondition V2.q2_weekly_hours answer minWeeklyHours = None) /\
     (hours = minWeeklyHours - 1 ->
        is_Some (V2.checkFailCondition V2.q2_weekly_hours answer minWeeklyHours))).
Proof.
  repeat split.
  - cbn [V1.checkFailCondition]. intros [reason H].
    destruct (V1.hours_of answer) as [hours|]; [|discriminate].
    exists hours. split; [reflexivity|].
    destruct (Z.ltb_spec hours minWeeklyHours); [assumption | discriminate].
  - cbn [V1.checkFailCondition]. intros (hours & -> & Hlt).
    destruct (Z.ltb_spec hours minWeeklyHours); [eauto | lia].
  - cbn [V1.checkFailCondition]. intros ->. rewrite H.
    destruct (Z.ltb_spec minWeeklyHours minWeeklyHours); [lia | reflexivity].
  - cbn [V1.checkFailCondition]. intros ->. rewrite H.
    destruct (Z.ltb_spec (minWeeklyHours - 1) minWeeklyHours); [eauto | lia].
  - cbn [V2.checkFailCondition]. intros [reason H].
    destruct (V2.hours_of answer) as [hours|]; [|discriminate].
    exists hours. split; [reflexivity|].
    destruct (Z.ltb_spec hours minWeeklyHours); [assumption | discriminate].
  - cbn [V2.checkFailCondition]. intros (hours & -> & Hlt).
    destruct (Z.ltb_spec hours minWeeklyHours); [eauto | lia].
  - cbn [V2.checkFailCondition]. intros ->. rewrite H.
    destruct (Z.ltb_spec minWeeklyHours minWeeklyHours); [lia | reflexivity].
  - cbn [V2.checkFailCondition]. intros ->. rewrite H.
    destruct (Z.ltb_spec (minWeeklyHours - 1) minWeeklyHours); [eauto | lia].
Qed.

(** C6 at concrete inputs: ["part_time"] maps to 20 hours, so a minimum of
    20 passes it and a minimum of 21 fails it. *)
Lemma C6_witness :
  V1.checkFailCondition V1.q2_weekly_hours "part_time" 20 = None /\
  is_Some (V2.checkFailCondition V2.q2_weekly_hours (V2.VStr "part_time") 21).
Proof.
  split.
  - apply (proj1 (proj2 C6_availability_boundary) "part_time"%string 20 20);
      reflexivity.
  - apply (proj2 (proj2 (proj2 C6_availability_boundary))
             (V2.VStr "part_time") 21 20); reflexivity.
Defined.

(** An answer that names no property of [HOURS_MAP], own or inherited,
    counts as zero hours and fails under a positive minimum. *)
Lemma V1_unknown_answer_fails answer minWeeklyHours :
  Js.get V1.HOURS_MAP answer = Js.Undefined ->
  0 < minWeeklyHours ->
  V1.checkFailCondition V1.q2_weekly_hours answer minWeeklyHours =
    Some (V1.BelowMinimumHours 0 minWeeklyHours).
Proof.
  intros Hget Hpos. cbn [V1.checkFailCondition]. unfold V1.hours_of.
  rewrite Hget. destruct (Z.ltb_spec 0 minWeeklyHours); [reflexivity | lia].
Qed.

(** C10: the code at the failing input.  ["constructor"] is not a key of
    [HOURS_MAP], yet the lookup finds the member that every object literal
    inherits, [?? 0] keeps it, and the comparison with the minimum is false:
    the fail predicate returns [null] under the default minimum of 15, in
    both workers.  In the five-question worker the press ["q2:constructor"]
    reaches the predicate and the session moves on to the third question. *)
Lemma C10_inherited_name_is_not_failed :
  Js.own_prop V1.HOURS_MAP "constructor" = None /\
  Js.own_prop V2.HOURS_MAP "constructor" = None /\
  V1.checkFailCondition V1.q2_weekly_hours "constructor" 15 = None /\
  V2.checkFailCondition V2.q2_weekly_hours (V2.VStr "constructor") 15 = None /\
  (let st := V1.mkSession "tok1" V1.q2_weekly_hours
               {[ "team_role"%string := "yes"%string ]} 0 None in
   let kv := mkKV {[ 7 := (1000000, Json st) ]} ∅ in
   let cq := V1.mkCallbackQuery "cb" (V1.mkUser 7 None "Ana")
               (Some "q2:constructor"%string) in
   let env := V1.mkEnv "t" "u" "l" None in
   let r := V1.handleCallbackQuery 5 cq env kv in
   V1.minWeeklyHours env = 15 /\
   deliveries (effects_of r) = [] /\
   V1.step <$> (kv_get 5 (sessions (store_of r)) 7 ≫= (fun v =>
                  match v with Json s => Some s | Corrupt => None end))
     = Some V1.q3_start_date).
Proof. cbv zeta. repeat split; vm_compute; reflexivity. Qed.

(** ** The minimum weekly hours *)

Lemma or_default_nonzero x d : d <> 0 -> Js.or_default x d <> 0.
Proof.
  intros Hd. unfold Js.or_default. destruct x as [n|]; [|exact Hd].
  destruct (Z.eqb_spec n 0); assumption.
Qed.

(** C9. In both workers, when [MIN_WEEKLY_HOURS] is absent, or [parseInt]
    rejects it, or it parses to 0, the minimum used by the transition is 15;
    and under no configuration is the minimum 0. *)
Theorem C9_minimum_defaults_to_15 :
  (forall env,
     (V1.MIN_WEEKLY_HOURS env = None \/
      exists s, V1.MIN_WEEKLY_HOURS env = Some s /\
                (Js.parseInt s = None \/ Js.parseInt s = Some 0)) ->
     V1.minWeeklyHours env = 15) /\
  (forall env, V1.minWeeklyHours env <> 0) /\
  (forall env,
     (V2.MIN_WEEKLY_HOURS env = None \/
      exists s, V2.MIN_WEEKLY_HOURS env = Some s /\
                (Js.parseInt s = None \/ Js.parseInt s = Some 0)) ->
     V2.minWeeklyHours env = 15) /\
  (forall env, V2.minWeeklyHours env <> 0).
Proof.
  repeat split.
  - intros env [H|(s & H & [Hp|Hp])]; unfold V1.minWeeklyHours; rewrite H;
      [reflexivity | |]; cbn [from_option id]; rewrite Hp; reflexivity.
  - intros env. apply or_default_nonzero. discriminate.
  - intros env [H|(s & H & [Hp|Hp])]; unfold V2.minWeeklyHours; rewrite H;
      [reflexivity | |]; cbn [from_option id]; rewrite Hp; reflexivity.
  - intros env. apply or_default_nonzero. discriminate.
Qed.

(** C9 at concrete inputs: [MIN_WEEKLY_HOURS = "0"]. *)
Lemma C9_witness :
  V1.minWeeklyHours (V1.mkEnv "t" "u" "l" (Some "0"%string)) = 15.
Proof.
  apply (proj1 C9_minimum_defaults_to_15). right. exists "0"%string.
  split; [reflexivity|]. right. reflexivity.
Defined.

(** ** The rate limiter, as the workers use it *)

(** C2. [checkRateLimit] is the same function in both workers.  When at
    least 5 stored timestamps lie within 10 seconds of the call, it answers
    "not allowed", leaves the namespace as it is and writes nothing.
    Otherwise it answers "allowed" and stores the recent timestamps followed
    by the instant of the call.  Consequently, over any run of calls whose
    clock does not go backwards and from any initial namespace, every chat
    has at most 5 admitted calls in any trailing 10-second window. *)
Theorem C2_sliding_window_admission :
  forall (Sess Msg Payload : Type),
    (RATE_LIMIT_MAX_ACTIONS = 5%nat /\
     forall now t, in_window now t = (now - t <? 10000)) /\
    (forall now chatId (kv : KV Sess),
       let recent := List.filter (in_window now) (stored_window now kv chatId) in
       let r := checkRateLimit (Msg:=Msg) (Payload:=Payload) now chatId kv in
       ((5 <= length recent)%nat -> r = (false, kv, [])) /\
       ((length recent < 5)%nat ->
          result_of r = true /\
          effects_of r = [PutWindow chatId (recent ++ [now])] /\
          store_of r = replay now kv (effects_of r) /\
          sessions (store_of r) = sessions kv /\
          stored_window now (store_of r) chatId = recent ++ [now])) /\
    (forall calls (kv : KV Sess) c T,
       clock_monotone calls = true ->
       (length (List.filter (in_trailing_window c T)
                  (admitted (Msg:=Msg) (Payload:=Payload) calls kv)) <= 5)%nat).
Proof.
  intros Sess Msg Payload. split; [split; reflexivity|]. split.
  - intros now chatId kv recent r. split; intros H; subst r recent.
    + now apply checkRateLimit_rejects.
    + rewrite (checkRateLimit_admits (Msg:=Msg) (Payload:=Payload) _ _ _ H).
      repeat split. cbn [store_of fst snd]. rewrite stored_window_insert_eq.
      destruct (Z.ltb_spec now (now + RATE_LIMIT_TTL_SECONDS * 1000)) as [|Hx];
        [reflexivity|]. unfold RATE_LIMIT_TTL_SECONDS in Hx. lia.
  - intros calls kv c T Hclock. now apply admitted_trailing_bound.
Qed.

(** C2 at a concrete run: nine calls of chat 1, six of them within the
    first six milliseconds. *)
Lemma C2_witness :
  (length (List.filter (in_trailing_window 1 10001)
             (admitted (Sess:=unit) (Msg:=unit) (Payload:=unit)
                [(1, 0); (1, 1); (1, 2); (1, 3); (1, 4); (1, 5);
                 (1, 9999); (1, 10000); (1, 10001)]%Z
                (mkKV ∅ ∅))) <= 5)%nat.
Proof.
  apply (proj2 (proj2 (C2_sliding_window_admission unit unit unit))).
  reflexivity.
Defined.

(** * Further properties *)

(** ** Logs and the namespace *)

Section Replay.
Context {Sess Msg Payload : Type}.
Implicit Types (kv : KV Sess) (log : list (effect Sess Msg Payload)).

Lemma replay_app now kv log1 log2 :
  replay now kv (log1 ++ log2) = replay now (replay now kv log1) log2.
Proof. unfold replay. apply fold_left_app. Qed.

Lemma checkRateLimit_replay now c kv :
  let r := checkRateLimit (Msg:=Msg) (Payload:=Payload) now c kv in
  store_of r = replay now kv (effects_of r).
Proof.
  destruct (Nat.le_gt_cases RATE_LIMIT_MAX_ACTIONS
              (recent_count now (stored_window now kv c))) as [H|H]; cbv zeta.
  - now rewrite (checkRateLimit_rejects _ _ _ H).
  - now rewrite (checkRateLimit_admits _ _ _ H).
Qed.

Lemma admits_false now c kv :
  (RATE_LIMIT_MAX_ACTIONS <= recent_count now (stored_window now kv c))%nat ->
  admits now c kv = false.
Proof. intros H. unfold admits. now rewrite (checkRateLimit_rejects _ _ _ H). Qed.

Lemma admits_true now c kv :
  (recent_count now (stored_window now kv c) < RATE_LIMIT_MAX_ACTIONS)%nat ->
  admits now c kv = true.
Proof. intros H. unfold admits. now rewrite (checkRateLimit_admits _ _ _ H). Qed.

End Replay.

(** ** Every button press has one of seven outcomes *)

Lemma V1_handleCallbackQuery_outcome now cq env kv :
  exists log,
    V1_outcome now cq env kv log /\
    V1.handleCallbackQuery now cq env kv = (tt, replay now kv log, log).
Proof.
  unfold V1.handleCallbackQuery. run.
  pose proof (@admits_false _ now (V1.id (V1.from cq)) kv) as Hf.
  pose proof (@admits_true _ now (V1.id (V1.from cq)) kv) as Ht.
  destruct (Nat.le_gt_cases RATE_LIMIT_MAX_ACTIONS
              (recent_count now (stored_window now kv (V1.id (V1.from cq)))))
    as [Hfull|Hroom].
  { rewrite !(checkRateLimit_rejects _ _ _ Hfull). run.
    eexists. split; [apply V1_out_refused; auto | reflexivity]. }
  specialize (Ht Hroom). clear Hf.
  assert (V1_limiter_log now (V1_chat cq) kv =
          [PutWindow (V1_chat cq)
             (List.filter (in_window now)
                (stored_window now kv (V1_chat cq)) ++ [now])]) as Hlog.
  { unfold V1_limiter_log, V1_chat.
    now rewrite (checkRateLimit_admits _ _ _ Hroom). }
  rewrite !(checkRateLimit_admits _ _ _ Hroom). run.
  unfold loadSession. run. cbn [sessions].
  destruct (kv_get now (sessions kv) (V1.id (V1.from cq))) as [[|st]|] eqn:Hget.
  { eexists. split; [apply V1_out_corrupt; auto|]. rewrite Hlog. reflexivity. }
  2:{ eexists. split; [apply V1_out_no_session; auto|]. rewrite Hlog. reflexivity. }
  destruct (decide (V1.step st = V1.completed)) as [Hdone|Hactive].
  { eexists. split; [eapply (V1_out_ignored _ _ _ _ st []); eauto|].
    - left. auto.
    - rewrite Hlog. reflexivity. }
  destruct (Js.indexOf ":" (default ""%string (V1.data cq))) as [colonIdx|] eqn:Hidx.
  2:{ eexists. split; [eapply (V1_out_ignored _ _ _ _ st [_]); eauto|].
      - right. left. auto.
      - rewrite Hlog. reflexivity. }
  destruct (String.eqb_spec (Js.take colonIdx (default ""%string (V1.data cq)))
              (V1.STEP_PREFIX (V1.step st))) as [Hpre|Hpre]; run.
  2:{ eexists. split; [eapply (V1_out_ignored _ _ _ _ st []); eauto|].
      - right. right. split; [auto|]. split; [|reflexivity]. eauto.
      - rewrite Hlog. reflexivity. }
  assert (forall i question,
            array_indexOf V1.STEP_ORDER (V1.step st) = Some i ->
            V1.QUESTIONS !! i = Some question ->
            V1_accepted st (V1_press cq) i question
              (Js.drop (S colonIdx) (default ""%string (V1.data cq)))) as Hacc.
  { intros i question Hi Hq. split; [auto|]. split; [|auto].
    exists colonIdx. auto. }
  cbn [V1.step V1.set_answer].
  remember (V1.step st) as s eqn:Hstep. destruct s; try congruence.
  all: match goal with
       | |- context [array_indexOf V1.STEP_ORDER ?s] =>
           let v := eval vm_compute in (array_indexOf V1.STEP_ORDER s) in
           change (array_indexOf V1.STEP_ORDER s) with v in *
       end; cbv beta iota.
  all: match goal with
       | |- context [V1.QUESTIONS !! ?i] =>
           let v := eval vm_compute in (V1.QUESTIONS !! i) in
           change (V1.QUESTIONS !! i) with v in *
       end; cbv beta iota zeta.
  all: match goal with
       | H : forall i question, Some ?n = Some i -> _ |- _ =>
           specialize (H n _ eq_refl eq_refl)
       end.
  all: destruct (V1.checkFailCondition _ _ _) as [reason|] eqn:Hfail.
  all: try (eexists; split;
            [ eapply V1_out_failed; eauto; rewrite <- Hstep; exact Hfail
            | rewrite V1_reportResult_run, Hlog; reflexivity ]).
  all: match goal with
       | |- context [V1.STEP_ORDER !! ?i] =>
           let v := eval vm_compute in (V1.STEP_ORDER !! i) in
           change (V1.STEP_ORDER !! i) with v in *
       end; cbv beta iota zeta.
  all: try (eexists; split;
            [ eapply V1_out_passed; eauto; rewrite <- Hstep; exact Hfail
            | rewrite V1_reportResult_run, Hlog; reflexivity ]).
  all: eexists; split;
       [ eapply V1_out_advanced; eauto;
         first [rewrite <- Hstep; exact Hfail | reflexivity]
       | rewrite Hlog; reflexivity ].
Qed.

Lemma V2_handleCallbackQuery_outcome now cq env kv :
  exists log,
    V2_outcome now cq env kv log /\
    V2.handleCallbackQuery now cq env kv = (tt, replay now kv log, log).
Proof.
  unfold V2.handleCallbackQuery. run.
  pose proof (@admits_true _ now (V2.id (V2.from cq)) kv) as Ht.
  destruct (Nat.le_gt_cases RATE_LIMIT_MAX_ACTIONS
              (recent_count now (stored_window now kv (V2.id (V2.from cq)))))
    as [Hfull|Hroom].
  { rewrite !(checkRateLimit_rejects _ _ _ Hfull). run.
    eexists. split; [apply V2_out_refused; now apply admits_false | reflexivity]. }
  specialize (Ht Hroom).
  assert (V2_limiter_log now (V2_chat cq) kv =
          [PutWindow (V2_chat cq)
             (List.filter (in_window now)
                (stored_window now kv (V2_chat cq)) ++ [now])]) as Hlog.
  { unfold V2_limiter_log, V2_chat.
    now rewrite (checkRateLimit_admits _ _ _ Hroom). }
  rewrite !(checkRateLimit_admits _ _ _ Hroom). run.
  unfold loadSession. run. cbn [sessions].
  destruct (kv_get now (sessions kv) (V2.id (V2.from cq))) as [[|st]|] eqn:Hget.
  { eexists. split; [apply V2_out_corrupt; auto|]. rewrite Hlog. reflexivity. }
  2:{ eexists. split; [apply V2_out_no_session; auto|]. rewrite Hlog. reflexivity. }
  destruct (decide (V2.step st = V2.completed)) as [Hdone|Hactive].
  { eexists. split; [eapply (V2_out_ignored _ _ _ _ st []); eauto|].
    - left. auto.
    - rewrite Hlog. reflexivity. }
  destruct (Js.indexOf "_" (default ""%string (V2.data cq)))
    as [underscoreIdx|] eqn:Hidx.
  2:{ eexists. split; [eapply (V2_out_ignored _ _ _ _ st [_]); eauto|].
      - right. left. auto.
      - rewrite Hlog. reflexivity. }
  destruct (String.eqb_spec (Js.take underscoreIdx (default ""%string (V2.data cq)))
              (V2.STEP_PREFIX (V2.step st))) as [Hpre|Hpre]; run.
  2:{ eexists. split; [eapply (V2_out_ignored _ _ _ _ st []); eauto|].
      - right. right. split; [auto|]. exists underscoreIdx. split; [auto|].
        left. auto.
      - rewrite Hlog. reflexivity. }
  rewrite Hpre.
  destruct (Js.own_prop V2.CALLBACK_VALUE_MAP (V2.STEP_PREFIX (V2.step st)))
    as [prefixMap|] eqn:Hmap.
  2:{ eexists. split; [eapply (V2_out_ignored _ _ _ _ st [_]); eauto|].
      - right. right. split; [auto|]. exists underscoreIdx. split; [auto|].
        right. left. auto.
      - rewrite Hlog. reflexivity. }
  fold (V2_answer_of prefixMap
          (Js.drop (S underscoreIdx) (default ""%string (V2.data cq)))).
  destruct (V2_answer_of prefixMap
              (Js.drop (S underscoreIdx) (default ""%string (V2.data cq))))
    as [answerValue|] eqn:Hans.
  2:{ eexists. split; [eapply (V2_out_ignored _ _ _ _ st [_]); eauto|].
      - right. right. split; [auto|]. exists underscoreIdx. split; [auto|].
        right. right. split; [auto|]. split; [|reflexivity]. eauto.
      - rewrite Hlog. reflexivity. }
  assert (forall i question,
            array_indexOf V2.STEP_ORDER (V2.step st) = Some i ->
            V2.QUESTIONS !! i = Some question ->
            V2_accepted st (V2_press cq) i question answerValue) as Hacc.
  { intros i question Hi Hq. split; [auto|]. split; [|auto].
    exists underscoreIdx, prefixMap. auto. }
  clear Hmap Hans.
  cbn [V2.step V2.set_answer].
  remember (V2.step st) as s eqn:Hstep. destruct s; try congruence.
  all: match goal with
       | |- context [array_indexOf V2.STEP_ORDER ?s] =>
           let v := eval vm_compute in (array_indexOf V2.STEP_ORDER s) in
           change (array_indexOf V2.STEP_ORDER s) with v in *
       end; cbv beta iota.
  all: match goal with
       | |- context [V2.QUESTIONS !! ?i] =>
           let v := eval vm_compute in (V2.QUESTIONS !! i) in
           change (V2.QUESTIONS !! i) with v in *
       end; cbv beta iota zeta.
  all: match goal with
       | H : forall i question, Some ?n = Some i -> _ |- _ =>
           specialize (H n _ eq_refl eq_refl)
       end.
  all: destruct (V2.checkFailCondition _ _ _) as [reason|] eqn:Hfail.
  all: try (eexists; split;
            [ eapply V2_out_failed; eauto; rewrite <- Hstep; exact Hfail
            | rewrite V2_reportResult_run, Hlog; reflexivity ]).
  all: match goal with
       | |- context [V2.STEP_ORDER !! ?i] =>
           let v := eval vm_compute in (V2.STEP_ORDER !! i) in
           change (V2.STEP_ORDER !! i) with v in *
       end; cbv beta iota zeta.
  all: try (eexists; split;
            [ eapply V2_out_passed; eauto; rewrite <- Hstep; exact Hfail
            | rewrite V2_reportResult_run, Hlog; reflexivity ]).
  all: eexists; split;
       [ eapply V2_out_advanced; eauto;
         first [rewrite <- Hstep; exact Hfail | reflexivity]
       | rewrite Hlog; reflexivity ].
Qed.

(** ** Every text message has one of eleven outcomes *)

Lemma V2_handleStart_run now chatId from token kv :
  V2.handleStart now chatId from token kv =
  (tt, replay now kv (V2_start_log now chatId from token),
   V2_start_log now chatId from token).
Proof.
  unfold V2.handleStart, V2_start_log.
  destruct (String.eqb token "" || (String.length (Js.trim token) <? 4)%nat);
    reflexivity.
Qed.

Lemma V2_is_command_false trimmed :
  Js.startsWith trimmed "/start" = false ->
  Js.startsWith trimmed "/restart" = false ->
  Js.startsWith trimmed "/help" = false ->
  V2_is_command trimmed = false.
Proof. unfold V2_is_command. now intros -> -> ->. Qed.

Lemma V2_handleMessage_outcome now chatId from text env kv :
  exists log,
    V2_text_outcome now chatId from text env kv log /\
    V2.handleMessage now chatId from text env kv = (tt, replay now kv log, log).
Proof.
  unfold V2.handleMessage. run.
  pose proof (@admits_true _ now chatId kv) as Ht.
  destruct (Nat.le_gt_cases RATE_LIMIT_MAX_ACTIONS
              (recent_count now (stored_window now kv chatId))) as [Hfull|Hroom].
  { rewrite !(checkRateLimit_rejects _ _ _ Hfull). run.
    eexists. split; [apply V2_text_refused; now apply admits_false | reflexivity]. }
  specialize (Ht Hroom).
  assert (V2_limiter_log now chatId kv =
          [PutWindow chatId
             (List.filter (in_window now) (stored_window now kv chatId) ++ [now])])
    as Hlog.
  { unfold V2_limiter_log. now rewrite (checkRateLimit_admits _ _ _ Hroom). }
  rewrite !(checkRateLimit_admits _ _ _ Hroom). run.
  set (trimmed := Js.trim (default ""%string text)) in *.
  destruct (Js.startsWith trimmed "/start") eqn:Hstart.
  { fold (V2_start_token trimmed).
    destruct (String.eqb_spec (V2_start_token trimmed) "") as [Htok|Htok].
    - eexists. split; [apply V2_text_start_no_token; auto|].
      rewrite Hlog. reflexivity.
    - eexists. split; [apply V2_text_start; auto|].
      rewrite V2_handleStart_run, Hlog. reflexivity. }
  destruct (Js.startsWith trimmed "/restart") eqn:Hrestart.
  { unfold loadSession. run. cbn [sessions].
    destruct (kv_get now (sessions kv) chatId) as [[|st]|] eqn:Hget.
    - eexists. split; [eapply (V2_text_restart_none _ _ _ _ _ _ [_]); auto|].
      + right. left. eauto.
      + rewrite Hlog. reflexivity.
    - destruct (String.eqb (V2.applicant_token st) "") eqn:Hempty.
      + eexists. split; [eapply (V2_text_restart_none _ _ _ _ _ _ []); auto|].
        * right. right. exists st. unfold V2_has_token. rewrite Hempty. auto.
        * rewrite Hlog. reflexivity.
      + eexists. split; [eapply (V2_text_restart _ _ _ _ _ _ st); auto|].
        * unfold V2_has_token. now rewrite Hempty.
        * rewrite V2_handleStart_run, Hlog. reflexivity.
    - eexists. split; [eapply (V2_text_restart_none _ _ _ _ _ _ []); auto|].
      + left. auto.
      + rewrite Hlog. reflexivity. }
  destruct (Js.startsWith trimmed "/help") eqn:Hhelp.
  { eexists. split; [apply V2_text_help; auto|]. rewrite Hlog. reflexivity. }
  pose proof (V2_is_command_false _ Hstart Hrestart Hhelp) as Hcmd.
  unfold loadSession. run. cbn [sessions].
  destruct (kv_get now (sessions kv) chatId) as [[|st]|] eqn:Hget.
  { eexists. split; [eapply (V2_text_idle _ _ _ _ _ _ [_]); auto|].
    - right. left. eauto.
    - rewrite Hlog. reflexivity. }
  2:{ eexists. split; [eapply (V2_text_idle _ _ _ _ _ _ []); auto|].
      - left. auto.
      - rewrite Hlog. reflexivity. }
  destruct (decide (V2.step st = V2.completed)) as [Hdone|Hactive].
  { eexists. split; [eapply (V2_text_idle _ _ _ _ _ _ []); auto|].
    - right. right. exists st. unfold V2_is_active.
      rewrite bool_decide_eq_true_2 by exact Hdone. auto.
    - rewrite Hlog. reflexivity. }
  destruct (decide (V2.step st = V2.q7_age)) as [Hage|Hother].
  2:{ eexists. split; [eapply (V2_text_use_buttons _ _ _ _ _ _ st); auto|].
      rewrite Hlog. reflexivity. }
  destruct (Js.parseInt trimmed) as [parsed|] eqn:Hparse.
  2:{ eexists. split; [eapply (V2_text_age_reprompt _ _ _ _ _ _ st); auto|].
      rewrite Hlog. reflexivity. }
  destruct (Z.ltb_spec parsed 10).
  { eexists. split; [eapply (V2_text_age_reprompt _ _ _ _ _ _ st); eauto|].
    rewrite Hlog. reflexivity. }
  destruct (Z.ltb_spec 80 parsed).
  { eexists. split; [eapply (V2_text_age_reprompt _ _ _ _ _ _ st); eauto|].
    rewrite Hlog. reflexivity. }
  cbn [orb]. destruct (Z.leb_spec 35 parsed).
  - eexists. split; [eapply (V2_text_age_failed _ _ _ _ _ _ st parsed); auto; lia|].
    rewrite V2_reportResult_run, Hlog. reflexivity.
  - eexists. split; [eapply (V2_text_age_advanced _ _ _ _ _ _ st parsed); auto; lia|].
    rewrite Hlog. reflexivity.
Qed.

Lemma V2_handleWebhook_outcome now body env kv :
  exists log,
    V2_update_outcome now env kv body log /\
    V2.handleWebhook now body env kv = (tt, replay now kv log, log).
Proof.
  destruct body as [| |update]; cbn [V2.handleWebhook].
  - eexists. split; [constructor | reflexivity].
  - eexists. split; [constructor | reflexivity].
  - destruct (V2.callback_query update) as [cq|] eqn:Hcq.
    + destruct (V2_handleCallbackQuery_outcome now cq env kv) as (log & Hout & Heq).
      exists log. split; [eapply V2_update_press; eauto | exact Heq].
    + destruct (V2.message update) as [msg|] eqn:Hmsg.
      * destruct (V2_handleMessage_outcome now (V2.chat_id msg)
                    (default (V2.mkUser (V2.chat_id msg) None "there")
                       (V2.message_from msg))
                    (V2.text msg) env kv) as (log & Hout & Heq).
        exists log. split; [eapply V2_update_text; eauto | exact Heq].
      * exists []. split; [now apply V2_update_other | reflexivity].
Qed.

(** ** What a log does to the namespace *)

Section Frames.
Context {Sess Msg Payload : Type}.
Implicit Types (kv : KV Sess) (log : list (effect Sess Msg Payload)).

Lemma replay_frame now c c' log : forall kv,
  forallb (targets c) log = true -> c' <> c ->
  sessions (replay now kv log) !! c' = sessions kv !! c' /\
  windows (replay now kv log) !! c' = windows kv !! c'.
Proof.
  induction log as [|e log IH]; intros kv Hall Hne; [now split|].
  cbn [forallb] in Hall. apply andb_true_iff in Hall as [He Hall].
  change (replay now kv (e :: log)) with (replay now (apply_effect now kv e) log).
  destruct (IH (apply_effect now kv e) Hall Hne) as [-> ->].
  destruct e; cbn [apply_effect sessions windows targets] in *;
    try (now split);
    apply bool_decide_eq_true in He; subst;
    rewrite ?lookup_insert_ne, ?lookup_delete_ne by congruence; now split.
Qed.

Lemma replay_sessions_ext now log : forall kv1 kv2,
  sessions kv1 = sessions kv2 ->
  sessions (replay now kv1 log) = sessions (replay now kv2 log).
Proof.
  induction log as [|e log IH]; intros kv1 kv2 H; [exact H|].
  change (replay now kv1 (e :: log)) with (replay now (apply_effect now kv1 e) log).
  change (replay now kv2 (e :: log)) with (replay now (apply_effect now kv2 e) log).
  apply IH. destruct e; cbn [apply_effect sessions]; now rewrite ?H.
Qed.

Lemma replay_no_session_write now log : forall kv,
  List.filter is_session_write log = [] ->
  sessions (replay now kv log) = sessions kv.
Proof.
  induction log as [|e log IH]; intros kv H; [reflexivity|].
  change (replay now kv (e :: log)) with (replay now (apply_effect now kv e) log).
  cbn [List.filter] in H. destruct (is_session_write e) eqn:He; [discriminate|].
  rewrite (IH _ H). destruct e; try discriminate; reflexivity.
Qed.

Lemma limiter_log_quiet now c kv :
  let lim := effects_of (checkRateLimit (Msg:=Msg) (Payload:=Payload) now c kv) in
  forallb (targets c) lim = true /\
  List.filter is_session_write lim = [] /\
  deliveries lim = [] /\ messages lim = [].
Proof.
  destruct (Nat.le_gt_cases RATE_LIMIT_MAX_ACTIONS
              (recent_count now (stored_window now kv c))) as [H|H]; cbv zeta.
  - rewrite (checkRateLimit_rejects _ _ _ H). now repeat split.
  - rewrite (checkRateLimit_admits _ _ _ H). cbn.
    rewrite bool_decide_eq_true_2 by reflexivity. now repeat split.
Qed.

Lemma forallb_targets_errors c errs :
  forallb (targets (Sess:=Sess) (Msg:=Msg) (Payload:=Payload) c)
    (List.map ConsoleError errs) = true.
Proof. induction errs; [reflexivity | exact IHerrs]. Qed.

Lemma filter_errors (f : effect Sess Msg Payload -> bool) errs tail :
  (forall e, f (ConsoleError e) = false) ->
  List.filter f (List.map ConsoleError errs ++ tail) = List.filter f tail.
Proof.
  intros Hf. rewrite List.filter_app, filter_map_ConsoleError by exact Hf.
  reflexivity.
Qed.

End Frames.

Lemma array_indexOf_lookup {A} `{EqDecision A} (l : list A) x i :
  array_indexOf l x = Some i -> l !! i = Some x.
Proof.
  revert i. induction l as [|y l IH]; intros i H; [discriminate|].
  cbn [array_indexOf] in H. destruct (decide (y = x)) as [->|Hne].
  - injection H as <-. reflexivity.
  - destruct (array_indexOf l x) as [j|]; [|discriminate].
    injection H as <-. apply IH. reflexivity.
Qed.

(** ** An update concerns one chat only *)

Lemma limiter_log_targets {Sess Msg Payload} now c (kv : KV Sess) :
  forallb (targets c)
    (effects_of (checkRateLimit (Msg:=Msg) (Payload:=Payload) now c kv)) = true.
Proof. apply limiter_log_quiet. Qed.

Ltac log_targets :=
  unfold V1_report_log, V2_report_log, V1_ack, V2_ack,
         V1_limiter_log, V2_limiter_log;
  cbn [forallb targets app];
  rewrite ?forallb_app, ?forallb_targets_errors, ?limiter_log_targets;
  cbn [forallb targets andb];
  rewrite ?bool_decide_eq_true_2 by reflexivity; reflexivity.

Lemma V1_outcome_targets now cq env kv log :
  V1_outcome now cq env kv log -> forallb (targets (V1_chat cq)) log = true.
Proof. destruct 1; log_targets. Qed.

Lemma V2_outcome_targets now cq env kv log :
  V2_outcome now cq env kv log -> forallb (targets (V2_chat cq)) log = true.
Proof. destruct 1; log_targets. Qed.

Lemma V2_start_log_targets now chatId from token :
  forallb (targets chatId) (V2_start_log now chatId from token) = true.
Proof.
  unfold V2_start_log.
  destruct (String.eqb token "" || (String.length (Js.trim token) <? 4)%nat);
    log_targets.
Qed.

Lemma V2_text_outcome_targets now chatId from text env kv log :
  V2_text_outcome now chatId from text env kv log ->
  forallb (targets chatId) log = true.
Proof.
  destruct 1; rewrite ?forallb_app, ?V2_start_log_targets, ?andb_true_r;
    log_targets.
Qed.

Lemma V2_update_outcome_targets now env kv body log c :
  V2_update_outcome now env kv body log ->
  V2_update_chat body = Some c ->
  forallb (targets c) log = true.
Proof.
  destruct 1 as [| |update cq log Hcq Hout|update msg log Hcq Hmsg Hout|update Hcq Hmsg];
    cbn [V2_update_chat]; try discriminate; rewrite ?Hcq, ?Hmsg;
    cbn [fmap option_fmap option_map]; intros [= <-].
  - eapply V2_outcome_targets; eauto.
  - eapply V2_text_outcome_targets; eauto.
Qed.

(** X1. In the five-question worker a button press of one chat leaves the
    sessions and the rate-limit windows of every other chat as they are,
    and the namespace it leaves is the one its log of KV writes produces. *)
Theorem X1_press_touches_one_chat :
  forall now cq env kv other,
    other <> V1.id (V1.from cq) ->
    let r := V1.handleCallbackQuery now cq env kv in
    store_of r = replay now kv (effects_of r) /\
    sessions (store_of r) !! other = sessions kv !! other /\
    windows (store_of r) !! other = windows kv !! other.
Proof.
  intros now cq env kv other Hne r. subst r.
  destruct (V1_handleCallbackQuery_outcome now cq env kv) as (log & Hout & ->).
  cbn [store_of effects_of fst snd]. split; [reflexivity|].
  apply replay_frame with (c := V1_chat cq); [|exact Hne].
  eapply V1_outcome_targets; eauto.
Qed.

Lemma X1_witness :
  let st := V1.mkSession "tok1" V1.q1_team_role ∅ 0 None in
  let kv := mkKV {[ 7 := (1000000, Json st); 8 := (1000000, Json st) ]} ∅ in
  let cq := V1.mkCallbackQuery "cb" (V1.mkUser 7 None "Ana") (Some "q1:no"%string) in
  let r := V1.handleCallbackQuery 5 cq (V1.mkEnv "t" "u" "l" None) kv in
  store_of r = replay 5 kv (effects_of r) /\
  sessions (store_of r) !! 8 = sessions kv !! 8 /\
  windows (store_of r) !! 8 = windows kv !! 8.
Proof.
  intros st kv cq.
  apply (X1_press_touches_one_chat 5 cq (V1.mkEnv "t" "u" "l" None) kv 8).
  vm_compute. discriminate.
Defined.

(** X2. In the eight-question worker an update (button press, text or
    anything else posted to the webhook) leaves the sessions and the
    rate-limit windows of every chat other than its own as they are, and the
    namespace it leaves is the one its log of KV writes produces. *)
Theorem X2_update_touches_one_chat :
  forall now body env kv other,
    V2_update_chat body <> Some other ->
    let r := V2.handleWebhook now body env kv in
    store_of r = replay now kv (effects_of r) /\
    sessions (store_of r) !! other = sessions kv !! other /\
    windows (store_of r) !! other = windows kv !! other.
Proof.
  intros now body env kv other Hne r. subst r.
  destruct (V2_handleWebhook_outcome now body env kv) as (log & Hout & ->).
  cbn [store_of effects_of fst snd]. split; [reflexivity|].
  destruct (V2_update_chat body) as [c|] eqn:Hc.
  - apply replay_frame with (c := c); [|congruence].
    eapply V2_update_outcome_targets; eauto.
  - destruct Hout as [| |update cq log Hcq Hout|update msg log Hcq Hmsg Hout
                      |update Hcq Hmsg];
      cbn [V2_update_chat] in Hc; rewrite ?Hcq, ?Hmsg in Hc;
      try discriminate; now split.
Qed.

Lemma X2_witness :
  let st := V2.mkSession "tok1" V2.q7_age ∅ 0 None in
  let kv := mkKV {[ 7 := (1000000, Json st); 8 := (1000000, Json st) ]} ∅ in
  let body := V2.JsonUpdate
                (V2.mkUpdate (Some (V2.mkMessage None 7 (Some "40"%string))) None) in
  let r := V2.handleWebhook 5 body (V2.mkEnv "t" "u" "l" None) kv in
  store_of r = replay 5 kv (effects_of r) /\
  sessions (store_of r) !! 8 = sessions kv !! 8 /\
  windows (store_of r) !! 8 = windows kv !! 8.
Proof.
  intros st kv body.
  apply (X2_update_touches_one_chat 5 body (V2.mkEnv "t" "u" "l" None) kv 8).
  vm_compute. discriminate.
Defined.

(** ** Reading the head of a handler's log *)

Section LogHead.
Context {Sess Msg Payload : Type}.
Implicit Types (kv : KV Sess) (tail : list (effect Sess Msg Payload)).

Lemma log_deliveries now c kv tail :
  deliveries (effects_of (checkRateLimit now c kv) ++ tail) = deliveries tail.
Proof.
  unfold deliveries. rewrite List.filter_app.
  pose proof (limiter_log_quiet (Msg:=Msg) (Payload:=Payload) now c kv)
    as (_ & _ & H & _). unfold deliveries in H. now rewrite H.
Qed.

Lemma log_messages now c kv tail :
  messages (effects_of (checkRateLimit now c kv) ++ tail) = messages tail.
Proof.
  unfold messages. rewrite List.filter_app.
  pose proof (limiter_log_quiet (Msg:=Msg) (Payload:=Payload) now c kv)
    as (_ & _ & _ & H). unfold messages in H. now rewrite H.
Qed.

Lemma log_sessions now c kv tail :
  sessions (replay now kv (effects_of (checkRateLimit now c kv) ++ tail))
  = sessions (replay now kv tail).
Proof.
  rewrite replay_app. apply replay_sessions_ext.
  apply replay_no_session_write. apply limiter_log_quiet.
Qed.

Lemma log_sessions_ack now c kv id tail :
  sessions (replay now kv
              (AnswerCallbackQuery id :: effects_of (checkRateLimit now c kv) ++ tail))
  = sessions (replay now kv tail).
Proof. apply log_sessions. Qed.

Lemma session_at_deleted later now c kv pre :
  session_at later (replay now kv (pre ++ [DeleteSession (Msg:=Msg) (Payload:=Payload) c])) c
  = None.
Proof.
  rewrite replay_app. cbn. unfold session_at, kv_get. cbn [sessions].
  now rewrite lookup_delete_eq.
Qed.

End LogHead.

(** ** Verdicts *)

Lemma V1_fail_has_reason s answer minWeeklyHours reason :
  V1.checkFailCondition s answer minWeeklyHours = Some reason ->
  reason <> V1.NoReason.
Proof.
  destruct s; cbn [V1.checkFailCondition];
    repeat match goal with
           | |- context [if ?b then _ else _] => destruct b
           | |- context [match V1.hours_of ?a with _ => _ end] =>
               destruct (V1.hours_of a)
           end; intros [= <-]; discriminate.
Qed.

Lemma V2_fail_has_reason s answer minWeeklyHours reason :
  V2.checkFailCondition s answer minWeeklyHours = Some reason ->
  reason <> V2.NoReason.
Proof.
  destruct s; cbn [V2.checkFailCondition];
    repeat match goal with
           | |- context [if ?b then _ else _] => destruct b
           | |- context [match V2.hours_of ?a with _ => _ end] =>
               destruct (V2.hours_of a)
           end; intros [= <-]; discriminate.
Qed.

(** What a log that ends in a report shows. *)
Lemma V1_report_log_spec now c kv head result reason state from env :
  deliveries head = [] -> messages head = [] ->
  (result = V1.pass <-> reason = V1.NoReason) ->
  let log := head ++ V1_report_log now result reason state c from env in
  exists payload,
    deliveries log = [PostWebhook payload] /\
    V1.p_telegram_chat_id payload = c /\
    V1.p_applicant_token payload = V1.applicant_token state /\
    V1.p_answers payload = V1.answers state /\
    (V1.p_result payload = V1.pass <-> V1.p_reason payload = V1.NoReason) /\
    messages log =
      [SendMessage c
         (match V1.p_result payload with
          | V1.pass => V1.MsgPassed (V1.MARIA_TELEGRAM_LINK env)
          | V1.fail => V1.MsgFailed (V1.p_reason payload)
          end)] /\
    (forall later, session_at later (replay now kv log) c = None).
Proof.
  intros Hd Hm Hiff log. subst log. eexists. unfold deliveries, messages in *.
  rewrite !List.filter_app, Hd, Hm. cbn [V1_report_log List.filter is_delivery
    is_message app]. repeat split; try apply Hiff.
  intros later. unfold V1_report_log.
  match goal with
  | |- context [head ++ [?a; ?b; ?c; ?d]] =>
      change (head ++ [a; b; c; d]) with (head ++ ([a; b; c] ++ [d]));
      rewrite (app_assoc head)
  end.
  apply session_at_deleted.
Qed.

Lemma deliveries_app {Sess Msg Payload} (l1 l2 : list (effect Sess Msg Payload)) :
  deliveries (l1 ++ l2) = deliveries l1 ++ deliveries l2.
Proof. apply List.filter_app. Qed.

Lemma messages_app {Sess Msg Payload} (l1 l2 : list (effect Sess Msg Payload)) :
  messages (l1 ++ l2) = messages l1 ++ messages l2.
Proof. apply List.filter_app. Qed.

Lemma deliveries_errors {Sess Msg Payload} errs :
  deliveries (Sess:=Sess) (Msg:=Msg) (Payload:=Payload) (List.map ConsoleError errs) = [].
Proof. now apply filter_map_ConsoleError. Qed.

Lemma messages_errors {Sess Msg Payload} errs :
  messages (Sess:=Sess) (Msg:=Msg) (Payload:=Payload) (List.map ConsoleError errs) = [].
Proof. now apply filter_map_ConsoleError. Qed.

Lemma V1_head_quiet now cq kv :
  deliveries (V1_ack cq :: V1_limiter_log now (V1_chat cq) kv) = [] /\
  messages (V1_ack cq :: V1_limiter_log now (V1_chat cq) kv) = [].
Proof.
  pose proof (limiter_log_quiet (Msg:=V1.Msg) (Payload:=V1.ResultPayload)
                now (V1_chat cq) kv) as (_ & _ & Hd & Hm).
  split; [exact Hd | exact Hm].
Qed.

Lemma V2_head_quiet now cq kv :
  deliveries (V2_ack cq :: V2_limiter_log now (V2_chat cq) kv) = [] /\
  messages (V2_ack cq :: V2_limiter_log now (V2_chat cq) kv) = [].
Proof.
  pose proof (limiter_log_quiet (Msg:=V2.Msg) (Payload:=V2.ResultPayload)
                now (V2_chat cq) kv) as (_ & _ & Hd & Hm).
  split; [exact Hd | exact Hm].
Qed.

(** Normalises [deliveries] and [messages] of an outcome's log. *)
Ltac log_simpl :=
  rewrite ?app_comm_cons, ?deliveries_app, ?messages_app,
          ?(proj1 (V1_head_quiet _ _ _)), ?(proj2 (V1_head_quiet _ _ _)),
          ?(proj1 (V2_head_quiet _ _ _)), ?(proj2 (V2_head_quiet _ _ _)),
          ?deliveries_errors, ?messages_errors;
  cbn [app].




Lemma V2_report_log_spec now c kv head result reason state from env :
  deliveries head = [] -> messages head = [] ->
  (result = V2.pass <-> reason = V2.NoReason) ->
  let log := head ++ V2_report_log now result reason state c from env in
  exists payload,
    deliveries log = [PostWebhook payload] /\
    V2.p_telegram_chat_id payload = c /\
    V2.p_applicant_token payload = V2.applicant_token state /\
    V2.p_answers payload = V2.json_answers (V2.answers state) /\
    (V2.p_result payload = V2.pass <-> V2.p_reason payload = V2.NoReason) /\
    messages log =
      [SendMessage c
         (match V2.p_result payload with
          | V2.pass => V2.MsgPassed (V2.MARIA_WHATSAPP_LINK env)
          | V2.fail => V2.MsgFailed (V2.p_reason payload)
          end)] /\
    (forall later, session_at later (replay now kv log) c = None).
Proof.
  intros Hd Hm Hiff log. subst log. eexists. unfold deliveries, messages in *.
  rewrite !List.filter_app, Hd, Hm. cbn [V2_report_log List.filter is_delivery
    is_message app]. repeat split; try apply Hiff.
  intros later. unfold V2_report_log.
  match goal with
  | |- context [head ++ [?a; ?b; ?c; ?d]] =>
      change (head ++ [a; b; c; d]) with (head ++ ([a; b; c] ++ [d]));
      rewrite (app_assoc head)
  end.
  apply session_at_deleted.
Qed.

Lemma V2_text_head_quiet now c kv :
  deliveries (V2_limiter_log now c kv) = [] /\
  messages (V2_limiter_log now c kv) = [].
Proof.
  pose proof (limiter_log_quiet (Msg:=V2.Msg) (Payload:=V2.ResultPayload) now c kv)
    as (_ & _ & Hd & Hm). split; [exact Hd | exact Hm].
Qed.





(** ** Sessions only move forward *)

Lemma session_at_ext {Sess} now (kv1 kv2 : KV Sess) c :
  sessions kv1 = sessions kv2 -> session_at now kv1 c = session_at now kv2 c.
Proof. unfold session_at. now intros ->. Qed.

Lemma session_at_put {Sess Msg Payload} now (kv : KV Sess) c s
    (tail : list (effect Sess Msg Payload)) :
  List.filter is_session_write tail = [] ->
  session_at now (replay now kv (PutSession c s :: tail)) c = Some s.
Proof.
  intros Htail.
  change (replay now kv (PutSession c s :: tail))
    with (replay now (apply_effect now kv (PutSession (Msg:=Msg) (Payload:=Payload) c s)) tail).
  unfold session_at. rewrite (replay_no_session_write _ _ _ Htail).
  cbn [apply_effect sessions]. now rewrite kv_get_put_session.
Qed.

Lemma V1_next_position s i next :
  array_indexOf V1.STEP_ORDER s = Some i ->
  V1.STEP_ORDER !! S i = Some next ->
  V1_position s = i /\ V1_position next = S i.
Proof.
  intros Hi Hnext. unfold V1_position. rewrite Hi. split; [reflexivity|].
  destruct s; vm_compute in Hi; try discriminate; injection Hi as <-;
    vm_compute in Hnext; try discriminate; injection Hnext as <-; reflexivity.
Qed.

Lemma V2_next_position s i next :
  array_indexOf V2.STEP_ORDER s = Some i ->
  V2.STEP_ORDER !! S i = Some next ->
  V2_position s = i /\ V2_position next = S i.
Proof.
  intros Hi Hnext. unfold V2_position. rewrite Hi. split; [reflexivity|].
  destruct s; vm_compute in Hi; try discriminate; injection Hi as <-;
    vm_compute in Hnext; try discriminate; injection Hnext as <-; reflexivity.
Qed.

Lemma V1_carries_on_refl st : V1_carries_on st st.
Proof. repeat split. now left. Qed.

Lemma V2_carries_on_refl st : V2_carries_on st st.
Proof. repeat split. now left. Qed.

Lemma V1_outcome_session now cq env kv log st' :
  V1_outcome now cq env kv log ->
  session_at now (replay now kv log) (V1_chat cq) = Some st' ->
  exists st, session_at now kv (V1_chat cq) = Some st /\ V1_carries_on st st'.
Proof.
  intros Hout.
  assert (forall tail,
            List.filter is_session_write tail = [] ->
            session_at now
              (replay now kv (V1_ack cq :: V1_limiter_log now (V1_chat cq) kv ++ tail))
              (V1_chat cq) = session_at now kv (V1_chat cq)) as Hquiet.
  { intros tail Htail. apply session_at_ext.
    unfold V1_ack, V1_limiter_log. rewrite log_sessions_ack.
    now apply replay_no_session_write. }
  destruct Hout as [ | | | st errs Ha Hget Hign
                   | st i q v reason Ha Hget Hacc Hfail
                   | st i q v Ha Hget Hacc Hfail Hlast
                   | st i q v next q' Ha Hget Hacc Hfail Hnext Hq ].
  - intros Hs. exists st'. split; [exact Hs | apply V1_carries_on_refl].
  - rewrite Hquiet by reflexivity. intros Hs. exists st'.
    split; [exact Hs | apply V1_carries_on_refl].
  - rewrite Hquiet by reflexivity. intros Hs. exists st'.
    split; [exact Hs | apply V1_carries_on_refl].
  - rewrite Hquiet by (now apply filter_map_ConsoleError). intros Hs. exists st'.
    split; [exact Hs | apply V1_carries_on_refl].
  - rewrite app_comm_cons.
    destruct (V1_report_log_spec now (V1_chat cq) kv
                (V1_ack cq :: V1_limiter_log now (V1_chat cq) kv)
                V1.fail reason (V1.set_answer st (V1.key q) v) (V1.from cq) env)
      as (payload & _ & _ & _ & _ & _ & _ & Hgone);
      try apply V1_head_quiet;
      [split; [discriminate | intros ->; now apply V1_fail_has_reason in Hfail]|].
    rewrite Hgone. discriminate.
  - rewrite app_comm_cons.
    destruct (V1_report_log_spec now (V1_chat cq) kv
                (V1_ack cq :: V1_limiter_log now (V1_chat cq) kv)
                V1.pass V1.NoReason (V1.set_answer st (V1.key q) v) (V1.from cq) env)
      as (payload & _ & _ & _ & _ & _ & _ & Hgone);
      try apply V1_head_quiet; [split; reflexivity|].
    rewrite Hgone. discriminate.
  - unfold V1_ack, V1_limiter_log.
    rewrite (session_at_ext _ _ _ _ (log_sessions_ack _ _ _ _ _)).
    rewrite session_at_put by reflexivity. intros [= <-].
    exists st. unfold session_at. rewrite Hget. split; [reflexivity|].
    destruct Hacc as (_ & _ & Hi & Hqi).
    destruct (V1_next_position _ _ _ Hi Hnext) as [Hp Hp'].
    repeat split. right. cbn [V1.step V1.set_step V1.answers V1.set_answer].
    rewrite Hp, Hp'. split; [reflexivity|]. exists q, v. auto.
Qed.



Lemma V2_outcome_session now cq env kv log st' :
  V2_outcome now cq env kv log ->
  session_at now (replay now kv log) (V2_chat cq) = Some st' ->
  exists st, session_at now kv (V2_chat cq) = Some st /\ V2_carries_on st st'.
Proof.
  intros Hout.
  assert (forall tail,
            List.filter is_session_write tail = [] ->
            session_at now
              (replay now kv (V2_ack cq :: V2_limiter_log now (V2_chat cq) kv ++ tail))
              (V2_chat cq) = session_at now kv (V2_chat cq)) as Hquiet.
  { intros tail Htail. apply session_at_ext.
    unfold V2_ack, V2_limiter_log. rewrite log_sessions_ack.
    now apply replay_no_session_write. }
  destruct Hout as [ | | | st errs Ha Hget Hign
                   | st i q v reason Ha Hget Hacc Hfail
                   | st i q v Ha Hget Hacc Hfail Hlast
                   | st i q v next q' Ha Hget Hacc Hfail Hnext Hq ].
  - intros Hs. exists st'. split; [exact Hs | apply V2_carries_on_refl].
  - rewrite Hquiet by reflexivity. intros Hs. exists st'.
    split; [exact Hs | apply V2_carries_on_refl].
  - rewrite Hquiet by reflexivity. intros Hs. exists st'.
    split; [exact Hs | apply V2_carries_on_refl].
  - rewrite Hquiet by (now apply filter_map_ConsoleError). intros Hs. exists st'.
    split; [exact Hs | apply V2_carries_on_refl].
  - rewrite app_comm_cons.
    destruct (V2_report_log_spec now (V2_chat cq) kv
                (V2_ack cq :: V2_limiter_log now (V2_chat cq) kv)
                V2.fail reason (V2.set_answer st (V2.key q) v) (V2.from cq) env)
      as (payload & _ & _ & _ & _ & _ & _ & Hgone);
      try apply V2_head_quiet;
      [split; [discriminate | intros ->; now apply V2_fail_has_reason in Hfail]|].
    rewrite Hgone. discriminate.
  - rewrite app_comm_cons.
    destruct (V2_report_log_spec now (V2_chat cq) kv
                (V2_ack cq :: V2_limiter_log now (V2_chat cq) kv)
                V2.pass V2.NoReason (V2.set_answer st (V2.key q) v) (V2.from cq) env)
      as (payload & _ & _ & _ & _ & _ & _ & Hgone);
      try apply V2_head_quiet; [split; reflexivity|].
    rewrite Hgone. discriminate.
  - unfold V2_ack, V2_limiter_log.
    rewrite (session_at_ext _ _ _ _ (log_sessions_ack _ _ _ _ _)).
    rewrite session_at_put by reflexivity. intros [= <-].
    exists st. unfold session_at. rewrite Hget. split; [reflexivity|].
    destruct Hacc as (_ & _ & Hi & Hqi).
    destruct (V2_next_position _ _ _ Hi Hnext) as [Hp Hp'].
    repeat split. right.
    cbn [V2.step V2.set_step V2.answers V2.set_answer V2.json_session].
    rewrite Hp, Hp'. split; [reflexivity|]. exists q, v. auto.
Qed.

Lemma V2_start_log_session now c from token kv st' :
  session_at now (replay now kv (V2_start_log now c from token)) c = Some st' ->
  V2_fresh now st' \/ session_at now kv c = Some st'.
Proof.
  unfold V2_start_log.
  destruct (String.eqb token "") eqn:Hempty; cbn [orb]; [intros Hs; now right|].
  destruct (Nat.ltb_spec (String.length (Js.trim token)) 4) as [Hshort|Hlong];
    [intros Hs; now right|].
  rewrite session_at_put by reflexivity. intros [= <-]. left.
  unfold V2_fresh. cbn [V2.json_session V2.step V2.answers V2.started_at
    V2.applicant_token]. unfold V2.json_answers. rewrite omap_empty. auto.
Qed.

Lemma V2_text_outcome_session now c from text env kv log st' :
  V2_text_outcome now c from text env kv log ->
  session_at now (replay now kv log) c = Some st' ->
  V2_fresh now st' \/
  exists st, session_at now kv c = Some st /\ V2_carries_on st st'.
Proof.
  intros Hout.
  assert (forall tail,
            session_at now (replay now kv (V2_limiter_log now c kv ++ tail)) c
            = session_at now (replay now kv tail) c) as Hhead.
  { intros tail. apply session_at_ext. apply log_sessions. }
  assert (forall tail,
            List.filter is_session_write tail = [] ->
            session_at now (replay now kv (V2_limiter_log now c kv ++ tail)) c
            = session_at now kv c) as Hquiet.
  { intros tail Htail. rewrite Hhead. apply session_at_ext.
    now apply replay_no_session_write. }
  assert (forall errs (m : V2.Msg),
            List.filter is_session_write
              (List.map ConsoleError errs ++ [SendMessage (Sess:=V2.SessionState)
                 (Payload:=V2.ResultPayload) c m]) = []) as Herrs.
  { intros errs m. now rewrite filter_errors. }
  assert (forall st0, session_at now kv c = Some st0 ->
            V2_fresh now st0 \/
            exists st, session_at now kv c = Some st /\ V2_carries_on st st0)
    as Hsame.
  { intros st0 Hs. right. exists st0. split; [exact Hs | apply V2_carries_on_refl]. }
  destruct Hout as [ | | | st | errs | | errs | st | st
                   | st parsed Ha Hcmd Hget Hstep Hparse Hin
                   | st parsed Ha Hcmd Hget Hstep Hparse Hin ];
    rewrite ?Hquiet by (reflexivity || apply Herrs); try apply Hsame.
  - rewrite Hhead. intros Hs.
    destruct (V2_start_log_session _ _ _ _ _ _ Hs); [now left | now apply Hsame].
  - rewrite Hhead. intros Hs.
    destruct (V2_start_log_session _ _ _ _ _ _ Hs); [now left | now apply Hsame].
  - destruct (V2_report_log_spec now c kv (V2_limiter_log now c kv)
                V2.fail V2.TooOld (V2.set_answer st "age" (V2.VNum parsed)) from env)
      as (payload & _ & _ & _ & _ & _ & _ & Hgone);
      try apply V2_text_head_quiet; [split; discriminate|].
    rewrite Hgone. discriminate.
  - rewrite Hhead, session_at_put by reflexivity. intros [= <-]. right.
    exists st. unfold session_at. rewrite Hget. split; [reflexivity|].
    repeat split. right.
    cbn [V2.step V2.set_step V2.answers V2.set_answer V2.json_session].
    rewrite Hstep. split; [reflexivity|].
    eexists _, (V2.VNum parsed). split; reflexivity.
Qed.



(** ** Answers are held only for questions already passed *)

Lemma V1_keys_before_S i question :
  V1.QUESTIONS !! i = Some question ->
  V1_keys_before (S i) = V1_keys_before i ++ [V1.key question].
Proof.
  intros Hq. unfold V1_keys_before. rewrite (take_S_r _ _ _ Hq).
  now rewrite fmap_app.
Qed.

Lemma V2_keys_before_S i question :
  V2.QUESTIONS !! i = Some question ->
  V2_keys_before (S i) = V2_keys_before i ++ [V2.key question].
Proof.
  intros Hq. unfold V2_keys_before. rewrite (take_S_r _ _ _ Hq).
  now rewrite fmap_app.
Qed.

Lemma V1_carries_on_in_order st st' :
  V1_carries_on st st' -> V1_answers_in_order st -> V1_answers_in_order st'.
Proof.
  intros (_ & _ & _ & [->|(Hpos & q & v & Hq & Hans)]) Hin; [exact Hin|].
  intros k Hk. rewrite Hpos, (V1_keys_before_S _ _ Hq). rewrite Hans in Hk.
  apply elem_of_app. destruct (decide (V1.key q = k)) as [<-|Hne].
  - right. apply list_elem_of_singleton. reflexivity.
  - left. apply Hin. now rewrite lookup_insert_ne in Hk.
Qed.

Lemma V2_carries_on_in_order st st' :
  V2_carries_on st st' -> V2_answers_in_order st -> V2_answers_in_order st'.
Proof.
  intros (_ & _ & _ & [->|(Hpos & q & v & Hq & Hans)]) Hin; [exact Hin|].
  intros k Hk. rewrite Hpos, (V2_keys_before_S _ _ Hq). rewrite Hans in Hk.
  unfold V2.json_answers in Hk. rewrite lookup_omap in Hk.
  apply elem_of_app. destruct (decide (V2.key q = k)) as [<-|Hne].
  - right. apply list_elem_of_singleton. reflexivity.
  - left. apply Hin. rewrite lookup_insert_ne in Hk by exact Hne.
    destruct (V2.answers st !! k); [eauto|]. destruct Hk as [? Hk]. discriminate.
Qed.

(** X7. In the five-question worker a button press keeps the invariant
    that a stored session holds answers only for questions before its
    current step. *)
Theorem X7_press_keeps_answers_in_order :
  forall now cq env kv,
    let c := V1.id (V1.from cq) in
    let r := V1.handleCallbackQuery now cq env kv in
    (forall st, session_at now kv c = Some st -> V1_answers_in_order st) ->
    forall st', session_at now (store_of r) c = Some st' ->
                V1_answers_in_order st'.
Proof.
  intros now cq env kv c r Hinv st' Hs. subst r c.
  destruct (V1_handleCallbackQuery_outcome now cq env kv) as (log & Hout & Heq).
  rewrite Heq in Hs. cbn [store_of fst snd] in Hs.
  destruct (V1_outcome_session _ _ _ _ _ _ Hout Hs) as (st & Hst & Hcarry).
  eapply V1_carries_on_in_order; eauto.
Qed.

Lemma X7_witness :
  let st := V1.mkSession "tok1" V1.q2_weekly_hours
              {[ "team_role"%string := "yes"%string ]} 0 None in
  let kv := mkKV {[ 7 := (1000000, Json st) ]} ∅ in
  let cq := V1.mkCallbackQuery "cb" (V1.mkUser 7 None "Ana")
              (Some "q2:full_time"%string) in
  V1_answers_in_order
    (V1.mkSession "tok1" V1.q3_start_date
       {[ "team_role"%string := "yes"%string;
          "weekly_availability"%string := "full_time"%string ]} 0 None).
Proof.
  intros st kv cq.
  apply (X7_press_keeps_answers_in_order 5 cq (V1.mkEnv "t" "u" "l" None) kv).
  - intros st0 Hst0. change (Some st = Some st0) in Hst0.
    injection Hst0 as <-. intros k [v Hk]. vm_compute.
    destruct (decide (k = "team_role"%string)) as [->|Hne];
      [apply list_elem_of_here|].
    subst st. cbn [V1.answers] in Hk. rewrite lookup_singleton_ne in Hk by congruence.
    discriminate.
  - vm_compute. reflexivity.
Defined.

Lemma V2_fresh_in_order now st' : V2_fresh now st' -> V2_answers_in_order st'.
Proof. intros (_ & Hans & _) k [v Hk]. rewrite Hans in Hk. discriminate. Qed.

(** X8. In the eight-question worker every update keeps the invariant that
    a stored session holds answers only for questions before its current
    step. *)
Theorem X8_update_keeps_answers_in_order :
  forall now body env kv c,
    V2_update_chat body = Some c ->
    let r := V2.handleWebhook now body env kv in
    (forall st, session_at now kv c = Some st -> V2_answers_in_order st) ->
    forall st', session_at now (store_of r) c = Some st' ->
                V2_answers_in_order st'.
Proof.
  intros now body env kv c Hc r Hinv st' Hs. subst r.
  destruct (V2_handleWebhook_outcome now body env kv) as (log & Hout & Heq).
  rewrite Heq in Hs. cbn [store_of fst snd] in Hs.
  assert (V2_fresh now st' \/
          exists st, session_at now kv c = Some st /\ V2_carries_on st st') as Hcase.
  { destruct Hout as [| |update cq log Hcq Hout|update msg log Hcq Hmsg Hout
                      |update Hcq Hmsg];
      cbn [V2_update_chat] in Hc; rewrite ?Hcq, ?Hmsg in Hc; try discriminate;
      cbn [fmap option_fmap option_map] in Hc; injection Hc as <-.
    - right. eapply V2_outcome_session; eauto.
    - eapply V2_text_outcome_session; eauto. }
  destruct Hcase as [Hfresh|(st & Hst & Hcarry)].
  - eapply V2_fresh_in_order; eauto.
  - eapply V2_carries_on_in_order; eauto.
Qed.

Lemma X8_witness :
  let st := V2.mkSession "tok1" V2.q7_age
              {[ "team_role"%string := V2.VStr "yes" ]} 0 None in
  let kv := mkKV {[ 7 := (1000000, Json st) ]} ∅ in
  let body := V2.JsonUpdate
                (V2.mkUpdate (Some (V2.mkMessage None 7 (Some "24"%string))) None) in
  V2_answers_in_order
    (V2.mkSession "tok1" V2.q8_student_types
       {[ "team_role"%string := V2.VStr "yes"; "age"%string := V2.VNum 24 ]} 0 None).
Proof.
  intros st kv body.
  apply (X8_update_keeps_answers_in_order 5 body (V2.mkEnv "t" "u" "l" None) kv 7).
  - reflexivity.
  - intros st0 Hst0. change (Some st = Some st0) in Hst0.
    injection Hst0 as <-. intros k [v Hk]. vm_compute.
    destruct (decide (k = "team_role"%string)) as [->|Hne];
      [apply list_elem_of_here|].
    subst st. cbn [V2.answers] in Hk. rewrite lookup_singleton_ne in Hk by congruence.
    discriminate.
  - vm_compute. reflexivity.
Defined.

(** ** Accepted answers *)

Lemma V1_limiter_log_admitted now c kv :
  admits now c kv = true ->
  V1_limiter_log now c kv =
    [PutWindow c (List.filter (in_window now) (stored_window now kv c) ++ [now])].
Proof.
  intros Ha. apply admits_room in Ha. unfold V1_limiter_log.
  now rewrite (checkRateLimit_admits _ _ _ Ha).
Qed.

Lemma V2_limiter_log_admitted now c kv :
  admits now c kv = true ->
  V2_limiter_log now c kv =
    [PutWindow c (List.filter (in_window now) (stored_window now kv c) ++ [now])].
Proof.
  intros Ha. apply admits_room in Ha. unfold V2_limiter_log.
  now rewrite (checkRateLimit_admits _ _ _ Ha).
Qed.

Lemma V1_accepted_run now cq env kv st i question answerValue :
  admits now (V1_chat cq) kv = true ->
  kv_get now (sessions kv) (V1_chat cq) = Some (Json st) ->
  V1_accepted st (V1_press cq) i question answerValue ->
  let log := V1_ack cq :: V1_limiter_log now (V1_chat cq) kv ++
             V1_answer_log now cq env st i question answerValue in
  V1.handleCallbackQuery now cq env kv = (tt, replay now kv log, log).
Proof.
  intros Ha Hget (Hactive & (colonIdx & Hidx & Hpre & ->) & Hi & Hq) log.
  subst log. rewrite (V1_limiter_log_admitted _ _ _ Ha).
  apply admits_room in Ha. unfold V1_chat, V1_press in *.
  unfold V1.handleCallbackQuery, V1_answer_log. run.
  rewrite !(checkRateLimit_admits _ _ _ Ha). run.
  rewrite (loadSession_stored _ _ _ st) by exact Hget. run.
  destruct (decide (V1.step st = V1.completed)) as [E|_]; [contradiction|].
  rewrite Hidx. run. rewrite Hpre, String.eqb_refl. run. rewrite Hi, Hq.
  cbn [V1.step V1.set_answer].
  destruct (V1.checkFailCondition _ _ _) as [reason|].
  - rewrite V1_reportResult_run. reflexivity.
  - destruct (V1.STEP_ORDER !! S i) as [next|].
    + unfold saveSession, kv_write, V1.sendQuestion. run.
      destruct (V1.QUESTIONS !! S i); reflexivity.
    + rewrite V1_reportResult_run. reflexivity.
Qed.

Lemma V2_accepted_run now cq env kv st i question answerValue :
  admits now (V2_chat cq) kv = true ->
  kv_get now (sessions kv) (V2_chat cq) = Some (Json st) ->
  V2_accepted st (V2_press cq) i question answerValue ->
  let log := V2_ack cq :: V2_limiter_log now (V2_chat cq) kv ++
             V2_answer_log now cq env st i question answerValue in
  V2.handleCallbackQuery now cq env kv = (tt, replay now kv log, log).
Proof.
  intros Ha Hget (Hactive & (idx & prefixMap & Hidx & Hpre & Hmap & Hans) & Hi & Hq) log.
  subst log. rewrite (V2_limiter_log_admitted _ _ _ Ha).
  apply admits_room in Ha. unfold V2_chat, V2_press in *.
  unfold V2.handleCallbackQuery, V2_answer_log. run.
  rewrite !(checkRateLimit_admits _ _ _ Ha). run.
  rewrite (loadSession_stored _ _ _ st) by exact Hget. run.
  destruct (decide (V2.step st = V2.completed)) as [E|_]; [contradiction|].
  rewrite Hidx. run. rewrite Hpre, String.eqb_refl. run. rewrite Hmap.
  fold (V2_answer_of prefixMap (Js.drop (S idx) (default ""%string (V2.data cq)))).
  rewrite Hans, Hi, Hq.
  cbn [V2.step V2.set_answer].
  destruct (V2.checkFailCondition _ _ _) as [reason|].
  - rewrite V2_reportResult_run. reflexivity.
  - destruct (V2.STEP_ORDER !! S i) as [next|].
    + unfold V2.saveSession, saveSession, kv_write, V2.sendQuestion, V2_question_msg. run.
      destruct (V2.QUESTIONS !! S i) as [q'|]; [|reflexivity].
      destruct (length (V2.buttons q') =? 0)%nat; reflexivity.
    + rewrite V2_reportResult_run. reflexivity.
Qed.

Lemma V1_next_question j next :
  V1.STEP_ORDER !! j = Some next -> is_Some (V1.QUESTIONS !! j).
Proof. intros H. apply lookup_lt_Some in H. now apply lookup_lt_is_Some. Qed.

Lemma V2_next_question j next :
  V2.STEP_ORDER !! j = Some next -> is_Some (V2.QUESTIONS !! j).
Proof. intros H. apply lookup_lt_Some in H. now apply lookup_lt_is_Some. Qed.

(** An accepted answer gets exactly one message, and the session either
    ends or stands one position further. *)
Lemma V1_accepted_answered now cq env kv st i question answerValue :
  array_indexOf V1.STEP_ORDER (V1.step st) = Some i ->
  let log := V1_ack cq :: V1_limiter_log now (V1_chat cq) kv ++
             V1_answer_log now cq env st i question answerValue in
  length (messages log) = 1%nat /\
  (session_at now (replay now kv log) (V1_chat cq) = None \/
   exists st', session_at now (replay now kv log) (V1_chat cq) = Some st' /\
               V1_position (V1.step st') = S i).
Proof.
  intros Hi log. subst log. unfold V1_answer_log.
  destruct (V1.checkFailCondition _ _ _) as [reason|] eqn:Hfail.
  { rewrite app_comm_cons.
    destruct (V1_report_log_spec now (V1_chat cq) kv
                (V1_ack cq :: V1_limiter_log now (V1_chat cq) kv)
                V1.fail reason (V1.set_answer st (V1.key question) answerValue)
                (V1.from cq) env)
      as (payload & _ & _ & _ & _ & _ & Hm & Hgone);
      try apply V1_head_quiet;
      [split; [discriminate | intros ->; now apply V1_fail_has_reason in Hfail]|].
    rewrite Hm, Hgone. auto. }
  destruct (V1.STEP_ORDER !! S i) as [next|] eqn:Hnext.
  2:{ rewrite app_comm_cons.
      destruct (V1_report_log_spec now (V1_chat cq) kv
                  (V1_ack cq :: V1_limiter_log now (V1_chat cq) kv)
                  V1.pass V1.NoReason
                  (V1.set_answer st (V1.key question) answerValue)
                  (V1.from cq) env)
        as (payload & _ & _ & _ & _ & _ & Hm & Hgone);
        try apply V1_head_quiet; [split; reflexivity|].
      rewrite Hm, Hgone. auto. }
  destruct (V1_next_question _ _ Hnext) as [q' ->].
  split; [log_simpl; reflexivity|]. right. eexists. split.
  - unfold V1_ack, V1_limiter_log.
    rewrite (session_at_ext _ _ _ _ (log_sessions_ack _ _ _ _ _)).
    now rewrite session_at_put.
  - cbn [V1.step V1.set_step]. now apply (V1_next_position _ _ _ Hi Hnext).
Qed.


(** ** Every button of the catalog is a live button *)

Lemma V1_button_accepted st data i question :
  array_indexOf V1.STEP_ORDER (V1.step st) = Some i ->
  V1.QUESTIONS !! i = Some question ->
  data ∈ concat (V1.buttons question) ->
  exists answerValue, V1_accepted st data i question answerValue.
Proof.
  intros Hi Hq Hin. unfold V1_accepted. rewrite Hi, Hq.
  destruct (V1.step st) eqn:Hstep; vm_compute in Hi; try discriminate;
    injection Hi as <-; vm_compute in Hq; injection Hq as <-;
    cbn [V1.buttons concat app] in Hin;
    repeat (apply elem_of_cons in Hin as [->|Hin]);
    try (now apply elem_of_nil in Hin);
    (eexists; split; [discriminate|]; split; [|split; reflexivity];
     eexists; split; [vm_compute; reflexivity|]; split; reflexivity).
Qed.


(** X9. In the five-question worker every button that the catalog shows
    for a step is a live button: pressed while the stored session is at that
    step and admitted by the limiter, it is answered by exactly one message,
    and the session either ends (a verdict was reached) or stands at the
    next step. *)
Theorem X9_catalog_buttons_are_live :
  forall now cq env kv st i question,
    let c := V1.id (V1.from cq) in
    admits now c kv = true ->
    kv_get now (sessions kv) c = Some (Json st) ->
    array_indexOf V1.STEP_ORDER (V1.step st) = Some i ->
    V1.QUESTIONS !! i = Some question ->
    default ""%string (V1.data cq) ∈ concat (V1.buttons question) ->
    let r := V1.handleCallbackQuery now cq env kv in
    length (messages (effects_of r)) = 1%nat /\
    (session_at now (store_of r) c = None \/
     exists st', session_at now (store_of r) c = Some st' /\
                 V1_position (V1.step st') = S i).
Proof.
  intros now cq env kv st i question c Ha Hget Hi Hq Hin r. subst r c.
  destruct (V1_button_accepted st _ i question Hi Hq Hin) as [v Hacc].
  rewrite (V1_accepted_run now cq env kv st i question v Ha Hget Hacc).
  cbn [store_of effects_of fst snd]. now apply V1_accepted_answered.
Qed.

Lemma X9_witness :
  let st := V1.mkSession "tok1" V1.q3_start_date ∅ 0 None in
  let kv := mkKV {[ 7 := (1000000, Json st) ]} ∅ in
  let cq := V1.mkCallbackQuery "cb" (V1.mkUser 7 None "Ana")
              (Some "q3:one_two_weeks"%string) in
  let r := V1.handleCallbackQuery 5 cq (V1.mkEnv "t" "u" "l" None) kv in
  length (messages (effects_of r)) = 1%nat /\
  (session_at 5 (store_of r) 7 = None \/
   exists st', session_at 5 (store_of r) 7 = Some st' /\
               V1_position (V1.step st') = 3%nat).
Proof.
  intros st kv cq.
  apply (X9_catalog_buttons_are_live 5 cq (V1.mkEnv "t" "u" "l" None) kv st 2%nat
           (V1.mkQuestion "start_date"
              [["q3:immediately"]; ["q3:one_two_weeks"]; ["q3:one_month_plus"]]%string));
    try reflexivity.
  cbn. apply list_elem_of_further, list_elem_of_here.
Defined.



(** ** Refused and sessionless updates *)





(** X13. A button press for a chat without a readable session (none stored,
    expired, or unparseable), once admitted by the limiter, is answered by
    the session-expired notice and nothing else: no result is delivered and
    the stored sessions stay as they are, in both workers. *)
Theorem X13_press_without_session :
  (forall now cq env kv,
     let c := V1.id (V1.from cq) in
     admits now c kv = true ->
     session_at now kv c = None ->
     let r := V1.handleCallbackQuery now cq env kv in
     messages (effects_of r) = [SendMessage c V1.MsgSessionExpired] /\
     deliveries (effects_of r) = [] /\
     sessions (store_of r) = sessions kv) /\
  (forall now cq env kv,
     let c := V2.id (V2.from cq) in
     admits now c kv = true ->
     session_at now kv c = None ->
     let r := V2.handleCallbackQuery now cq env kv in
     messages (effects_of r) = [SendMessage c V2.MsgSessionExpired] /\
     deliveries (effects_of r) = [] /\
     sessions (store_of r) = sessions kv).
Proof.
  split; intros now cq env kv c Ha Hnone r; subst r c.
  - destruct (V1_handleCallbackQuery_outcome now cq env kv) as (log & Hout & ->).
    cbn [store_of effects_of fst snd]. unfold session_at in Hnone.
    change (V1.id (V1.from cq)) with (V1_chat cq) in *.
    destruct Hout; try congruence;
      try (match goal with H : kv_get _ _ _ = _ |- _ => rewrite H in Hnone end;
           discriminate);
      (split; [log_simpl; reflexivity|]; split; [log_simpl; reflexivity|]);
      unfold V1_ack, V1_limiter_log; rewrite log_sessions_ack; reflexivity.
  - destruct (V2_handleCallbackQuery_outcome now cq env kv) as (log & Hout & ->).
    cbn [store_of effects_of fst snd]. unfold session_at in Hnone.
    change (V2.id (V2.from cq)) with (V2_chat cq) in *.
    destruct Hout; try congruence;
      try (match goal with H : kv_get _ _ _ = _ |- _ => rewrite H in Hnone end;
           discriminate);
      (split; [log_simpl; reflexivity|]; split; [log_simpl; reflexivity|]);
      unfold V2_ack, V2_limiter_log; rewrite log_sessions_ack; reflexivity.
Qed.

Lemma X13_witness :
  let st := V2.mkSession "tok1" V2.q1_team_role ∅ 0 None in
  let kv := mkKV {[ 7 := (1000, Json st) ]} ∅ in
  let cq := V2.mkCallbackQuery "cb" (V2.mkUser 7 None "Ana") (Some "Q1_YES"%string) in
  let r := V2.handleCallbackQuery 1000 cq (V2.mkEnv "t" "u" "l" None) kv in
  messages (effects_of r) = [SendMessage 7 V2.MsgSessionExpired] /\
  deliveries (effects_of r) = [] /\
  sessions (store_of r) = sessions kv.
Proof.
  intros st kv cq.
  apply (proj2 X13_press_without_session 1000 cq (V2.mkEnv "t" "u" "l" None) kv);
    reflexivity.
Defined.

(** ** Strings *)

Lemma append_cons c a b : (String c a ++ b)%string = String c (a ++ b).
Proof. reflexivity. Qed.

Lemma string_app_assoc (a b c : string) :
  ((a ++ b) ++ c)%string = (a ++ (b ++ c))%string.
Proof.
  induction a as [|x a IH]; [reflexivity|]. rewrite !append_cons. now rewrite IH.
Qed.

Lemma string_app_nil_r (a : string) : (a ++ "")%string = a.
Proof.
  induction a as [|x a IH]; [reflexivity|]. rewrite append_cons. now rewrite IH.
Qed.

Lemma list_ascii_of_string_app a b :
  list_ascii_of_string (a ++ b) =
  (list_ascii_of_string a ++ list_ascii_of_string b)%list.
Proof.
  induction a as [|c a IH]; [reflexivity|].
  change (c :: list_ascii_of_string (a ++ b) =
          c :: (list_ascii_of_string a ++ list_ascii_of_string b)%list).
  now rewrite IH.
Qed.

Lemma string_of_list_ascii_app l1 l2 :
  string_of_list_ascii (l1 ++ l2) =
  (string_of_list_ascii l1 ++ string_of_list_ascii l2)%string.
Proof.
  induction l1 as [|c l1 IH]; [reflexivity|].
  change (String c (string_of_list_ascii (l1 ++ l2)) =
          String c (string_of_list_ascii l1 ++ string_of_list_ascii l2)).
  now rewrite IH.
Qed.

Lemma rev_string_app a b :
  Js.rev_string (a ++ b) = (Js.rev_string b ++ Js.rev_string a)%string.
Proof.
  unfold Js.rev_string.
  now rewrite list_ascii_of_string_app, rev_app_distr, string_of_list_ascii_app.
Qed.

Lemma rev_string_involutive s : Js.rev_string (Js.rev_string s) = s.
Proof.
  unfold Js.rev_string.
  now rewrite list_ascii_of_string_of_list_ascii, rev_involutive,
    string_of_list_ascii_of_string.
Qed.

Lemma rev_string_cons c s :
  Js.rev_string (String c s) = (Js.rev_string s ++ String c "")%string.
Proof. change (String c s) with (String c "" ++ s)%string. apply rev_string_app. Qed.

Lemma no_ws_app a b : no_ws (a ++ b) = no_ws a && no_ws b.
Proof.
  induction a as [|c a IH]; [reflexivity|].
  rewrite append_cons. cbn [no_ws]. rewrite IH. now rewrite andb_assoc.
Qed.

Lemma no_ws_rev s : no_ws (Js.rev_string s) = no_ws s.
Proof.
  induction s as [|c s IH]; [reflexivity|].
  rewrite rev_string_cons, no_ws_app, IH. cbn [no_ws].
  rewrite andb_true_r. apply andb_comm.
Qed.

Lemma rev_string_empty s : Js.rev_string s = ""%string -> s = ""%string.
Proof.
  intros H. rewrite <- (rev_string_involutive s), H. reflexivity.
Qed.

(** White space is skipped only at the head of a text. *)
Lemma skip_ws_word_app w s :
  is_word w = true -> Js.skip_ws (w ++ s) = (w ++ s)%string.
Proof.
  unfold is_word. destruct w as [|c w]; [discriminate|].
  rewrite append_cons. cbn [no_ws Js.skip_ws String.eqb negb andb].
  intros H. apply andb_true_iff in H as [H _].
  now destruct (Js.is_ws c).
Qed.

Lemma is_word_rev w : is_word w = true -> is_word (Js.rev_string w) = true.
Proof.
  unfold is_word. intros H. apply andb_true_iff in H as [Hne Hno].
  rewrite no_ws_rev, Hno, andb_true_r.
  destruct (String.eqb_spec (Js.rev_string w) ""); [|reflexivity].
  apply rev_string_empty in e. subst w. discriminate.
Qed.

(** A text that begins and ends with a word is its own trimmed form. *)
Lemma trim_between_words w1 middle w2 :
  is_word w1 = true -> is_word w2 = true ->
  Js.trim (w1 ++ middle ++ w2) = (w1 ++ middle ++ w2)%string.
Proof.
  intros H1 H2. unfold Js.trim. rewrite skip_ws_word_app by exact H1.
  rewrite !rev_string_app, string_app_assoc.
  rewrite skip_ws_word_app by now apply is_word_rev.
  rewrite <- string_app_assoc, <- !rev_string_app.
  apply rev_string_involutive.
Qed.

Lemma trim_word w : is_word w = true -> Js.trim w = w.
Proof.
  intros H. unfold Js.trim.
  rewrite <- (string_app_nil_r w) at 1.
  rewrite skip_ws_word_app, string_app_nil_r by exact H.
  rewrite <- (string_app_nil_r (Js.rev_string w)) at 1.
  rewrite skip_ws_word_app, string_app_nil_r by now apply is_word_rev.
  apply rev_string_involutive.
Qed.

Lemma split_ws_from_word_app w : forall s cur b,
  no_ws w = true ->
  Js.split_ws_from (w ++ s) cur b =
  Js.split_ws_from s (List.rev (list_ascii_of_string w) ++ cur)
    (if String.eqb w "" then b else false).
Proof.
  induction w as [|c w IH]; intros s cur b Hw; [reflexivity|].
  cbn [no_ws] in Hw. apply andb_true_iff in Hw as [Hc Hw].
  rewrite append_cons. cbn [Js.split_ws_from list_ascii_of_string List.rev].
  apply negb_true_iff in Hc. rewrite Hc, IH by exact Hw.
  rewrite <- app_assoc. cbn [app].
  change (String.eqb (String c w) "") with false.
  now destruct (String.eqb w "").
Qed.

Lemma split_ws_from_run sep : forall s cur,
  all_ws sep = true ->
  Js.split_ws_from (sep ++ s) cur true = Js.split_ws_from s cur true.
Proof.
  induction sep as [|c sep IH]; intros s cur Hsep; [reflexivity|].
  cbn [all_ws] in Hsep. apply andb_true_iff in Hsep as [Hc Hsep].
  rewrite append_cons. cbn [Js.split_ws_from]. rewrite Hc. now apply IH.
Qed.

Lemma split_ws_from_separator sep s cur :
  all_ws sep = true -> sep <> ""%string ->
  Js.split_ws_from (sep ++ s) cur false =
  string_of_list_ascii (List.rev cur) :: Js.split_ws_from s [] true.
Proof.
  destruct sep as [|c sep]; [congruence|]. intros Hsep _.
  cbn [all_ws] in Hsep. apply andb_true_iff in Hsep as [Hc Hsep].
  rewrite append_cons. cbn [Js.split_ws_from]. rewrite Hc.
  now rewrite split_ws_from_run.
Qed.

Lemma startsWith_app p s : Js.startsWith (p ++ s) p = true.
Proof.
  unfold Js.startsWith. induction p as [|c p IH].
  - destruct s; reflexivity.
  - rewrite append_cons. cbn [String.prefix].
    destruct (ascii_dec c c) as [_|Hne]; [exact IH | congruence].
Qed.

(** The second piece of ["/start" sep token] is the token. *)
Lemma start_token_extracted sep token :
  all_ws sep = true -> sep <> ""%string -> is_word token = true ->
  let text := ("/start" ++ sep ++ token)%string in
  Js.trim text = text /\
  Js.startsWith text "/start" = true /\
  V2_start_token text = token.
Proof.
  intros Hsep Hne Hword text. subst text. split; [|split].
  - now apply trim_between_words.
  - apply startsWith_app.
  - unfold V2_start_token, Js.split_ws.
    rewrite (split_ws_from_word_app "/start") by reflexivity.
    rewrite split_ws_from_separator by assumption.
    unfold is_word in Hword. apply andb_true_iff in Hword as [_ Hno].
    rewrite <- (string_app_nil_r token) at 1.
    rewrite split_ws_from_word_app by exact Hno.
    cbn [Js.split_ws_from lookup list_lookup default from_option id].
    rewrite app_nil_r, rev_involutive. apply string_of_list_ascii_of_string.
Qed.

Lemma restart_is_not_start s :
  Js.startsWith s "/restart" = true -> Js.startsWith s "/start" = false.
Proof.
  unfold Js.startsWith. destruct s as [|b1 [|b2 s]]; cbn [String.prefix].
  - discriminate.
  - destruct (ascii_dec "/" b1); discriminate.
  - destruct (ascii_dec "/" b1) as [<-|]; [|discriminate].
    destruct (ascii_dec "r" b2) as [<-|]; [|discriminate].
    intros _. reflexivity.
Qed.

(** ** Starting and restarting *)

Lemma V2_start_run now c from text env kv :
  admits now c kv = true ->
  Js.startsWith (Js.trim (default ""%string text)) "/start" = true ->
  V2_start_token (Js.trim (default ""%string text)) <> ""%string ->
  let log := V2_limiter_log now c kv ++
             V2_start_log now c from
               (V2_start_token (Js.trim (default ""%string text))) in
  V2.handleMessage now c from text env kv = (tt, replay now kv log, log).
Proof.
  intros Ha Hstart Htok log. subst log.
  rewrite (V2_limiter_log_admitted _ _ _ Ha). apply admits_room in Ha.
  unfold V2.handleMessage. run.
  rewrite !(checkRateLimit_admits _ _ _ Ha). run. rewrite Hstart.
  fold (V2_start_token (Js.trim (default ""%string text))).
  apply String.eqb_neq in Htok. rewrite Htok.
  rewrite V2_handleStart_run. reflexivity.
Qed.

Lemma V2_restart_run now c from text env kv st :
  admits now c kv = true ->
  Js.startsWith (Js.trim (default ""%string text)) "/restart" = true ->
  kv_get now (sessions kv) c = Some (Json st) ->
  let log := V2_limiter_log now c kv ++
             (if String.eqb (V2.applicant_token st) ""
              then [SendMessage c V2.MsgNoActiveSession]
              else V2_start_log now c from (V2.applicant_token st)) in
  V2.handleMessage now c from text env kv = (tt, replay now kv log, log).
Proof.
  intros Ha Hrestart Hget log. subst log.
  pose proof (restart_is_not_start _ Hrestart) as Hstart.
  rewrite (V2_limiter_log_admitted _ _ _ Ha). apply admits_room in Ha.
  unfold V2.handleMessage. run.
  rewrite !(checkRateLimit_admits _ _ _ Ha). run. rewrite Hstart, Hrestart.
  rewrite (loadSession_stored _ _ _ st) by exact Hget. run.
  destruct (String.eqb (V2.applicant_token st) ""); [reflexivity|].
  rewrite V2_handleStart_run. reflexivity.
Qed.

Lemma V2_start_log_valid now c from token kv :
  token <> ""%string -> (4 <= String.length (Js.trim token))%nat ->
  let log := V2_limiter_log now c kv ++ V2_start_log now c from token in
  session_at now (replay now kv log) c =
    Some (V2.mkSession (Js.trim token) V2.q1_team_role ∅ now (V2.username from)) /\
  messages log =
    [SendMessage c (V2.MsgQuestion 0 (Some [["Q1_YES"]; ["Q1_NO"]]%string))] /\
  deliveries log = [].
Proof.
  intros Hne Hlen log. subst log. unfold V2_start_log.
  apply String.eqb_neq in Hne. rewrite Hne.
  destruct (Nat.ltb_spec (String.length (Js.trim token)) 4); [lia|]. cbn [orb].
  rewrite messages_app, deliveries_app, !(proj1 (V2_text_head_quiet _ _ _)),
    !(proj2 (V2_text_head_quiet _ _ _)).
  split; [|split; reflexivity].
  unfold V2_limiter_log. rewrite (session_at_ext _ _ _ _ (log_sessions _ _ _ _)).
  rewrite session_at_put by reflexivity.
  unfold V2.json_session, V2.json_answers. cbn [V2.answers].
  now rewrite omap_empty.
Qed.

Lemma V2_start_log_invalid now c from token kv :
  (String.length (Js.trim token) < 4)%nat ->
  let log := V2_limiter_log now c kv ++ V2_start_log now c from token in
  sessions (replay now kv log) = sessions kv /\
  messages log = [SendMessage c V2.MsgUseApplicationLink] /\
  deliveries log = [].
Proof.
  intros Hlen log. subst log. unfold V2_start_log.
  destruct (Nat.ltb_spec (String.length (Js.trim token)) 4); [|lia].
  rewrite orb_true_r.
  rewrite messages_app, deliveries_app, !(proj1 (V2_text_head_quiet _ _ _)),
    !(proj2 (V2_text_head_quiet _ _ _)).
  split; [|split; reflexivity].
  unfold V2_limiter_log. now rewrite log_sessions.
Qed.

(** X14. In the eight-question worker the text ["/start"], white space and
    a token of one word, once admitted by the limiter: with a token of four
    characters or more it stores a new session for the chat (that very
    token, first step, no answers, started now), replacing any earlier one,
    and sends the first question; with a shorter token it only sends the
    use-the-link notice and the stored sessions stay as they are.  Nothing
    is delivered either way. *)
Theorem X14_start_command_creates_session :
  forall now chatId from sep token env kv,
    all_ws sep = true -> sep <> ""%string -> is_word token = true ->
    admits now chatId kv = true ->
    let text := ("/start" ++ sep ++ token)%string in
    let r := V2.handleMessage now chatId from (Some text) env kv in
    deliveries (effects_of r) = [] /\
    ((4 <= String.length token)%nat ->
       session_at now (store_of r) chatId =
         Some (V2.mkSession token V2.q1_team_role ∅ now (V2.username from)) /\
       messages (effects_of r) =
         [SendMessage chatId
            (V2.MsgQuestion 0 (Some [["Q1_YES"]; ["Q1_NO"]]%string))]) /\
    ((String.length token < 4)%nat ->
       sessions (store_of r) = sessions kv /\
       messages (effects_of r) = [SendMessage chatId V2.MsgUseApplicationLink]).
Proof.
  intros now chatId from sep token env kv Hsep Hne Hword Ha text r. subst r.
  destruct (start_token_extracted sep token Hsep Hne Hword) as (Htrim & Hstart & Htok).
  fold text in Htrim, Hstart, Htok.
  assert (token <> ""%string) as Hnonempty.
  { unfold is_word in Hword. apply andb_true_iff in Hword as [H _].
    apply negb_true_iff in H. now apply String.eqb_neq. }
  rewrite (V2_start_run now chatId from (Some text) env kv Ha);
    cbn [default from_option id]; rewrite ?Htrim, ?Htok; auto.
  cbn [store_of effects_of fst snd].
  pose proof (trim_word token Hword) as Htw.
  destruct (Nat.lt_ge_cases (String.length token) 4) as [Hshort|Hlong].
  - destruct (V2_start_log_invalid now chatId from token kv) as (Hs & Hm & Hd);
      [now rewrite Htw|].
    split; [exact Hd|]. split; [lia|]. auto.
  - destruct (V2_start_log_valid now chatId from token kv Hnonempty) as (Hs & Hm & Hd);
      [now rewrite Htw|].
    rewrite Htw in Hs. split; [exact Hd|]. split; [auto|lia].
Qed.

Lemma X14_witness :
  let st := V2.mkSession "old-token" V2.q5_sop ∅ 0 None in
  let kv := mkKV {[ 7 := (1000000, Json st) ]} ∅ in
  let from := V2.mkUser 7 (Some "ana"%string) "Ana" in
  let r := V2.handleMessage 5 7 from (Some "/start  abcd-1234"%string)
             (V2.mkEnv "t" "u" "l" None) kv in
  session_at 5 (store_of r) 7 =
    Some (V2.mkSession "abcd-1234" V2.q1_team_role ∅ 5 (Some "ana"%string)) /\
  messages (effects_of r) =
    [SendMessage 7 (V2.MsgQuestion 0 (Some [["Q1_YES"]; ["Q1_NO"]]%string))].
Proof.
  intros st kv from.
  apply (X14_start_command_creates_session 5 7 from "  " "abcd-1234"
           (V2.mkEnv "t" "u" "l" None) kv); try reflexivity.
  - discriminate.
  - vm_compute. lia.
Defined.

(** X15. In the eight-question worker ["/restart"], once admitted by the
    limiter, starts the chat's screening again from its stored session: when
    the stored token, trimmed, has four characters or more, the session is
    replaced by a new one with that token, at the first step, without
    answers and started now, and the first question is sent.  Nothing is
    delivered. *)
Theorem X15_restart_starts_over :
  forall now chatId from text env kv st,
    admits now chatId kv = true ->
    Js.startsWith (Js.trim (default ""%string text)) "/restart" = true ->
    kv_get now (sessions kv) chatId = Some (Json st) ->
    V2.applicant_token st <> ""%string ->
    (4 <= String.length (Js.trim (V2.applicant_token st)))%nat ->
    let r := V2.handleMessage now chatId from text env kv in
    session_at now (store_of r) chatId =
      Some (V2.mkSession (Js.trim (V2.applicant_token st)) V2.q1_team_role ∅ now
              (V2.username from)) /\
    messages (effects_of r) =
      [SendMessage chatId
         (V2.MsgQuestion 0 (Some [["Q1_YES"]; ["Q1_NO"]]%string))] /\
    deliveries (effects_of r) = [].
Proof.
  intros now chatId from text env kv st Ha Hrestart Hget Hne Hlen r. subst r.
  rewrite (V2_restart_run now chatId from text env kv st Ha Hrestart Hget).
  cbn [store_of effects_of fst snd].
  pose proof Hne as Hne'. apply String.eqb_neq in Hne'. rewrite Hne'.
  now apply V2_start_log_valid.
Qed.

Lemma X15_witness :
  let st := V2.mkSession "abcd-1234" V2.q5_sop
              {[ "team_role"%string := V2.VStr "yes" ]} 0 None in
  let kv := mkKV {[ 7 := (1000000, Json st) ]} ∅ in
  let from := V2.mkUser 7 None "Ana" in
  let r := V2.handleMessage 5 7 from (Some " /restart "%string)
             (V2.mkEnv "t" "u" "l" None) kv in
  session_at 5 (store_of r) 7 =
    Some (V2.mkSession (Js.trim "abcd-1234") V2.q1_team_role ∅ 5 None) /\
  messages (effects_of r) =
    [SendMessage 7 (V2.MsgQuestion 0 (Some [["Q1_YES"]; ["Q1_NO"]]%string))] /\
  deliveries (effects_of r) = [].
Proof.
  intros st kv from.
  apply (X15_restart_starts_over 5 7 from (Some " /restart "%string)
           (V2.mkEnv "t" "u" "l" None) kv st); try reflexivity.
  - discriminate.
  - vm_compute. lia.
Defined.

(** ** Replies *)

Lemma V2_start_log_one_message now c from token :
  length (messages (V2_start_log now c from token)) = 1%nat.
Proof.
  unfold V2_start_log.
  destruct (String.eqb token "" || (String.length (Js.trim token) <? 4)%nat);
    reflexivity.
Qed.

(** X16. In the eight-question worker every text message gets exactly one
    reply, whatever it says and whatever is stored; a button press gets at
    most one. *)
Theorem X16_one_reply_per_update :
  (forall now chatId from text env kv,
     length (messages (effects_of (V2.handleMessage now chatId from text env kv)))
     = 1%nat) /\
  (forall now cq env kv,
     (length (messages (effects_of (V2.handleCallbackQuery now cq env kv)))
      <= 1)%nat).
Proof.
  split.
  - intros now chatId from text env kv.
    destruct (V2_handleMessage_outcome now chatId from text env kv)
      as (log & Hout & ->). cbn [effects_of snd].
    destruct Hout; unfold V2_report_log;
      rewrite ?messages_app, ?(proj2 (V2_text_head_quiet _ _ _)), ?messages_errors,
        ?length_app, ?V2_start_log_one_message; reflexivity.
  - intros now cq env kv.
    destruct (V2_handleCallbackQuery_outcome now cq env kv) as (log & Hout & ->).
    cbn [effects_of snd].
    destruct Hout; unfold V2_report_log; log_simpl; cbn; lia.
Qed.

(** ** The entry point *)

(** X17. The Worker answers 200 "ok" to every POST on the webhook route,
    whatever the body holds, after handling it as [handleWebhook] does; it
    answers 200 "ok" to GET /health and 404 to anything else, and on those
    routes it reads and writes nothing and sends nothing. *)
Theorem X17_fetch_routes :
  forall now request env kv,
    let r := V2.fetch now request env kv in
    let webhook := V2.handleWebhook now (V2.body request) env kv in
    let is_health := String.eqb (V2.method request) "GET" &&
                     String.eqb (V2.pathname request) "/health" in
    let is_webhook := String.eqb (V2.method request) "POST" &&
                      String.eqb (V2.pathname request) "/telegram/webhook" in
    (is_webhook = true ->
       result_of r = V2.mkResponse 200 "ok" /\
       store_of r = store_of webhook /\ effects_of r = effects_of webhook) /\
    (is_webhook = false ->
       store_of r = kv /\ effects_of r = [] /\
       result_of r = if is_health then V2.mkResponse 200 "ok"
                     else V2.mkResponse 404 "Not Found").
Proof.
  intros now request env kv r webhook is_health is_webhook.
  assert (is_health = true -> is_webhook = false) as Hexcl.
  { subst is_health is_webhook. intros H. apply andb_true_iff in H as [H _].
    apply String.eqb_eq in H. now rewrite H. }
  subst r webhook. unfold V2.fetch. fold is_health is_webhook.
  destruct is_health; [rewrite (Hexcl eq_refl)|].
  - split; [discriminate|]. intros _. now repeat split.
  - destruct is_webhook; (split; intros Hw; try discriminate).
    + unfold bind, ret.
      destruct (V2.handleWebhook now (V2.body request) env kv) as [[[] kv'] log].
      cbn [result_of store_of effects_of fst snd]. rewrite app_nil_r. auto.
    + auto.
Qed.

Lemma X17_witness :
  let request := V2.mkRequest "POST" "/telegram/webhook" V2.NotJson in
  let kv : KV V2.SessionState := mkKV ∅ ∅ in
  let r := V2.fetch 5 request (V2.mkEnv "t" "u" "l" None) kv in
  let webhook := V2.handleWebhook 5 V2.NotJson (V2.mkEnv "t" "u" "l" None) kv in
  result_of r = V2.mkResponse 200 "ok" /\
  store_of r = store_of webhook /\ effects_of r = effects_of webhook.
Proof.
  intros request kv.
  apply (proj1 (X17_fetch_routes 5 request (V2.mkEnv "t" "u" "l" None) kv)).
  reflexivity.
Defined.

(** ** More on the rate limiter *)

Section LimiterMore.
Context {Sess Msg Payload : Type}.
Implicit Types (kv : KV Sess).

Lemma filter_in_window_all now l :
  Forall (fun t => now - t < RATE_LIMIT_WINDOW_MS) (List.filter (in_window now) l).
Proof.
  apply List.Forall_forall. intros t Ht. apply List.filter_In in Ht as [_ Ht].
  unfold in_window in Ht. now apply Z.ltb_lt in Ht.
Qed.

Lemma checkRateLimit_window_only now c kv1 kv2 :
  windows kv1 !! c = windows kv2 !! c ->
  result_of (checkRateLimit (Msg:=Msg) (Payload:=Payload) now c kv1) =
  result_of (checkRateLimit (Msg:=Msg) (Payload:=Payload) now c kv2) /\
  windows (store_of (checkRateLimit (Msg:=Msg) (Payload:=Payload) now c kv1)) !! c =
  windows (store_of (checkRateLimit (Msg:=Msg) (Payload:=Payload) now c kv2)) !! c.
Proof.
  intros Hw.
  assert (stored_window now kv1 c = stored_window now kv2 c) as Hsw.
  { unfold stored_window, kv_get. now rewrite Hw. }
  unfold checkRateLimit. run. rewrite Hsw.
  destruct (RATE_LIMIT_MAX_ACTIONS <=? _)%nat; [now split|].
  unfold kv_write. run. cbn [apply_effect windows].
  now rewrite !lookup_insert_eq.
Qed.

Lemma checkRateLimit_other_window now c c' kv :
  c' <> c ->
  windows (store_of (checkRateLimit (Msg:=Msg) (Payload:=Payload) now c' kv)) !! c
  = windows kv !! c.
Proof.
  intros Hne.
  pose proof (checkRateLimit_replay (Msg:=Msg) (Payload:=Payload) now c' kv) as Hr.
  cbv zeta in Hr. rewrite Hr.
  apply (replay_frame now c' c); [apply limiter_log_targets | congruence].
Qed.

Lemma admitted_only_own_calls c calls : forall kv1 kv2,
  windows kv1 !! c = windows kv2 !! c ->
  times_of c (admitted (Msg:=Msg) (Payload:=Payload) calls kv1) =
  times_of c (admitted (Msg:=Msg) (Payload:=Payload)
                (List.filter (fun call => bool_decide (call.1 = c)) calls) kv2).
Proof.
  induction calls as [|[ch t] calls IH]; intros kv1 kv2 Hw; [reflexivity|].
  cbn [List.filter fst]. destruct (decide (ch = c)) as [->|Hne].
  - rewrite bool_decide_eq_true_2 by reflexivity. cbn [admitted].
    destruct (checkRateLimit_window_only t c kv1 kv2 Hw) as [Hres Hw'].
    rewrite Hres.
    destruct (result_of (checkRateLimit t c kv2)).
    + rewrite (times_of_cons c (c, t)), (times_of_cons c (c, t) (admitted _ _)).
      f_equal. now apply IH.
    + now apply IH.
  - rewrite bool_decide_eq_false_2 by exact Hne. cbn [admitted].
    assert (times_of c
              (if result_of (checkRateLimit (Msg:=Msg) (Payload:=Payload) t ch kv1)
               then (ch, t) :: admitted (Msg:=Msg) (Payload:=Payload) calls
                                 (store_of (checkRateLimit t ch kv1))
               else admitted (Msg:=Msg) (Payload:=Payload) calls
                      (store_of (checkRateLimit t ch kv1)))
            = times_of c (admitted (Msg:=Msg) (Payload:=Payload) calls
                            (store_of (checkRateLimit (Msg:=Msg) (Payload:=Payload)
                                         t ch kv1)))) as ->.
    { destruct (result_of _); [|reflexivity].
      rewrite times_of_cons. unfold times_of at 1. cbn [List.filter fst].
      now rewrite bool_decide_eq_false_2 by exact Hne. }
    apply IH. now rewrite checkRateLimit_other_window.
Qed.

End LimiterMore.

(** X18. After a call that the limiter admits, the window it has stored for
    the chat ends with the instant of the call, holds at most 5 timestamps,
    and none of them is 10 seconds old or older. *)
Theorem X18_stored_window_is_pruned_and_bounded :
  forall (Sess Msg Payload : Type) now chatId (kv : KV Sess),
    let r := checkRateLimit (Msg:=Msg) (Payload:=Payload) now chatId kv in
    result_of r = true ->
    exists recent,
      stored_window now (store_of r) chatId = recent ++ [now] /\
      (length (recent ++ [now]) <= 5)%nat /\
      Forall (fun t => now - t < 10000) (recent ++ [now]).
Proof.
  intros Sess Msg Payload now chatId kv r Hres. subst r.
  rewrite admits_result in Hres. apply admits_room in Hres.
  exists (List.filter (in_window now) (stored_window now kv chatId)).
  rewrite (checkRateLimit_admits _ _ _ Hres). cbn [store_of fst snd].
  rewrite stored_window_insert_eq.
  destruct (Z.ltb_spec now (now + RATE_LIMIT_TTL_SECONDS * 1000)) as [_|Hx];
    [|unfold RATE_LIMIT_TTL_SECONDS in Hx; lia].
  split; [reflexivity|]. split.
  - rewrite length_app. cbn [length]. unfold recent_count, RATE_LIMIT_MAX_ACTIONS in Hres.
    lia.
  - apply Forall_app. split; [apply filter_in_window_all|].
    constructor; [lia | constructor].
Qed.

Lemma X18_witness :
  let kv : KV unit := mkKV ∅ {[ 7 := (1000000, Json [0; 2000; 9000; 11000]) ]} in
  let r := checkRateLimit (Msg:=unit) (Payload:=unit) 12000 7 kv in
  exists recent,
    stored_window 12000 (store_of r) 7 = recent ++ [12000%Z] /\
    (length (recent ++ [12000%Z]) <= 5)%nat /\
    Forall (fun t => 12000 - t < 10000) (recent ++ [12000%Z]).
Proof.
  intros kv. apply (X18_stored_window_is_pruned_and_bounded unit unit unit 12000 7 kv).
  reflexivity.
Defined.

(** X19. The limiter never locks a chat out: a call made when every stored
    timestamp of the chat is 10 seconds old or older (or when the stored
    window is absent, expired or unparseable) is admitted, and the stored
    window becomes that call alone. *)
Theorem X19_limiter_readmits_after_window :
  forall (Sess Msg Payload : Type) now chatId (kv : KV Sess),
    (forall t, In t (stored_window now kv chatId) -> t + 10000 <= now) ->
    let r := checkRateLimit (Msg:=Msg) (Payload:=Payload) now chatId kv in
    result_of r = true /\
    stored_window now (store_of r) chatId = [now].
Proof.
  intros Sess Msg Payload now chatId kv Hstale r. subst r.
  assert (List.filter (in_window now) (stored_window now kv chatId) = []) as Hnil.
  { pose proof (recent_count_stale now (stored_window now kv chatId) Hstale) as H.
    unfold recent_count in H. now apply length_zero_iff_nil in H. }
  assert (recent_count now (stored_window now kv chatId) < RATE_LIMIT_MAX_ACTIONS)%nat
    as Hroom.
  { unfold recent_count. rewrite Hnil. cbn. unfold RATE_LIMIT_MAX_ACTIONS. lia. }
  rewrite (checkRateLimit_admits _ _ _ Hroom). cbn [result_of store_of fst snd].
  split; [reflexivity|]. rewrite stored_window_insert_eq, Hnil.
  destruct (Z.ltb_spec now (now + RATE_LIMIT_TTL_SECONDS * 1000)) as [_|Hx];
    [reflexivity | unfold RATE_LIMIT_TTL_SECONDS in Hx; lia].
Qed.

Lemma X19_witness :
  let kv : KV unit := mkKV ∅ {[ 7 := (1000000, Json [0; 1; 2; 3; 4]) ]} in
  let r := checkRateLimit (Msg:=unit) (Payload:=unit) 10004 7 kv in
  result_of r = true /\ stored_window 10004 (store_of r) 7 = [10004%Z].
Proof.
  intros kv. apply (X19_limiter_readmits_after_window unit unit unit 10004 7 kv).
  intros t Ht. vm_compute in Ht.
  repeat (destruct Ht as [<-|Ht]; [lia|]). destruct Ht.
Defined.

(** X20. Chats do not compete for admission: in any run of calls, the calls
    of a chat that the limiter admits are the same as if the calls of all
    other chats had never been made. *)
Theorem X20_admission_is_per_chat :
  forall (Sess Msg Payload : Type) chatId calls (kv : KV Sess),
    times_of chatId (admitted (Msg:=Msg) (Payload:=Payload) calls kv) =
    times_of chatId
      (admitted (Msg:=Msg) (Payload:=Payload)
         (List.filter (fun call => bool_decide (call.1 = chatId)) calls) kv).
Proof. intros. now apply admitted_only_own_calls. Qed.

(** ** The weekly-hours threshold *)

Lemma V1_hours_nonneg answer hours : V1.hours_of answer = Some hours -> 0 <= hours.
Proof.
  unfold V1.hours_of, Js.get, V1.HOURS_MAP. cbn [Js.own_prop].
  repeat (destruct (String.eqb _ answer); [intros [= <-]; lia|]).
  destruct (Js.inherited answer); intros [= <-]; lia.
Qed.

Lemma V2_hours_nonneg answer hours : V2.hours_of answer = Some hours -> 0 <= hours.
Proof.
  unfold V2.hours_of. destruct answer; try (intros [= <-]; lia).
  unfold Js.get, V2.HOURS_MAP. cbn [Js.own_prop].
  repeat (destruct (String.eqb _ _); [intros [= <-]; lia|]).
  destruct (Js.inherited _); intros [= <-]; lia.
Qed.

(** X21. Lowering the weekly-hours threshold never turns a passing answer
    into a failing one, in either worker; and with a threshold that is not
    positive (a negative [MIN_WEEKLY_HOURS]) the availability check is off:
    every answer to the availability question passes. *)
Theorem X21_lower_threshold_fails_less :
  forall m m' s1 answer1 s2 answer2,
    m' <= m ->
    (V1.checkFailCondition s1 answer1 m = None ->
     V1.checkFailCondition s1 answer1 m' = None) /\
    (V2.checkFailCondition s2 answer2 m = None ->
     V2.checkFailCondition s2 answer2 m' = None) /\
    (m' <= 0 ->
     V1.checkFailCondition V1.q2_weekly_hours answer1 m' = None /\
     V2.checkFailCondition V2.q2_weekly_hours answer2 m' = None).
Proof.
  intros m m' s1 answer1 s2 answer2 Hle. repeat split.
  - destruct s1; cbn [V1.checkFailCondition]; try tauto.
    destruct (V1.hours_of answer1) as [hours|]; [|reflexivity].
    destruct (Z.ltb_spec hours m); [discriminate|].
    destruct (Z.ltb_spec hours m'); [lia | reflexivity].
  - destruct s2; cbn [V2.checkFailCondition]; try tauto.
    destruct (V2.hours_of answer2) as [hours|]; [|reflexivity].
    destruct (Z.ltb_spec hours m); [discriminate|].
    destruct (Z.ltb_spec hours m'); [lia | reflexivity].
  - cbn [V1.checkFailCondition].
    destruct (V1.hours_of answer1) as [hours|] eqn:Hh; [|reflexivity].
    apply V1_hours_nonneg in Hh.
    destruct (Z.ltb_spec hours m'); [lia | reflexivity].
  - cbn [V2.checkFailCondition].
    destruct (V2.hours_of answer2) as [hours|] eqn:Hh; [|reflexivity].
    apply V2_hours_nonneg in Hh.
    destruct (Z.ltb_spec hours m'); [lia | reflexivity].
Qed.

Lemma X21_witness :
  let m' := V1.minWeeklyHours (V1.mkEnv "t" "u" "l" (Some "-3"%string)) in
  m' = -3 /\
  V1.checkFailCondition V1.q2_weekly_hours "less_than_15" 15 <> None /\
  V1.checkFailCondition V1.q2_weekly_hours "less_than_15" m' = None /\
  V2.checkFailCondition V2.q2_weekly_hours (V2.VStr "low") m' = None.
Proof.
  intros m'.
  destruct (X21_lower_threshold_fails_less 15 m' V1.q2_weekly_hours "less_than_15"
              V2.q2_weekly_hours (V2.VStr "low")) as (_ & _ & Hoff);
    [vm_compute; discriminate|].
  destruct Hoff as [H1 H2]; [vm_compute; discriminate|].
  split; [reflexivity|]. split; [vm_compute; discriminate|]. split; assumption.
Defined.

(** ** A whole interview *)

Lemma V1_button_run now from env kv e st i s question cq_id a :
  sessions kv !! V1.id from = Some (e, Json st) -> now < e ->
  V1.step st = s ->
  V1.STEP_ORDER !! i = Some s ->
  V1.QUESTIONS !! i = Some question ->
  (recent_count now (stored_window now kv (V1.id from)) < RATE_LIMIT_MAX_ACTIONS)%nat ->
  let cq := V1_button from s cq_id a in
  let log := V1_ack cq :: V1_limiter_log now (V1.id from) kv ++
             V1_answer_log now cq env st i question a in
  V1.handleCallbackQuery now cq env kv = (tt, replay now kv log, log).
Proof.
  intros Hsess Hnow Hstep Hs Hq Hroom cq log. subst cq log.
  apply (V1_accepted_run now (V1_button from s cq_id a) env kv st i question a).
  - now apply admits_true.
  - unfold V1_chat, V1_button, kv_get. cbn [V1.from]. rewrite Hsess.
    now destruct (Z.ltb_spec now e); [|lia].
  - unfold V1_accepted, V1_press, V1_button. cbn [V1.data default from_option id].
    rewrite Hstep.
    destruct i as [|[|[|[|[|i]]]]]; cbn in Hs; try discriminate;
      injection Hs as <-;
      (split; [discriminate|]; split; [|split; [reflexivity | exact Hq]];
       eexists; split; [vm_compute; reflexivity|]; split; reflexivity).
Qed.

Lemma bind_run {St Ev A B} (m : @M St Ev A) (k : A -> @M St Ev B) s a s1 l1 :
  m s = (a, s1, l1) ->
  bind m k s = (result_of (k a s1), store_of (k a s1), l1 ++ effects_of (k a s1)).
Proof. unfold bind. intros ->. now destruct (k a s1) as [[b s2] l2]. Qed.

Lemma recent_count_le now l : (recent_count now l <= length l)%nat.
Proof. unfold recent_count. apply List.filter_length_le. Qed.

Lemma V1_interview_from env from rest : forall p i s st kv e,
  sessions kv !! V1.id from = Some (e, Json st) ->
  V1.step st = s ->
  V1.STEP_ORDER !! i = Some s ->
  (recent_count p.1.1 (stored_window p.1.1 kv (V1.id from)) <= i)%nat ->
  (i + length (p :: rest) = length V1.STEP_ORDER)%nat ->
  V1_in_time e (p :: rest) ->
  V1_all_pass env (drop i V1.STEP_ORDER) (p :: rest) ->
  let r := V1_interview from env (drop i V1.STEP_ORDER) (p :: rest) kv in
  (exists completed_at,
     deliveries (effects_of r) =
       [PostWebhook
          (V1.mkPayload (V1.applicant_token st) (V1.id from) (V1.username from)
             V1.pass V1.NoReason
             (V1_record (V1.answers st) (drop i V1.QUESTIONS) (p :: rest))
             completed_at)]) /\
  length (messages (effects_of r)) = length (p :: rest) /\
  last (messages (effects_of r)) =
    Some (SendMessage (V1.id from) (V1.MsgPassed (V1.MARIA_TELEGRAM_LINK env))) /\
  (forall later, session_at later (store_of r) (V1.id from) = None).
Proof.
  induction rest as [|p' rest IH]; intros [[now cq_id] a] i s st kv e
    Hsess Hstep Hs Hcount Hlen [Hnow Htime] Hpass r; subst r;
    cbn [fst snd length] in *.
  - assert (i = 4%nat) as -> by (cbn in Hlen; lia).
    cbn in Hs. injection Hs as <-.
    cbn [drop V1.STEP_ORDER V1.QUESTIONS V1_interview V1_record].
    destruct Hpass as [Hpass _].
    unfold bind, ret.
    rewrite (V1_button_run now from env kv e st 4 V1.q5_sop
               (V1.mkQuestion "sop" [["q5:yes"]; ["q5:no"]]%string) cq_id a);
      try assumption; try reflexivity;
      [|unfold RATE_LIMIT_MAX_ACTIONS; lia].
    cbn [effects_of store_of fst snd]. rewrite app_nil_r.
    unfold V1_answer_log. rewrite Hstep, Hpass.
    change (V1.STEP_ORDER !! 5%nat) with (@None V1.Step). cbv iota beta zeta.
    rewrite app_comm_cons.
    destruct (V1_head_quiet now (V1_button from V1.q5_sop cq_id a) kv) as [Hhd Hhm].
    change (V1_chat (V1_button from V1.q5_sop cq_id a)) with (V1.id from) in *.
    change (V1.from (V1_button from V1.q5_sop cq_id a)) with from.
    cbn [V1.key].
    set (head := V1_ack _ :: V1_limiter_log now (V1.id from) kv) in *.
    unfold V1_report_log.
    repeat split.
    + eexists. rewrite deliveries_app, Hhd. reflexivity.
    + rewrite messages_app, Hhm. reflexivity.
    + rewrite messages_app, Hhm. reflexivity.
    + intros later.
      match goal with
      | |- context [head ++ [?a; ?b; ?c; ?d]] =>
          change (head ++ [a; b; c; d]) with (head ++ ([a; b; c] ++ [d]));
          rewrite (app_assoc head)
      end.
      apply (session_at_deleted (Sess:=V1.SessionState)).
  - assert (i < 4)%nat as Hi by (cbn in Hlen; lia).
    destruct (V1.STEP_ORDER !! S i) as [next|] eqn:Hnext;
      [|apply lookup_ge_None in Hnext; cbn in Hnext; lia].
    destruct (V1.QUESTIONS !! i) as [question|] eqn:Hq;
      [|apply lookup_ge_None in Hq; cbn in Hq; lia].
    destruct (V1_next_question _ _ Hnext) as [nextQuestion Hnq].
    rewrite (drop_S _ _ _ Hs) in *. rewrite (drop_S _ _ _ Hq).
    cbn [V1_interview V1_record]. destruct Hpass as [Hpass Hpasses].
    rewrite (bind_run _ _ _ _ _ _
               (V1_button_run now from env kv e st i s question cq_id a
                  Hsess Hnow Hstep Hs Hq
                  ltac:(unfold RATE_LIMIT_MAX_ACTIONS; lia))).
    unfold V1_answer_log. rewrite Hstep, Hpass, Hnext, Hnq. cbv iota beta zeta.
    rewrite (V1_limiter_log_admitted now _ kv)
      by (apply admits_true; unfold RATE_LIMIT_MAX_ACTIONS; lia).
    change (V1_chat (V1_button from s cq_id a)) with (V1.id from).
    set (st1 := V1.set_step (V1.set_answer st (V1.key question) a) next).
    set (ts := List.filter (in_window now) (stored_window now kv (V1.id from)) ++ [now]).
    set (kv1 := replay now kv _).
    assert (sessions kv1 !! V1.id from
            = Some (now + SESSION_TTL_SECONDS * 1000, Json st1)) as Hsess1.
    { subst kv1. cbn. now rewrite lookup_insert_eq. }
    assert (forall t, length (stored_window t kv1 (V1.id from)) <= S i)%nat as Hwin.
    { intros t. subst kv1. unfold stored_window, kv_get. cbn.
      rewrite lookup_insert_eq.
      destruct (t <? now + RATE_LIMIT_TTL_SECONDS * 1000); [|cbn; lia].
      subst ts. rewrite length_app. cbn [length].
      unfold recent_count in Hcount. lia. }
    destruct p' as [[now' cq_id'] a'].
    specialize (IH (now', cq_id', a') (S i) next st1 kv1 _ Hsess1 eq_refl Hnext).
    cbn [fst snd length] in IH.
    specialize (IH (Nat.le_trans _ _ _ (recent_count_le _ _) (Hwin now'))).
    specialize (IH ltac:(cbn in Hlen |- *; lia) Htime Hpasses).
    cbv zeta in IH.
    destruct (V1_interview from env (drop (S i) V1.STEP_ORDER)
                ((now', cq_id', a') :: rest) kv1) as [[[] kv2] log2].
    cbn [effects_of store_of fst snd] in *.
    destruct IH as ((completed_at & Hd) & Hm & Hlast & Hgone).
    repeat split.
    + exists completed_at. rewrite deliveries_app, Hd. reflexivity.
    + rewrite messages_app, length_app, Hm. reflexivity.
    + rewrite messages_app, last_app, Hlast. reflexivity.
    + exact Hgone.
Qed.

(** X22. A whole interview in the five-question worker: five presses, one
    per step in order, none of which trips a fail condition, each made
    before the session entry expires and the first with no action of the
    chat in the 10 seconds before it, end in exactly one delivered result.
    The result is a pass without a reason, carries the token of the session
    and the five answers, the user gets five messages of which the last is
    the pass notice, and no session is left. *)
Theorem X22_clean_interview_passes :
  forall env from kv e st first rest,
    let c := V1.id from in
    let presses := first :: rest in
    sessions kv !! c = Some (e, Json st) ->
    V1.step st = V1.q1_team_role ->
    length presses = length V1.STEP_ORDER ->
    recent_count first.1.1 (stored_window first.1.1 kv c) = 0%nat ->
    V1_in_time e presses ->
    V1_all_pass env V1.STEP_ORDER presses ->
    let r := V1_interview from env V1.STEP_ORDER presses kv in
    (exists completed_at,
       deliveries (effects_of r) =
         [PostWebhook
            (V1.mkPayload (V1.applicant_token st) c (V1.username from)
               V1.pass V1.NoReason
               (V1_record (V1.answers st) V1.QUESTIONS presses)
               completed_at)]) /\
    length (messages (effects_of r)) = 5%nat /\
    last (messages (effects_of r)) =
      Some (SendMessage c (V1.MsgPassed (V1.MARIA_TELEGRAM_LINK env))) /\
    (forall later, session_at later (store_of r) c = None).
Proof.
  intros env from kv e st first rest c presses Hsess Hstep Hlen Hcount Htime Hpass r.
  subst r c presses.
  pose proof (V1_interview_from env from rest first 0%nat V1.q1_team_role st kv e
                Hsess Hstep eq_refl) as H.
  rewrite Hcount in H. specialize (H (Nat.le_refl _) Hlen Htime Hpass).
  cbv zeta in H. rewrite !drop_0 in H.
  destruct H as (Hd & Hm & Hrest). repeat split; try assumption; try apply Hrest.
  now rewrite Hm, Hlen.
Qed.

Lemma X22_witness :
  let from := V1.mkUser 7 None "Ana" in
  let env := V1.mkEnv "t" "u" "l" None in
  let st := V1.mkSession "tok1" V1.q1_team_role ∅ 0 None in
  let kv := mkKV {[ 7 := (1000000, Json st) ]} ∅ in
  let presses :=
    [(100, "a", "yes"); (200, "b", "full_time"); (300, "c", "immediately");
     (400, "d", "yes"); (500, "e", "yes")]%string in
  let r := V1_interview from env V1.STEP_ORDER presses kv in
  (exists completed_at,
     deliveries (effects_of r) =
       [PostWebhook
          (V1.mkPayload "tok1" 7 None V1.pass V1.NoReason
             (V1_record ∅ V1.QUESTIONS presses) completed_at)]) /\
  length (messages (effects_of r)) = 5%nat /\
  last (messages (effects_of r)) = Some (SendMessage 7 (V1.MsgPassed "l")) /\
  (forall later, session_at later (store_of r) 7 = None).
Proof.
  intros from env st kv presses.
  apply (X22_clean_interview_passes env from kv 1000000 st
           (100, "a", "yes")%string
           [(200, "b", "full_time"); (300, "c", "immediately");
            (400, "d", "yes"); (500, "e", "yes")]%string);
    try reflexivity.
  - cbn [V1_in_time]. repeat split; reflexivity.
  - cbn [V1_all_pass V1.STEP_ORDER]. repeat split; reflexivity.
Defined.

(** ** Texts that answer nothing *)

Lemma V2_quiet_tail_sessions now c kv errs m :
  sessions (replay now kv
              (V2_limiter_log now c kv ++ List.map ConsoleError errs ++
               [SendMessage c m]))
  = sessions kv.
Proof.
  unfold V2_limiter_log. rewrite log_sessions. apply replay_no_session_write.
  now rewrite filter_errors.
Qed.

(** X23. In the eight-question worker a text that is neither /start nor
    /restart, sent while the chat's session is not at the age step, changes
    no stored session and delivers nothing, whatever it says.  Once admitted
    by the limiter it gets the help text if it starts with /help, else the
    use-the-buttons notice when a screening is in progress, else the
    use-the-email-link notice. *)
Theorem X23_text_outside_age_step_changes_nothing :
  forall now chatId from text env kv,
    let trimmed := Js.trim (default ""%string text) in
    Js.startsWith trimmed "/start" = false ->
    Js.startsWith trimmed "/restart" = false ->
    (forall st, session_at now kv chatId = Some st -> V2.step st <> V2.q7_age) ->
    let r := V2.handleMessage now chatId from text env kv in
    sessions (store_of r) = sessions kv /\
    deliveries (effects_of r) = [] /\
    (admits now chatId kv = true ->
     messages (effects_of r) =
       [SendMessage chatId
          (if Js.startsWith trimmed "/help" then V2.MsgHelp
           else match session_at now kv chatId with
                | Some st =>
                    if decide (V2.step st = V2.completed)
                    then V2.MsgUseEmailLink else V2.MsgUseButtons
                | None => V2.MsgUseEmailLink
                end)]).
Proof.
  intros now chatId from text env kv trimmed Hstart Hrestart Hage r.
  subst r trimmed.
  destruct (V2_handleMessage_outcome now chatId from text env kv)
    as (log & Hout & ->). cbn [store_of effects_of fst snd].
  assert (forall st, kv_get now (sessions kv) chatId = Some (Json st) ->
                     V2.step st <> V2.q7_age) as Hage'.
  { intros st Hget. apply Hage. unfold session_at. now rewrite Hget. }
  assert (forall P : Prop,
            V2_is_command (Js.trim (default ""%string text)) = false ->
            (Js.startsWith (Js.trim (default ""%string text)) "/help" = false -> P) ->
            P) as Hcmd.
  { intros P Hc HP. apply HP. unfold V2_is_command in Hc.
    now apply orb_false_iff in Hc as [_ Hc]. }
  destruct Hout as [ Ha | Ha Hs _ | Ha Hs _ | st Ha _ Hr _ _ | errs Ha _ Hr _
                   | Ha _ _ Hhelp | errs Ha Hc Hno | st Ha Hc Hget Hact _
                   | st Ha _ Hget Hstep _ | st parsed Ha _ Hget Hstep _ _
                   | st parsed Ha _ Hget Hstep _ _ ];
    try congruence;
    try (now apply Hage' in Hget).
  - repeat split. intros Ha'. congruence.
  - split; [apply (V2_quiet_tail_sessions now chatId kv [])|].
    split; [log_simpl; now rewrite (proj1 (V2_text_head_quiet _ _ _))|].
    intros _. rewrite Hhelp, messages_app, (proj2 (V2_text_head_quiet _ _ _)).
    reflexivity.
  - split; [apply V2_quiet_tail_sessions|].
    split; [rewrite !deliveries_app, deliveries_errors,
              (proj1 (V2_text_head_quiet _ _ _)); reflexivity|].
    intros _. apply (Hcmd _ Hc). intros ->.
    rewrite !messages_app, messages_errors, (proj2 (V2_text_head_quiet _ _ _)).
    unfold session_at.
    destruct Hno as [[-> _]|[[-> _]|(st & -> & Hact & _)]]; try reflexivity.
    unfold V2_is_active in Hact. apply negb_false_iff in Hact.
    apply bool_decide_eq_true in Hact.
    now destruct (decide (V2.step st = V2.completed)).
  - split; [apply (V2_quiet_tail_sessions now chatId kv [])|].
    split; [rewrite deliveries_app, (proj1 (V2_text_head_quiet _ _ _)); reflexivity|].
    intros _. apply (Hcmd _ Hc). intros ->.
    rewrite messages_app, (proj2 (V2_text_head_quiet _ _ _)).
    unfold session_at. rewrite Hget.
    now destruct (decide (V2.step st = V2.completed)).
Qed.

Lemma X23_witness :
  let st := V2.mkSession "tok1" V2.q3_start_date ∅ 0 None in
  let kv := mkKV {[ 7 := (1000000, Json st) ]} ∅ in
  let r := V2.handleMessage 5 7 (V2.mkUser 7 None "Ana") (Some "hello"%string)
             (V2.mkEnv "t" "u" "l" None) kv in
  sessions (store_of r) = sessions kv /\
  deliveries (effects_of r) = [] /\
  (admits 5 7 kv = true ->
   messages (effects_of r) = [SendMessage 7 V2.MsgUseButtons]).
Proof.
  intros st kv.
  apply (X23_text_outside_age_step_changes_nothing 5 7 (V2.mkUser 7 None "Ana")
           (Some "hello"%string) (V2.mkEnv "t" "u" "l" None) kv);
    try reflexivity.
  intros st0 Hst0. vm_compute in Hst0. injection Hst0 as <-. discriminate.
Defined.

(** ** A whole interview in the eight-question worker *)

Section LimiterRuns.
Context {Sess Msg Payload : Type}.
Implicit Types (kv : KV Sess).

Lemma checkRateLimit_windows_ext now c kv1 kv2 :
  windows kv1 = windows kv2 ->
  result_of (checkRateLimit (Msg:=Msg) (Payload:=Payload) now c kv1) =
  result_of (checkRateLimit (Msg:=Msg) (Payload:=Payload) now c kv2) /\
  windows (store_of (checkRateLimit (Msg:=Msg) (Payload:=Payload) now c kv1)) =
  windows (store_of (checkRateLimit (Msg:=Msg) (Payload:=Payload) now c kv2)).
Proof.
  intros Hw.
  assert (stored_window now kv1 c = stored_window now kv2 c) as Hsw.
  { unfold stored_window, kv_get. now rewrite Hw. }
  unfold checkRateLimit. run. rewrite Hsw.
  destruct (RATE_LIMIT_MAX_ACTIONS <=? _)%nat; [now split|].
  unfold kv_write. run. cbn [apply_effect windows]. now rewrite Hw.
Qed.

Lemma admitted_windows_ext calls : forall kv1 kv2,
  windows kv1 = windows kv2 ->
  admitted (Msg:=Msg) (Payload:=Payload) calls kv1 =
  admitted (Msg:=Msg) (Payload:=Payload) calls kv2.
Proof.
  induction calls as [|[c t] calls IH]; intros kv1 kv2 Hw; [reflexivity|].
  cbn [admitted].
  destruct (checkRateLimit_windows_ext t c kv1 kv2 Hw) as [-> Hw'].
  now rewrite (IH _ _ Hw').
Qed.

Lemma admitted_length calls : forall kv,
  (length (admitted (Msg:=Msg) (Payload:=Payload) calls kv) <= length calls)%nat.
Proof.
  induction calls as [|[c t] calls IH]; intros kv; [reflexivity|].
  cbn [admitted].
  destruct (result_of _); cbn [length];
    specialize (IH (store_of (checkRateLimit (Msg:=Msg) (Payload:=Payload) t c kv)));
    lia.
Qed.

Lemma admitted_all_cons c t calls kv :
  admitted (Msg:=Msg) (Payload:=Payload) ((c, t) :: calls) kv = (c, t) :: calls ->
  admits t c kv = true /\
  admitted (Msg:=Msg) (Payload:=Payload) calls
    (store_of (checkRateLimit (Msg:=Msg) (Payload:=Payload) t c kv)) = calls.
Proof.
  cbn [admitted]. rewrite <- (admits_result (Msg:=Msg) (Payload:=Payload)).
  destruct (result_of _); intros H.
  - split; [reflexivity|]. now injection H.
  - pose proof (admitted_length calls
                  (store_of (checkRateLimit (Msg:=Msg) (Payload:=Payload) t c kv))) as Hl.
    rewrite H in Hl. cbn [length] in Hl. lia.
Qed.

End LimiterRuns.

Lemma parseInt_not_command trimmed parsed :
  Js.parseInt trimmed = Some parsed -> V2_is_command trimmed = false.
Proof.
  destruct trimmed as [|c s]; [discriminate|].
  destruct (ascii_dec c "/") as [->|Hne].
  - cbn. discriminate.
  - intros _. unfold V2_is_command, Js.startsWith. cbn [String.prefix].
    destruct (ascii_dec "/" c); [congruence | reflexivity].
Qed.

Lemma V2_answer_step now from env kv e st i question cq_id input v :
  sessions kv !! V2.id from = Some (e, Json st) -> now < e ->
  V2.STEP_ORDER !! i = Some (V2.step st) ->
  V2.QUESTIONS !! i = Some question ->
  admits now (V2.id from) kv = true ->
  V2_passing_value env (V2.step st) input = Some v ->
  exists kv' log,
    V2.handleWebhook now (V2_answer_update from (V2.step st) cq_id input) env kv
    = (tt, kv', log) /\
    windows kv' =
      windows (store_of (checkRateLimit (Msg:=V2.Msg) (Payload:=V2.ResultPayload)
                           now (V2.id from) kv)) /\
    match V2.STEP_ORDER !! S i with
    | Some next =>
        sessions kv' !! V2.id from =
          Some (now + SESSION_TTL_SECONDS * 1000,
                Json (V2.json_session
                        (V2.set_step (V2.set_answer st (V2.key question) v) next))) /\
        deliveries log = [] /\
        exists m, messages log = [SendMessage (V2.id from) m]
    | None =>
        deliveries log =
          [PostWebhook
             (V2.mkPayload (V2.applicant_token st) (V2.id from) (V2.username from)
                V2.pass V2.NoReason
                (V2.json_answers (<[V2.key question := v]> (V2.answers st))) now)] /\
        messages log =
          [SendMessage (V2.id from) (V2.MsgPassed (V2.MARIA_WHATSAPP_LINK env))] /\
        forall later, session_at later kv' (V2.id from) = None
    end.
Proof.
  intros Hsess Hnow Hs Hq Ha Hpass.
  assert (kv_get now (sessions kv) (V2.id from) = Some (Json st)) as Hget.
  { unfold kv_get. rewrite Hsess. now destruct (Z.ltb_spec now e); [|lia]. }
  pose proof (admits_room _ _ _ Ha) as Hroom.
  unfold V2_passing_value in Hpass. unfold V2_answer_update.
  destruct (decide (V2.step st = V2.q7_age)) as [Hage|Hnot].
  - (* the age step *)
    destruct (Js.parseInt (Js.trim input)) as [parsed|] eqn:Hparse; [|discriminate].
    destruct ((10 <=? parsed) && (parsed <? 35)) eqn:Hin; [|discriminate].
    injection Hpass as <-. apply andb_true_iff in Hin as [H10 H35].
    apply Z.leb_le in H10. apply Z.ltb_lt in H35.
    rewrite Hage in Hs.
    assert (i = 6%nat) as ->.
    { destruct i as [|[|[|[|[|[|[|[|i]]]]]]]]; cbn in Hs; try discriminate.
      reflexivity. }
    cbn in Hq. injection Hq as <-.
    unfold V2.handleWebhook.
    cbn [V2.callback_query V2.message V2.chat_id V2.message_from V2.text
         default from_option id].
    rewrite (V2_age_in_bounds_run now (V2.id from) from (Some input) env kv st parsed
               (parseInt_not_command _ _ Hparse) Hget Hage Hparse
               ltac:(lia) Ha).
    cbv zeta. destruct (Z.leb_spec 35 parsed); [lia|].
    eexists _, _. split; [reflexivity|]. split; [reflexivity|].
    change (V2.STEP_ORDER !! 7%nat) with (Some V2.q8_student_types).
    cbn [sessions V2.key]. rewrite lookup_insert_eq. split; [reflexivity|].
    rewrite deliveries_app, messages_app.
    pose proof (V2_text_head_quiet now (V2.id from) kv) as [Hd Hm].
    unfold V2_limiter_log in Hd, Hm. rewrite Hd, Hm.
    split; [reflexivity|]. eexists. reflexivity.
  - (* a button step *)
    destruct (Js.own_prop V2.CALLBACK_VALUE_MAP (V2.STEP_PREFIX (V2.step st)))
      as [prefixMap|] eqn:Hmap; [|discriminate].
    destruct (V2_answer_of prefixMap input) as [v'|] eqn:Hans; [|discriminate].
    destruct (V2.checkFailCondition (V2.step st) v' (V2.minWeeklyHours env))
      eqn:Hfail; [discriminate|].
    injection Hpass as ->.
    set (cq := V2.mkCallbackQuery cq_id from
                 (Some (V2.STEP_PREFIX (V2.step st) ++ "_" ++ input)%string)).
    unfold V2.handleWebhook. cbn [V2.callback_query].
    assert (V2_accepted st (V2_press cq) i question v) as Hacc.
    { unfold V2_accepted, V2_press, cq. cbn [V2.data default from_option id].
      split; [intros E; rewrite E in Hs;
              destruct i as [|[|[|[|[|[|[|[|i]]]]]]]]; cbn in Hs; discriminate|].
      split; [|split; [|exact Hq]].
      - exists 2%nat, prefixMap.
        destruct (V2.step st); try discriminate;
          (split; [vm_compute; reflexivity|]);
          (split; [reflexivity|]); (split; [exact Hmap | exact Hans]).
      - destruct i as [|[|[|[|[|[|[|[|i]]]]]]]]; cbn in Hs; try discriminate;
          injection Hs as <-; reflexivity. }
    rewrite (V2_accepted_run now cq env kv st i question v Ha Hget Hacc).
    unfold V2_answer_log. rewrite Hfail.
    change (V2_chat cq) with (V2.id from). change (V2.from cq) with from.
    rewrite (V2_limiter_log_admitted _ _ _ Ha).
    rewrite (checkRateLimit_admits _ _ _ Hroom).
    eexists _, _. split; [reflexivity|].
    destruct (V2.STEP_ORDER !! S i) as [next|] eqn:Hnext.
    + destruct (V2_next_question _ _ Hnext) as [q' ->].
      split; [reflexivity|]. cbn [replay fold_left app apply_effect sessions windows].
      rewrite lookup_insert_eq. split; [reflexivity|].
      split; [reflexivity|]. eexists. reflexivity.
    + split; [reflexivity|]. split; [reflexivity|]. split; [reflexivity|].
      intros later. unfold session_at, kv_get. cbn. now rewrite lookup_delete_eq.
Qed.

Lemma V2_interview_cons from env i now cq_id input inputs s :
  V2.STEP_ORDER !! i = Some s ->
  V2_interview from env i ((now, cq_id, input) :: inputs) =
  (V2.handleWebhook now (V2_answer_update from s cq_id input) env ;;
   V2_interview from env (S i) inputs).
Proof. intros H. cbn [V2_interview]. now rewrite H. Qed.

Lemma V2_record_cons env i answers now cq_id input inputs s question v :
  V2.STEP_ORDER !! i = Some s ->
  V2.QUESTIONS !! i = Some question ->
  V2_passing_value env s input = Some v ->
  V2_record env i answers ((now, cq_id, input) :: inputs) =
  V2_record env (S i) (V2.json_answers (<[V2.key question := v]> answers)) inputs.
Proof. intros H1 H2 H3. cbn [V2_record]. now rewrite H1, H2, H3. Qed.

Lemma V2_interview_from env from rest : forall p i st kv e,
  sessions kv !! V2.id from = Some (e, Json st) ->
  V2.STEP_ORDER !! i = Some (V2.step st) ->
  (i + length (p :: rest) = length V2.STEP_ORDER)%nat ->
  V2_in_time e (p :: rest) ->
  admitted (Msg:=V2.Msg) (Payload:=V2.ResultPayload)
    (V2_calls (V2.id from) (p :: rest)) kv = V2_calls (V2.id from) (p :: rest) ->
  V2_all_pass env i (p :: rest) ->
  let r := V2_interview from env i (p :: rest) kv in
  (exists completed_at,
     deliveries (effects_of r) =
       [PostWebhook
          (V2.mkPayload (V2.applicant_token st) (V2.id from) (V2.username from)
             V2.pass V2.NoReason
             (V2_record env i (V2.answers st) (p :: rest)) completed_at)]) /\
  length (messages (effects_of r)) = length (p :: rest) /\
  last (messages (effects_of r)) =
    Some (SendMessage (V2.id from) (V2.MsgPassed (V2.MARIA_WHATSAPP_LINK env))) /\
  (forall later, session_at later (store_of r) (V2.id from) = None).
Proof.
  induction rest as [|p' rest IH]; intros [[now cq_id] input] i st kv e
    Hsess Hs Hlen [Hnow Htime] Hadm [(s & Hs' & [v Hv]) Hpasses] r; subst r;
    rewrite Hs in Hs'; injection Hs' as <-;
    (destruct (V2.QUESTIONS !! i) as [question|] eqn:Hq;
       [|apply lookup_ge_None in Hq; cbn in Hq, Hlen; lia]);
    unfold V2_calls in Hadm; cbn [List.map fst snd] in Hadm;
    apply admitted_all_cons in Hadm as [Ha Hadm];
    destruct (V2_answer_step now from env kv e st i question cq_id input v
                Hsess Hnow Hs Hq Ha Hv) as (kv1 & log & Hrun & Hwin & Hstep);
    rewrite (V2_interview_cons _ _ _ _ _ _ _ _ Hs),
            (V2_record_cons _ _ _ _ _ _ _ _ _ _ Hs Hq Hv);
    rewrite (bind_run _ _ _ _ _ _ Hrun).
  - assert (V2.STEP_ORDER !! S i = None) as Hnext
      by (apply lookup_ge_None; cbn in Hlen |- *; lia).
    rewrite Hnext in Hstep. destruct Hstep as (Hd & Hm & Hgone).
    cbn [V2_interview V2_record ret effects_of store_of fst snd length].
    rewrite app_nil_r, Hd, Hm. repeat split; eauto.
  - destruct (V2.STEP_ORDER !! S i) as [next|] eqn:Hnext;
      [|apply lookup_ge_None in Hnext; cbn in Hnext, Hlen; lia].
    destruct Hstep as (Hsess1 & Hd & m & Hm).
    destruct p' as [[now' cq_id'] input'].
    specialize (IH (now', cq_id', input') (S i) _ kv1 _ Hsess1 Hnext
                  ltac:(cbn in Hlen |- *; lia) Htime).
    rewrite (admitted_windows_ext _ _ _ Hwin) in IH.
    specialize (IH Hadm Hpasses). cbv zeta in IH.
    destruct (V2_interview from env (S i) ((now', cq_id', input') :: rest) kv1)
      as [[[] kv2] log2].
    cbn [effects_of store_of result_of fst snd V2.applicant_token V2.answers
         V2.json_session V2.set_step V2.set_answer] in *.
    destruct IH as ((completed_at & Hd2) & Hm2 & Hlast & Hgone).
    split; [|split; [|split]].
    + exists completed_at. rewrite deliveries_app, Hd, Hd2. reflexivity.
    + rewrite messages_app, length_app, Hm, Hm2. reflexivity.
    + rewrite messages_app, last_app, Hlast. reflexivity.
    + exact Hgone.
Qed.

(** X24. A whole interview in the eight-question worker, through the
    webhook: eight updates, one per step in order (a button press per
    question, a text at the age step), every one admitted by the limiter,
    made before the session entry expires and passing its step (an age from
    10 to 34, a mapped answer that trips no fail condition), end in exactly
    one delivered result.  The result is a pass without a reason, carries
    the token of the session and the answers as JSON keeps them, the user
    gets eight messages of which the last is the pass notice, and no session
    is left. *)
Theorem X24_clean_interview_passes :
  forall env from kv e st inputs,
    let c := V2.id from in
    sessions kv !! c = Some (e, Json st) ->
    V2.step st = V2.q1_team_role ->
    length inputs = length V2.STEP_ORDER ->
    V2_in_time e inputs ->
    admitted (Msg:=V2.Msg) (Payload:=V2.ResultPayload) (V2_calls c inputs) kv
      = V2_calls c inputs ->
    V2_all_pass env 0 inputs ->
    let r := V2_interview from env 0 inputs kv in
    (exists completed_at,
       deliveries (effects_of r) =
         [PostWebhook
            (V2.mkPayload (V2.applicant_token st) c (V2.username from)
               V2.pass V2.NoReason
               (V2_record env 0 (V2.answers st) inputs) completed_at)]) /\
    length (messages (effects_of r)) = 8%nat /\
    last (messages (effects_of r)) =
      Some (SendMessage c (V2.MsgPassed (V2.MARIA_WHATSAPP_LINK env))) /\
    (forall later, session_at later (store_of r) c = None).
Proof.
  intros env from kv e st inputs c Hsess Hstep Hlen Htime Hadm Hpass r.
  subst r c. destruct inputs as [|p rest]; [discriminate|].
  destruct (V2_interview_from env from rest p 0%nat st kv e Hsess)
    as (Hd & Hm & Hrest); try assumption.
  - now rewrite Hstep.
  - repeat split; try assumption; try apply Hrest. now rewrite Hm, Hlen.
Qed.

Lemma X24_witness :
  let from := V2.mkUser 7 None "Ana" in
  let env := V2.mkEnv "t" "u" "l" None in
  let st := V2.mkSession "tok1" V2.q1_team_role ∅ 0 None in
  let kv := mkKV {[ 7 := (100000000, Json st) ]} ∅ in
  let inputs :=
    [(0, "a", "YES"); (3000, "b", "FT"); (6000, "c", "NOW"); (9000, "d", "YES");
     (12000, "e", "YES"); (15000, "f", "GOOD"); (18000, "", " 29 ");
     (21000, "g", "ALL")]%string in
  let r := V2_interview from env 0 inputs kv in
  (exists completed_at,
     deliveries (effects_of r) =
       [PostWebhook
          (V2.mkPayload "tok1" 7 None V2.pass V2.NoReason
             (V2_record env 0 ∅ inputs) completed_at)]) /\
  length (messages (effects_of r)) = 8%nat /\
  last (messages (effects_of r)) = Some (SendMessage 7 (V2.MsgPassed "l")) /\
  (forall later, session_at later (store_of r) 7 = None).
Proof.
  intros from env st kv inputs.
  apply (X24_clean_interview_passes env from kv 100000000 st inputs);
    try reflexivity.
  - unfold inputs. cbn [V2_in_time]. repeat split; reflexivity.
  - unfold inputs. cbn [V2_all_pass].
    repeat (split; [eexists; split; [reflexivity|]; vm_compute; eauto|]).
    exact I.
Defined.

(** ** Texts, the webhook and the entry point of the five-question worker *)

Lemma V1_handleStart_run now c from token kv :
  V1.handleStart now c from token kv =
  (tt, replay now kv (V1_start_log now c from token), V1_start_log now c from token).
Proof.
  unfold V1.handleStart, V1_start_log.
  destruct (String.eqb token "" || (String.length (Js.trim token) <? 4)%nat);
    reflexivity.
Qed.

(** A text is answered by the limiter's notice, by one notice after the
    limiter's write, or by what [handleStart] does after it. *)
Lemma V1_handleMessage_cases now c from text env kv :
  let trimmed := Js.trim (default ""%string text) in
  let lim := effects_of (checkRateLimit (Msg:=V1.Reply) (Payload:=V1.ResultPayload)
                           now c kv) in
  exists tail,
    V1.handleMessage now c from text env kv
    = (tt, replay now kv (lim ++ tail), lim ++ tail) /\
    ((exists errs m, tail = List.map ConsoleError errs ++ [SendMessage c m]) \/
     (exists token,
        (Js.startsWith trimmed "/start" = true \/
         Js.startsWith trimmed "/restart" = true) /\
        admits now c kv = true /\
        tail = V1_start_log now c from token)).
Proof.
  intros trimmed lim. subst lim. unfold V1.handleMessage. run. fold trimmed.
  destruct (Nat.le_gt_cases RATE_LIMIT_MAX_ACTIONS
              (recent_count now (stored_window now kv c))) as [Hfull|Hroom].
  { rewrite !(checkRateLimit_rejects _ _ _ Hfull). run.
    exists [SendMessage c V1.MsgSendingTooQuickly]. split; [reflexivity|].
    left. now exists [], V1.MsgSendingTooQuickly. }
  pose proof (admits_true _ _ _ Hroom) as Ha.
  rewrite !(checkRateLimit_admits _ _ _ Hroom). run.
  destruct (Js.startsWith trimmed "/start") eqn:Hstart.
  { destruct (String.eqb _ "").
    - exists [SendMessage c V1.MsgNoToken]. split; [reflexivity|].
      left. now exists [], V1.MsgNoToken.
    - rewrite V1_handleStart_run. eexists (V1_start_log now c from _).
      split; [reflexivity|].
      right. eexists. split; [now left|]. split; [exact Ha | reflexivity]. }
  destruct (Js.startsWith trimmed "/restart") eqn:Hrestart.
  { unfold loadSession. run. cbn [sessions].
    destruct (kv_get now (sessions kv) c) as [[|st]|]; run.
    - exists (List.map ConsoleError ["Failed to parse session"%string] ++
              [SendMessage c V1.MsgNoActiveSession]).
      split; [reflexivity|]. left. now eexists _, _.
    - destruct (String.eqb (V1.applicant_token st) "").
      + exists [SendMessage c V1.MsgNoActiveSession]. split; [reflexivity|].
        left. now exists [], V1.MsgNoActiveSession.
      + rewrite V1_handleStart_run. eexists (V1_start_log now c from _).
        split; [reflexivity|].
        right. eexists. split; [now right|]. split; [exact Ha | reflexivity].
    - exists [SendMessage c V1.MsgNoActiveSession]. split; [reflexivity|].
      left. now exists [], V1.MsgNoActiveSession. }
  destruct (Js.startsWith trimmed "/help").
  { exists [SendMessage c V1.MsgHelp]. split; [reflexivity|].
    left. now exists [], V1.MsgHelp. }
  unfold loadSession. run. cbn [sessions].
  destruct (kv_get now (sessions kv) c) as [[|st]|]; run.
  - exists (List.map ConsoleError ["Failed to parse session"%string] ++
            [SendMessage c V1.MsgUseLink]).
    split; [reflexivity|]. left. now eexists _, _.
  - destruct (decide (V1.step st = V1.completed)).
    + exists [SendMessage c V1.MsgUseLink]. split; [reflexivity|].
      left. now exists [], V1.MsgUseLink.
    + exists [SendMessage c V1.MsgUseButtons]. split; [reflexivity|].
      left. now exists [], V1.MsgUseButtons.
  - exists [SendMessage c V1.MsgUseLink]. split; [reflexivity|].
    left. now exists [], V1.MsgUseLink.
Qed.

(** X25. In the five-question worker the text ["/start"], white space and
    a token of one word, once admitted by the limiter: with a token of four
    characters or more it stores a new session for the chat (that very
    token, first step, no answers, started now), replacing any earlier one,
    and sends the welcome followed by the first question; with a shorter
    token it only sends the invalid-token notice and the stored sessions
    stay as they are.  Nothing is delivered either way. *)
Theorem X25_start_command_welcomes :
  forall now chatId from sep token env kv,
    all_ws sep = true -> sep <> ""%string -> is_word token = true ->
    admits now chatId kv = true ->
    let text := ("/start" ++ sep ++ token)%string in
    let r := V1.handleMessage now chatId from (Some text) env kv in
    deliveries (effects_of r) = [] /\
    ((4 <= String.length token)%nat ->
       session_at now (store_of r) chatId =
         Some (V1.mkSession token V1.q1_team_role ∅ now (V1.username from)) /\
       messages (effects_of r) =
         [SendMessage chatId (V1.MsgWelcome (V1.first_name from));
          SendMessage chatId
            (V1.Pressed (V1.MsgQuestion 0 [["q1:yes"]; ["q1:no"]]%string))]) /\
    ((String.length token < 4)%nat ->
       sessions (store_of r) = sessions kv /\
       messages (effects_of r) = [SendMessage chatId V1.MsgInvalidToken]).
Proof.
  intros now chatId from sep token env kv Hsep Hne Hword Ha text r. subst r.
  destruct (start_token_extracted sep token Hsep Hne Hword) as (Htrim & Hstart & Htok).
  fold text in Htrim, Hstart, Htok. unfold V2_start_token in Htok.
  assert (String.eqb token "" = false) as Hnonempty.
  { unfold is_word in Hword. apply andb_true_iff in Hword as [H _].
    now apply negb_true_iff in H. }
  pose proof (trim_word token Hword) as Htw.
  apply admits_room in Ha. unfold V1.handleMessage. run.
  rewrite !(checkRateLimit_admits _ _ _ Ha). run.
  cbn [default from_option id]. rewrite Htrim, Hstart, Htok, Hnonempty.
  rewrite V1_handleStart_run. unfold V1_start_log. rewrite Htw, Hnonempty.
  cbn [orb]. destruct (Nat.ltb_spec (String.length token) 4) as [Hshort|Hlong].
  - split; [reflexivity|]. split; [lia|]. intros _. now split.
  - split; [reflexivity|]. split; [|lia]. intros _. split; [|reflexivity].
    unfold session_at. cbn. now rewrite kv_get_put_session.
Qed.

Lemma X25_witness :
  let st := V1.mkSession "old-token" V1.q5_sop ∅ 0 None in
  let kv := mkKV {[ 7 := (1000000, Json st) ]} ∅ in
  let from := V1.mkUser 7 (Some "ana"%string) "Ana" in
  let r := V1.handleMessage 5 7 from (Some "/start  abcd-1234"%string)
             (V1.mkEnv "t" "u" "l" None) kv in
  session_at 5 (store_of r) 7 =
    Some (V1.mkSession "abcd-1234" V1.q1_team_role ∅ 5 (Some "ana"%string)) /\
  messages (effects_of r) =
    [SendMessage 7 (V1.MsgWelcome "Ana");
     SendMessage 7 (V1.Pressed (V1.MsgQuestion 0 [["q1:yes"]; ["q1:no"]]%string))].
Proof.
  intros st kv from.
  apply (X25_start_command_welcomes 5 7 from "  " "abcd-1234"
           (V1.mkEnv "t" "u" "l" None) kv); try reflexivity.
  - discriminate.
  - vm_compute. lia.
Defined.

Lemma V1_start_log_targets now c from token :
  forallb (targets c) (V1_start_log now c from token) = true.
Proof.
  unfold V1_start_log.
  destruct (String.eqb token "" || (String.length (Js.trim token) <? 4)%nat);
    cbn [forallb targets]; rewrite ?bool_decide_eq_true_2 by reflexivity;
    reflexivity.
Qed.

Lemma V1_notice_targets c errs (m : V1.Reply) :
  forallb (targets c)
    (List.map (ConsoleError (Sess:=V1.SessionState) (Payload:=V1.ResultPayload)) errs
     ++ [SendMessage c m]) = true.
Proof.
  rewrite forallb_app. cbn [forallb targets]. rewrite andb_true_r.
  induction errs; [reflexivity | assumption].
Qed.

(** X26. In the five-question worker a text message never delivers a
    result and never moves a screening forward, whatever it says: it gets
    one reply, or two (welcome and first question) when it starts a
    screening; it leaves the sessions and windows of other chats alone; and
    the stored sessions stay exactly as they were unless the text is a
    /start or /restart command, in which case the chat's session is a fresh
    one: first step, no answers, started now, with a token of four
    characters or more. *)
Theorem X26_text_never_delivers_or_advances :
  forall now chatId from text env kv,
    let trimmed := Js.trim (default ""%string text) in
    let r := V1.handleMessage now chatId from text env kv in
    deliveries (effects_of r) = [] /\
    (1 <= length (messages (effects_of r)) <= 2)%nat /\
    (forall c, c <> chatId ->
               sessions (store_of r) !! c = sessions kv !! c /\
               windows (store_of r) !! c = windows kv !! c) /\
    (sessions (store_of r) = sessions kv \/
     (Js.startsWith trimmed "/start" = true \/
      Js.startsWith trimmed "/restart" = true) /\
     exists token,
       (4 <= String.length token)%nat /\
       session_at now (store_of r) chatId =
         Some (V1.mkSession token V1.q1_team_role ∅ now (V1.username from))).
Proof.
  intros now chatId from text env kv trimmed r. subst r.
  destruct (V1_handleMessage_cases now chatId from text env kv)
    as (tail & -> & Htail).
  cbn [store_of effects_of fst snd].
  pose proof (limiter_log_quiet (Msg:=V1.Reply) (Payload:=V1.ResultPayload)
                now chatId kv) as (Ht & Hw & Hd & Hm). cbv zeta in Ht, Hw, Hd, Hm.
  rewrite deliveries_app, messages_app, Hd, Hm. cbn [app].
  destruct Htail as [(errs & m & ->)|(token & Hcmd & Ha & ->)].
  - rewrite deliveries_app, messages_app, deliveries_errors, messages_errors.
    split; [reflexivity|]. split; [cbn; lia|]. split.
    + intros c Hc. apply replay_frame with (c := chatId); [|exact Hc].
      rewrite forallb_app, Ht. apply V1_notice_targets.
    + left. rewrite log_sessions. apply replay_no_session_write.
      now rewrite filter_errors.
  - split; [|split; [|split]].
    + unfold V1_start_log. now destruct (_ || _).
    + unfold V1_start_log. destruct (_ || _); cbn; lia.
    + intros c Hc. apply replay_frame with (c := chatId); [|exact Hc].
      rewrite forallb_app, Ht. apply V1_start_log_targets.
    + rewrite log_sessions. unfold session_at. rewrite log_sessions.
      unfold V1_start_log.
      destruct (String.eqb token "" || (String.length (Js.trim token) <? 4)%nat)
        eqn:Hbad; [now left|].
      right. split; [exact Hcmd|]. exists (Js.trim token).
      apply orb_false_iff in Hbad as [_ Hlen]. apply Nat.ltb_ge in Hlen.
      split; [exact Hlen|]. cbn. now rewrite kv_get_put_session.
Qed.

Lemma V1_outcome_deliveries now cq env kv log :
  V1_outcome now cq env kv log -> (length (deliveries log) <= 1)%nat.
Proof. destruct 1; unfold V1_report_log; log_simpl; cbn; lia. Qed.

Lemma deliveries_in_worker log :
  length (deliveries (List.map V1.worker_effect log)) = length (deliveries log).
Proof.
  induction log as [|e log IH]; [reflexivity|].
  destruct e; cbn [List.map V1.worker_effect deliveries List.filter is_delivery length] in *;
    unfold deliveries in IH; rewrite ?IH; reflexivity.
Qed.

Lemma V1_handleMessage_frame now c from text env kv other :
  other <> c ->
  let r := V1.handleMessage now c from text env kv in
  sessions (store_of r) !! other = sessions kv !! other /\
  windows (store_of r) !! other = windows kv !! other /\
  deliveries (effects_of r) = [].
Proof.
  intros Hne r. subst r.
  destruct (V1_handleMessage_cases now c from text env kv) as (tail & -> & Htail).
  cbn [store_of effects_of fst snd].
  pose proof (limiter_log_quiet (Msg:=V1.Reply) (Payload:=V1.ResultPayload)
                now c kv) as (Ht & _ & Hd & _). cbv zeta in Ht, Hd.
  rewrite deliveries_app, Hd. cbn [app].
  destruct Htail as [(errs & m & ->)|(token & _ & _ & ->)].
  - rewrite deliveries_app, deliveries_errors.
    destruct (replay_frame (Payload:=V1.ResultPayload) now c other
                (effects_of (checkRateLimit now c kv) ++
                 List.map ConsoleError errs ++ [SendMessage c m]) kv) as [Hs Hw];
      [rewrite forallb_app, Ht; apply V1_notice_targets | exact Hne |].
    now repeat split.
  - destruct (replay_frame now c other
                (effects_of (checkRateLimit now c kv) ++ V1_start_log now c from token)
                kv) as [Hs Hw];
      [rewrite forallb_app, Ht; apply V1_start_log_targets | exact Hne |].
    repeat split; try assumption. unfold V1_start_log. now destruct (_ || _).
Qed.

Lemma V1_handleWebhook_frame now body env kv other :
  V1_update_chat body <> Some other ->
  let r := V1.handleWebhook now body env kv in
  sessions (store_of r) !! other = sessions kv !! other /\
  windows (store_of r) !! other = windows kv !! other /\
  (length (deliveries (effects_of r)) <= 1)%nat.
Proof.
  intros Hne r. subst r. unfold V1.handleWebhook.
  destruct body as [| |update]; try (cbn; repeat split; lia).
  cbn [V1_update_chat] in Hne.
  destruct (V1.callback_query update) as [cq|].
  - unfold V1.in_worker.
    destruct (V1_handleCallbackQuery_outcome now cq env kv) as (log & Hout & ->).
    cbn [store_of effects_of fst snd]. rewrite deliveries_in_worker.
    destruct (replay_frame now (V1_chat cq) other log kv) as [Hs Hw];
      [eapply V1_outcome_targets; eauto | unfold V1_chat; congruence |].
    repeat split; try assumption. eapply V1_outcome_deliveries; eauto.
  - destruct (V1.message update) as [msg|]; [|cbn; repeat split; lia].
    cbn [fmap option_fmap option_map] in Hne.
    destruct (V1_handleMessage_frame now (V1.chat_id msg)
                (default (V1.mkUser (V1.chat_id msg) None "there") (V1.message_from msg))
                (V1.text msg) env kv other) as (Hs & Hw & Hd); [congruence|].
    repeat split; try assumption. rewrite Hd. cbn. lia.
Qed.

(** X27. Whatever request reaches the five-question Worker, the sessions
    and rate-limit windows of every chat other than the update's own stay
    as they are and at most one result is delivered.  The answer is 200
    (always so for a POST on the webhook route, whatever the body holds) or
    404, and with 404 nothing was read, written or sent. *)
Theorem X27_worker_touches_one_chat :
  forall now request env kv other,
    V1_update_chat (V1.body request) <> Some other ->
    let r := V1.fetch now request env kv in
    sessions (store_of r) !! other = sessions kv !! other /\
    windows (store_of r) !! other = windows kv !! other /\
    (length (deliveries (effects_of r)) <= 1)%nat /\
    (String.eqb (V1.method request) "POST" &&
     String.eqb (V1.pathname request) "/telegram/webhook" = true ->
     result_of r = V1.mkResponse 200 "ok") /\
    (result_of r = V1.mkResponse 200 "ok" \/
     result_of r = V1.mkResponse 404 "Not Found" /\
     store_of r = kv /\ effects_of r = []).
Proof.
  intros now request env kv other Hne r. subst r. unfold V1.fetch.
  destruct (String.eqb (V1.method request) "GET" &&
            String.eqb (V1.pathname request) "/health") eqn:Hhealth.
  { apply andb_true_iff in Hhealth as [Hget _]. apply String.eqb_eq in Hget.
    rewrite Hget. cbn. repeat split; try lia; try discriminate. now left. }
  destruct (String.eqb (V1.method request) "POST" &&
            String.eqb (V1.pathname request) "/telegram/webhook").
  - pose proof (V1_handleWebhook_frame now (V1.body request) env kv other Hne)
      as (Hs & Hw & Hd). cbv zeta in Hs, Hw, Hd.
    unfold bind, ret.
    destruct (V1.handleWebhook now (V1.body request) env kv) as [[[] kv'] log].
    cbn [result_of store_of effects_of fst snd] in *. rewrite app_nil_r.
    repeat split; try assumption. now left.
  - cbn. repeat split; try lia; try discriminate. right. now repeat split.
Qed.

Lemma X27_witness :
  let st := V1.mkSession "tok1" V1.q5_sop ∅ 0 None in
  let kv := mkKV {[ 7 := (1000000, Json st); 8 := (1000000, Json st) ]} ∅ in
  let cq := V1.mkCallbackQuery "cb" (V1.mkUser 7 None "Ana") (Some "q5:yes"%string) in
  let request := V1.mkRequest "POST" "/telegram/webhook"
                   (V1.JsonUpdate (V1.mkUpdate None (Some cq))) in
  let r := V1.fetch 5 request (V1.mkEnv "t" "u" "l" None) kv in
  sessions (store_of r) !! 8 = sessions kv !! 8 /\
  windows (store_of r) !! 8 = windows kv !! 8 /\
  (length (deliveries (effects_of r)) <= 1)%nat /\
  (true = true -> result_of r = V1.mkResponse 200 "ok") /\
  (result_of r = V1.mkResponse 200 "ok" \/
   result_of r = V1.mkResponse 404 "Not Found" /\
   store_of r = kv /\ effects_of r = []).
Proof.
  intros st kv cq request.
  apply (X27_worker_touches_one_chat 5 request (V1.mkEnv "t" "u" "l" None) kv 8).
  vm_compute. discriminate.
Defined.
